(** * Lucy-Richardson deconvolution and variants

    A shallow embedding of [LRDeconvolve.py]: the plain Lucy-Richardson
    estimator [LRDeconvolve], its two regularised subclasses
    [LRFisterDeconvolve] and [LRL2Deconvolve], and the cross-validated
    selector [LRFisterGrid].

    Layout:
    - Python exceptions and the two small monads used by the methods;
    - the numeric interface (what the code asks of a numpy scalar), with
      an IEEE binary64 instance and an exact real instance;
    - the numpy / scipy / sklearn primitives the code calls;
    - the estimator classes, method by method;
    - the recurrences as the specification words them;
    - the theorems. *)

From Stdlib Require Import String.
From Stdlib Require Import List ZArith Lia Bool Arith.
From Stdlib Require Import Floats Reals Lra.
Import ListNotations.

Set Implicit Arguments.
Local Open Scope nat_scope.

(** ** Exceptions and results *)

(** The Python exceptions the modelled code can raise.  The
    specification's error names map onto them: ShapeMismatch is numpy's
    and sklearn's [ValueError], UsageError is the [AttributeError] of a
    fitted attribute read before [fit]. *)
Inductive exn : Type :=
| ValueError
| AttributeError
| KeyError
| UnboundLocalError.

Inductive result (T : Type) : Type :=
| Ok (v : T)
| Raise (e : exn).
Arguments Ok {T} v.
Arguments Raise {T} e.

Definition bind {T U : Type} (r : result T) (k : T -> result U) : result U :=
  match r with
  | Ok v => k v
  | Raise e => Raise e
  end.

Declare Scope py_scope.
Delimit Scope py_scope with py.
Notation "x <- r ;; k" := (bind r (fun x => k))
  (at level 61, r at next level, right associativity) : py_scope.
Local Open Scope py_scope.

Definition is_ok {T : Type} (r : result T) : bool :=
  match r with Ok _ => true | Raise _ => false end.

(** A method body: it may assign attributes of [self] and then raise, so
    the instance is returned on both outcomes. *)
Definition method (S T : Type) : Type := S -> S * result T.

Definition mret {S T : Type} (v : T) : method S T := fun s => (s, Ok v).

Definition mbind {S T U : Type} (m : method S T) (k : T -> method S U)
  : method S U :=
  fun s => match m s with
           | (s', Ok v) => k v s'
           | (s', Raise e) => (s', Raise e)
           end.

(** [self.attr = v] *)
Definition assign {S : Type} (upd : S -> S) : method S unit :=
  fun s => (upd s, Ok tt).

(** Evaluation of an expression that reads [self] and may raise. *)
Definition eval {S T : Type} (f : S -> result T) : method S T :=
  fun s => (s, f s).

Notation "x <~ m ;; k" := (mbind m (fun x => k))
  (at level 61, m at next level, right associativity) : py_scope.
Notation "m ;;; k" := (mbind m (fun _ => k))
  (at level 61, right associativity) : py_scope.

(** [self.attr] for an attribute that exists only once assigned. *)
Definition getattr {T : Type} (a : option T) : result T :=
  match a with
  | Some v => Ok v
  | None => Raise AttributeError
  end.

(** [for i in range(...)] over a loop state, stopping at the first raise. *)
Fixpoint for_each {S : Type} (body : nat -> S -> result S)
         (range : list nat) (s : S) : result S :=
  match range with
  | [] => Ok s
  | i :: rest => s' <- body i s ;; for_each body rest s'
  end.

(** [range(n)] for a Python int [n]: empty when [n <= 0]. *)
Definition py_range (n : Z) : list nat := seq 0 (Z.to_nat n).

(** ** Numeric interface *)

(** What the code asks of an array element.  [of_Z] gives the integer
    literals, [nfinite] is the finiteness test sklearn runs on metric
    inputs, [nltb] the strict comparison used to rank scores, [nisnan]
    is [np.isnan] and [nan_to_num fill v] is [np.nan_to_num(v, nan=fill)]
    on one element, both used by the grid search when it ranks. *)
Class Numeric (A : Type) : Type := {
  of_Z : Z -> A;
  nadd : A -> A -> A;
  nsub : A -> A -> A;
  nmul : A -> A -> A;
  ndiv : A -> A -> A;
  nsqrt : A -> A;
  nexp : A -> A;
  nltb : A -> A -> bool;
  nfinite : A -> bool;
  nisnan : A -> bool;
  nan_to_num : A -> A -> A
}.

Definition of_nat {A : Type} `{Numeric A} (n : nat) : A := of_Z (Z.of_nat n).
Definition nzero {A : Type} `{Numeric A} : A := of_Z 0.
Definition none_ {A : Type} `{Numeric A} : A := of_Z 1.
Definition nsquare {A : Type} `{Numeric A} (a : A) : A := nmul a a.

(** *** IEEE binary64, numpy's float64 *)

Module F64.

Definition float_of_Z (z : Z) : float :=
  match z with
  | Z0 => PrimFloat.of_uint63 (Uint63.of_Z 0)
  | Zpos _ => PrimFloat.of_uint63 (Uint63.of_Z z)
  | Zneg p => PrimFloat.opp (PrimFloat.of_uint63 (Uint63.of_Z (Zpos p)))
  end.

Definition finite (x : float) : bool :=
  negb (PrimFloat.is_nan x) && negb (PrimFloat.is_infinity x).

(** The kernel's float primitives have no exponential.  This one
    scales the argument down by 2^10, sums the series to 20 terms and
    squares back ten times; arguments below -750 give 0 and above 710
    give infinity, as in binary64.  It agrees with [np.exp] to about
    thirteen significant digits (the squarings amplify the rounding of
    the series), returns NaN on NaN and 0 on minus infinity, and is used
    only to run the model on sample inputs. *)
Fixpoint series (y term acc : float) (k : nat) (i : float) : float :=
  match k with
  | O => acc
  | S k' =>
      let term' := PrimFloat.div (PrimFloat.mul term y) i in
      series y term' (PrimFloat.add acc term') k' (PrimFloat.add i 1%float)
  end.

Fixpoint squarings (x : float) (k : nat) : float :=
  match k with
  | O => x
  | S k' => squarings (PrimFloat.mul x x) k'
  end.

Definition exp (x : float) : float :=
  if PrimFloat.is_nan x then x
  else if PrimFloat.ltb x (-750)%float then 0%float
  else if PrimFloat.ltb 710%float x then infinity
  else squarings (series (PrimFloat.div x 1024%float) 1%float 1%float 20 1%float) 10.

(** The largest finite binary64 number, [np.finfo(np.float64).max]. *)
Definition max_finite : float := 0x1.fffffffffffffp+1023%float.

(** [np.nan_to_num(v, nan=fill)]: NaN becomes [fill], the infinities
    become the largest and the least finite number. *)
Definition float_nan_to_num (fill v : float) : float :=
  if PrimFloat.is_nan v then fill
  else if PrimFloat.is_infinity v
       then (if PrimFloat.ltb 0%float v then max_finite else PrimFloat.opp max_finite)
       else v.

#[global] Instance float_numeric : Numeric float := {|
  of_Z := float_of_Z;
  nadd := PrimFloat.add;
  nsub := PrimFloat.sub;
  nmul := PrimFloat.mul;
  ndiv := PrimFloat.div;
  nsqrt := PrimFloat.sqrt;
  nexp := exp;
  nltb := PrimFloat.ltb;
  nfinite := finite;
  nisnan := PrimFloat.is_nan;
  nan_to_num := float_nan_to_num
|}.

End F64.

(** *** Exact real arithmetic *)

(** The real numbers, for what the arithmetic of the code computes when
    nothing is rounded.  The reals have no NaN and no infinity: the
    quotient by zero and the square root of a negative number, which
    binary64 answers with NaN or an infinity, have no value here, and
    the library functions [Rdiv] and [sqrt] only return a conventional
    one.  A statement over this instance therefore carries the
    hypotheses that keep every divisor non-zero and every radicand
    non-negative; the behaviour of the code outside them is stated in
    binary64. *)

Module Exact.

Definition ltb (a b : R) : bool := if Rlt_dec a b then true else false.

#[global] Instance real_numeric : Numeric R := {|
  of_Z := IZR;
  nadd := Rplus;
  nsub := Rminus;
  nmul := Rmult;
  ndiv := Rdiv;
  nsqrt := sqrt;
  nexp := Rtrigo_def.exp;
  nltb := ltb;
  nfinite := fun _ => true;
  nisnan := fun _ => false;
  nan_to_num := fun _ v => v
|}.

End Exact.

(** ** numpy, scipy and sklearn primitives *)

Section Primitives.

Context {A : Type} `{Numeric A}.

(** [np.sum] of a 1-D array, accumulated left to right. *)
Definition np_sum (a : list A) : A := fold_left nadd a nzero.

(** [np.mean] of a 1-D array. *)
Definition np_mean (a : list A) : A := ndiv (np_sum a) (of_nat (length a)).

(** [np.flip] of a 1-D array. *)
Definition np_flip (a : list A) : list A := rev a.

(** A 2-D array: [ncols] columns and the rows, each of that length. *)
Record batch : Type := {
  ncols : nat;
  rows : list (list A)
}.

Definition batch_wf (X : batch) : Prop :=
  Forall (fun r => length r = ncols X) (rows X).

Definition column (X : batch) (j : nat) : list A :=
  map (fun r => nth j r nzero) (rows X).

(** [np.mean(X, axis=0)]: one mean per column, taken over the rows. *)
Definition mean_axis0 (X : batch) : list A :=
  map (fun j => np_mean (column X j)) (seq 0 (ncols X)).

(** numpy's binary operators on 1-D arrays: elementwise on equal
    lengths, a length-1 operand is broadcast against the other, any
    other pair of lengths raises. *)
Definition broadcast (op : A -> A -> A) (a b : list A) : result (list A) :=
  if length a =? length b then Ok (map (fun p => op (fst p) (snd p)) (combine a b))
  else match a, b with
       | [x], _ => Ok (map (fun y => op x y) b)
       | _, [y] => Ok (map (fun x => op x y) a)
       | _, _ => Raise ValueError
       end.

Definition np_divide : list A -> list A -> result (list A) := broadcast ndiv.
Definition np_multiply : list A -> list A -> result (list A) := broadcast nmul.

Definition dot (a b : list A) : A :=
  np_sum (map (fun p => nmul (fst p) (snd p)) (combine a b)).

(** [scipy.signal.convolve(in1, in2, mode='valid')] on 1-D arrays.
    scipy swaps the operands when the second is the longer one, so the
    output has [max - min + 1] entries; entry [k] pairs the window of
    the longer operand that starts at [k] with the reversed shorter
    one.  An empty operand raises. *)
Definition convolve (in1 in2 : list A) : result (list A) :=
  match in1, in2 with
  | [], _ | _, [] => Raise ValueError
  | _, _ =>
      let (volume, kernel) :=
        if length in1 <? length in2 then (in2, in1) else (in1, in2) in
      Ok (map (fun k => dot (skipn k volume) (rev kernel))
              (seq 0 (length volume - length kernel + 1)))
  end.

(** [sklearn.metrics.mean_squared_error]: the inputs are validated
    (same number of samples, at least one, all finite) before the mean
    of the squared differences is taken. *)
Definition mean_squared_error (y_true y_pred : list A) : result A :=
  if negb (length y_true =? length y_pred) then Raise ValueError
  else if length y_true =? 0 then Raise ValueError
  else if negb (forallb nfinite y_true && forallb nfinite y_pred)
       then Raise ValueError
  else Ok (np_mean (map (fun p => nsquare (nsub (fst p) (snd p)))
                        (combine y_true y_pred))).

End Primitives.

Arguments batch A : clear implicits.

(** ** Telemetry *)

(** One [tf.summary.scalar(name, value, step=...)] call. *)
Definition event (A : Type) : Type := (string * A * nat)%type.

(** The local variables of the iteration loops. [var_current_O] is
    unbound until the first pass through the body. *)
Record loop_vars (A : Type) : Type := {
  var_previous_O : list A;
  var_current_O : option (list A);
  var_log : list (event A)
}.

(** [return current_O] after the loop. *)
Definition return_current_O {A : Type} (v : loop_vars A)
  : result (list A * list (event A)) :=
  match var_current_O v with
  | Some current_O => Ok (current_O, var_log v)
  | None => Raise UnboundLocalError
  end.

(** ** class LRDeconvolve *)

Module LRDeconvolve.
Section Class.

Context {A : Type} `{Numeric A}.

Record t : Type := {
  impulse_response_x : list A;
  impulse_response_y : list A;
  convolved_x : list A;
  reconvolved_x : list A;
  deconvolved_x : list A;
  iterations : Z;
  ground_truth_y : option (list A);
  (* attributes that exist only once [fit] has assigned them *)
  measured_y_ : option (list A);
  deconvolved_y_ : option (list A);
  reconvolved_y_ : option (list A)
}.

Definition _get_deconvolved_x (impulse_x conv_x : list A) : list A :=
  let average_impulse_x := np_mean impulse_x in
  map (fun c => nsub c average_impulse_x) conv_x.

Definition __init__ (impulse_x impulse_y conv_x : list A)
           (its : Z) (ground_truth : option (list A)) : t :=
  {| impulse_response_x := impulse_x;
     impulse_response_y := impulse_y;
     convolved_x := conv_x;
     reconvolved_x := conv_x;
     deconvolved_x := _get_deconvolved_x impulse_x conv_x;
     iterations := its;
     ground_truth_y := ground_truth;
     measured_y_ := None;
     deconvolved_y_ := None;
     reconvolved_y_ := None |}.

Definition set_measured_y_ (v : list A) (self : t) : t :=
  {| impulse_response_x := impulse_response_x self;
     impulse_response_y := impulse_response_y self;
     convolved_x := convolved_x self;
     reconvolved_x := reconvolved_x self;
     deconvolved_x := deconvolved_x self;
     iterations := iterations self;
     ground_truth_y := ground_truth_y self;
     measured_y_ := Some v;
     deconvolved_y_ := deconvolved_y_ self;
     reconvolved_y_ := reconvolved_y_ self |}.

Definition set_deconvolved_y_ (v : list A) (self : t) : t :=
  {| impulse_response_x := impulse_response_x self;
     impulse_response_y := impulse_response_y self;
     convolved_x := convolved_x self;
     reconvolved_x := reconvolved_x self;
     deconvolved_x := deconvolved_x self;
     iterations := iterations self;
     ground_truth_y := ground_truth_y self;
     measured_y_ := measured_y_ self;
     deconvolved_y_ := Some v;
     reconvolved_y_ := reconvolved_y_ self |}.

Definition set_reconvolved_y_ (v : list A) (self : t) : t :=
  {| impulse_response_x := impulse_response_x self;
     impulse_response_y := impulse_response_y self;
     convolved_x := convolved_x self;
     reconvolved_x := reconvolved_x self;
     deconvolved_x := deconvolved_x self;
     iterations := iterations self;
     ground_truth_y := ground_truth_y self;
     measured_y_ := measured_y_ self;
     deconvolved_y_ := deconvolved_y_ self;
     reconvolved_y_ := Some v |}.

(** The Gaussian-smoothed guess is computed and dropped: the measured
    signal itself is returned. *)
Definition _deconvolution_guess (self : t) (measured_y : list A) : list A :=
  let sigma := of_Z 1 in
  let x := impulse_response_x self in
  let mu := np_mean x in
  let gauss :=
    map (fun xi => nexp (nmul (ndiv (of_Z (-1)) (of_Z 2))
                              (nsquare (ndiv (nsub xi mu) sigma)))) x in
  let gauss := map (fun g => ndiv g (np_sum gauss)) gauss in
  measured_y.

Definition _save_iteration_stats (self : t) (current_deconvolved : list A)
           (iteration : nat) : result (list (event A)) :=
  current_reconstruction <-
    convolve current_deconvolved (impulse_response_y self) ;;
  measured <- getattr (measured_y_ self) ;;
  reconstruction_mse <- mean_squared_error current_reconstruction measured ;;
  let log := [("reconstruction_mse"%string, reconstruction_mse, iteration)] in
  match ground_truth_y self with
  | Some ground_truth =>
      deconvolved_mse <- mean_squared_error current_deconvolved ground_truth ;;
      ground_truth_reconvolved <-
        convolve ground_truth (impulse_response_y self) ;;
      reconvolved_mse <-
        mean_squared_error current_reconstruction ground_truth_reconvolved ;;
      Ok (log ++ [("deconvolved_mse"%string, deconvolved_mse, iteration);
                  ("reconvolved_mse"%string, reconvolved_mse, iteration)])
  | None => Ok log
  end.

(** Body of the loop of [_LR]. *)
Definition _LR_body (self : t) (measured_y impulse_response_y_reversed : list A)
           (iteration : nat) (v : loop_vars A) : result (loop_vars A) :=
  I <- convolve (var_previous_O v) (impulse_response_y self) ;;
  relative_blur <- np_divide measured_y I ;;
  correction_factor_estimate <-
    convolve relative_blur impulse_response_y_reversed ;;
  current_O <- np_multiply (var_previous_O v) correction_factor_estimate ;;
  stats <- _save_iteration_stats self current_O iteration ;;
  Ok {| var_previous_O := current_O;
        var_current_O := Some current_O;
        var_log := var_log v ++ stats |}.

Definition _LR (self : t) (measured_y : list A)
  : result (list A * list (event A)) :=
  let previous_O := _deconvolution_guess self measured_y in
  let impulse_response_y_reversed := np_flip (impulse_response_y self) in
  v <- for_each (_LR_body self measured_y impulse_response_y_reversed)
                (py_range (iterations self))
                {| var_previous_O := previous_O;
                   var_current_O := None;
                   var_log := [] |} ;;
  return_current_O v.

(** [fit] returns [self]; here the instance is the method's state and
    the value returned is the telemetry written on the way. *)
Definition fit (X : batch A) : method t (list (event A)) :=
  assign (set_measured_y_ (mean_axis0 X)) ;;;
  out <~ eval (fun self => m <- getattr (measured_y_ self) ;; _LR self m) ;;
  assign (set_deconvolved_y_ (fst out)) ;;;
  reconvolved <~ eval (fun self => d <- getattr (deconvolved_y_ self) ;;
                                   convolve d (impulse_response_y self)) ;;
  assign (set_reconvolved_y_ reconvolved) ;;;
  mret (snd out).

Definition predict (self : t) (X : batch A) : result (list A) :=
  getattr (deconvolved_y_ self).

(** Default scoring is reconvolved mean squared error. *)
Definition score (self : t) (X_test : batch A) : result A :=
  let mean_X_test := mean_axis0 X_test in
  reconvolved <- getattr (reconvolved_y_ self) ;;
  mse <- mean_squared_error reconvolved mean_X_test ;;
  Ok (nmul (of_Z (-1)) mse).

End Class.
Arguments t A : clear implicits.
End LRDeconvolve.

(** ** class LRFisterDeconvolve(LRDeconvolve) *)

Module LRFisterDeconvolve.
Section Class.

Context {A : Type} `{Numeric A}.

(** The inherited attributes live in [super]. *)
Record t : Type := {
  super : LRDeconvolve.t A;
  regularizer_width : A;
  logging : bool
}.

Definition __init__ (impulse_x impulse_y conv_x : list A) (width : A)
           (its : Z) (ground_truth : option (list A)) (log : bool) : t :=
  {| super := LRDeconvolve.__init__ impulse_x impulse_y conv_x its ground_truth;
     regularizer_width := width;
     logging := log |}.

Definition with_super (f : LRDeconvolve.t A -> LRDeconvolve.t A) (self : t) : t :=
  {| super := f (super self);
     regularizer_width := regularizer_width self;
     logging := logging self |}.

(** A normalized gaussian: center [mu], standard deviation [sigma],
    unit integrated amplitude. *)
Definition _normalized_gaussian (x : list A) (mu sigma : A) : list A :=
  let norm_gauss :=
    map (fun xi => nexp (nmul (ndiv (of_Z (-1)) (of_Z 2))
                              (nsquare (ndiv (nsub xi mu) sigma)))) x in
  map (fun g => ndiv g (np_sum norm_gauss)) norm_gauss.

(** Loop body of the [if self.logging] branch. *)
Definition _LR_fister_body_logging (self : t)
           (measured_y impulse_response_y_reversed gauss : list A)
           (iteration : nat) (v : loop_vars A) : result (loop_vars A) :=
  I <- convolve (var_previous_O v) (LRDeconvolve.impulse_response_y (super self)) ;;
  relative_blur <- np_divide measured_y I ;;
  correction_factor_estimate <-
    convolve relative_blur impulse_response_y_reversed ;;
  current_O <- np_multiply (var_previous_O v) correction_factor_estimate ;;
  current_O <- convolve current_O gauss ;;
  stats <- LRDeconvolve._save_iteration_stats (super self) current_O iteration ;;
  Ok {| var_previous_O := current_O;
        var_current_O := Some current_O;
        var_log := var_log v ++ stats |}.

(** Loop body of the [else] branch. *)
Definition _LR_fister_body (self : t)
           (measured_y impulse_response_y_reversed gauss : list A)
           (iteration : nat) (v : loop_vars A) : result (loop_vars A) :=
  I <- convolve (var_previous_O v) (LRDeconvolve.impulse_response_y (super self)) ;;
  relative_blur <- np_divide measured_y I ;;
  correction_factor_estimate <-
    convolve relative_blur impulse_response_y_reversed ;;
  current_O <- np_multiply (var_previous_O v) correction_factor_estimate ;;
  current_O <- convolve current_O gauss ;;
  Ok {| var_previous_O := current_O;
        var_current_O := Some current_O;
        var_log := var_log v |}.

Definition _LR_fister (self : t) (measured_y : list A)
  : result (list A * list (event A)) :=
  let gauss :=
    _normalized_gaussian
      (LRDeconvolve.impulse_response_x (super self))
      (np_mean (LRDeconvolve.impulse_response_x (super self)))
      (regularizer_width self) in
  let previous_O := LRDeconvolve._deconvolution_guess (super self) measured_y in
  let impulse_response_y_reversed :=
    np_flip (LRDeconvolve.impulse_response_y (super self)) in
  let init := {| var_previous_O := previous_O;
                 var_current_O := None;
                 var_log := [] |} in
  v <- (if logging self
        then for_each (_LR_fister_body_logging
                         self measured_y impulse_response_y_reversed gauss)
                      (py_range (LRDeconvolve.iterations (super self))) init
        else for_each (_LR_fister_body
                         self measured_y impulse_response_y_reversed gauss)
                      (py_range (LRDeconvolve.iterations (super self))) init) ;;
  return_current_O v.

(** One iteration of Fister-regularized Lucy-Richardson deconvolution
    (currently unused). *)
Definition _LR_fister_iteration (self : t)
           (previous_deconvolved measured_y impulse_response_y_reversed gauss : list A)
  : result (list A) :=
  I <- convolve previous_deconvolved (LRDeconvolve.impulse_response_y (super self)) ;;
  relative_blur <- np_divide measured_y I ;;
  correction_factor_estimate <-
    convolve relative_blur impulse_response_y_reversed ;;
  current_deconvolved <- np_multiply previous_deconvolved correction_factor_estimate ;;
  convolve current_deconvolved gauss.

Definition fit (X : batch A) : method t (list (event A)) :=
  assign (with_super (LRDeconvolve.set_measured_y_ (mean_axis0 X))) ;;;
  out <~ eval (fun self =>
                 m <- getattr (LRDeconvolve.measured_y_ (super self)) ;;
                 _LR_fister self m) ;;
  assign (with_super (LRDeconvolve.set_deconvolved_y_ (fst out))) ;;;
  reconvolved <~
    eval (fun self =>
            d <- getattr (LRDeconvolve.deconvolved_y_ (super self)) ;;
            convolve d (LRDeconvolve.impulse_response_y (super self))) ;;
  assign (with_super (LRDeconvolve.set_reconvolved_y_ reconvolved)) ;;;
  mret (snd out).

(** Inherited. *)
Definition predict (self : t) (X : batch A) : result (list A) :=
  LRDeconvolve.predict (super self) X.

Definition score (self : t) (X_test : batch A) : result A :=
  LRDeconvolve.score (super self) X_test.

End Class.
Arguments t A : clear implicits.
End LRFisterDeconvolve.

(** ** class LRL2Deconvolve(LRDeconvolve) *)

Module LRL2Deconvolve.
Section Class.

Context {A : Type} `{Numeric A}.

Record t : Type := {
  super : LRDeconvolve.t A;
  alpha : A
}.

Definition __init__ (impulse_x impulse_y conv_x : list A) (a : A)
           (its : Z) (ground_truth : option (list A)) : t :=
  {| super := LRDeconvolve.__init__ impulse_x impulse_y conv_x its ground_truth;
     alpha := a |}.

Definition with_super (f : LRDeconvolve.t A -> LRDeconvolve.t A) (self : t) : t :=
  {| super := f (super self); alpha := alpha self |}.

(** Body of the loop of [_LRL2]. *)
Definition _LRL2_body (self : t) (measured_y impulse_response_y_reversed : list A)
           (iteration : nat) (v : loop_vars A) : result (loop_vars A) :=
  I <- convolve (var_previous_O v) (LRDeconvolve.impulse_response_y (super self)) ;;
  relative_blur <- np_divide measured_y I ;;
  correction_factor_estimate <-
    convolve relative_blur impulse_response_y_reversed ;;
  current_O <- np_multiply (var_previous_O v) correction_factor_estimate ;;
  let current_O :=
    map (fun o => ndiv (nadd (of_Z (-1))
                             (nsqrt (nadd (of_Z 1)
                                          (nmul (nmul (of_Z 2) (alpha self)) o))))
                       (alpha self)) current_O in
  Ok {| var_previous_O := current_O;
        var_current_O := Some current_O;
        var_log := var_log v |}.

Definition _LRL2 (self : t) (measured_y : list A) : result (list A) :=
  let previous_O := LRDeconvolve._deconvolution_guess (super self) measured_y in
  let impulse_response_y_reversed :=
    np_flip (LRDeconvolve.impulse_response_y (super self)) in
  v <- for_each (_LRL2_body self measured_y impulse_response_y_reversed)
                (py_range (LRDeconvolve.iterations (super self)))
                {| var_previous_O := previous_O;
                   var_current_O := None;
                   var_log := [] |} ;;
  out <- return_current_O v ;;
  Ok (fst out).

(** This [fit] keeps the measured signal in a local variable: the
    attribute [measured_y_] is not assigned. *)
Definition fit (X : batch A) : method t unit :=
  let measured_y := mean_axis0 X in
  deconvolved <~ eval (fun self => _LRL2 self measured_y) ;;
  assign (with_super (LRDeconvolve.set_deconvolved_y_ deconvolved)) ;;;
  reconvolved <~
    eval (fun self =>
            d <- getattr (LRDeconvolve.deconvolved_y_ (super self)) ;;
            convolve d (LRDeconvolve.impulse_response_y (super self))) ;;
  assign (with_super (LRDeconvolve.set_reconvolved_y_ reconvolved)) ;;;
  mret tt.

(** Inherited. *)
Definition predict (self : t) (X : batch A) : result (list A) :=
  LRDeconvolve.predict (super self) X.

Definition score (self : t) (X_test : batch A) : result A :=
  LRDeconvolve.score (super self) X_test.

End Class.
Arguments t A : clear implicits.
End LRL2Deconvolve.

(** ** The grid search engine *)

(** [sklearn.model_selection.GridSearchCV] over [LRFisterDeconvolve], as
    far as [LRFisterGrid.fit] drives it: unshuffled K-fold splitting of
    the rows, one fit and one scoring per candidate and fold, a failed
    fit or scoring recorded as the missing score ([error_score=nan],
    here [None]), ValueError when every fit failed, the per-candidate
    mean and standard deviation of each metric, the ranks on the refit
    metric with the NaN means placed at the least mean minus one, the
    first candidate of least rank, and the refit of that candidate on
    the whole batch. *)

Module GridSearchCV.
Section Search.

Context {A : Type} `{Numeric A}.

(** A scorer is called as [scorer(estimator, X)]. *)
Definition scorer : Type := LRFisterDeconvolve.t A -> batch A -> result A.

(** A score cell; [None] is the NaN of a failed fit or scoring. *)
Definition cell : Type := option A.

Definition cell_of (r : result A) : cell :=
  match r with Ok v => Some v | Raise _ => None end.

Definition fold_sizes (n_splits n_samples : nat) : list nat :=
  map (fun i => n_samples / n_splits
                + (if i <? n_samples mod n_splits then 1 else 0))
      (seq 0 n_splits).

(** Train and test rows of each fold, folds being consecutive blocks. *)
Fixpoint folds_from (X : batch A) (current : nat) (sizes : list nat)
  : list (batch A * batch A) :=
  match sizes with
  | [] => []
  | fold_size :: rest =>
      let start := current in
      let stop := current + fold_size in
      ({| ncols := ncols X;
          rows := firstn start (rows X) ++ skipn stop (rows X) |},
       {| ncols := ncols X;
          rows := firstn fold_size (skipn start (rows X)) |})
        :: folds_from X stop rest
  end.

(** [KFold(n_splits).split(X)]: at least two splits, and no more
    splits than rows. *)
Definition KFold_split (n_splits : nat) (X : batch A)
  : result (list (batch A * batch A)) :=
  let n_samples := length (rows X) in
  if n_splits <? 2 then Raise ValueError
  else if n_samples <? n_splits then Raise ValueError
  else Ok (folds_from X 0 (fold_sizes n_splits n_samples)).

(** [clone(estimator)]: a new instance from the constructor
    parameters, without fitted attributes. *)
Definition clone (e : LRFisterDeconvolve.t A) : LRFisterDeconvolve.t A :=
  let s := LRFisterDeconvolve.super e in
  LRFisterDeconvolve.__init__
    (LRDeconvolve.impulse_response_x s) (LRDeconvolve.impulse_response_y s)
    (LRDeconvolve.convolved_x s) (LRFisterDeconvolve.regularizer_width e)
    (LRDeconvolve.iterations s) (LRDeconvolve.ground_truth_y s)
    (LRFisterDeconvolve.logging e).

(** [estimator.set_params(regularizer_width=w)] *)
Definition set_regularizer_width (w : A) (e : LRFisterDeconvolve.t A)
  : LRFisterDeconvolve.t A :=
  {| LRFisterDeconvolve.super := LRFisterDeconvolve.super e;
     LRFisterDeconvolve.regularizer_width := w;
     LRFisterDeconvolve.logging := LRFisterDeconvolve.logging e |}.

(** What one fit and scoring hands back: whether the fit raised, and
    the test and train score of every metric. *)
Record fold_result : Type := {
  fit_error : bool;
  scores : list (string * (cell * cell))
}.

(** One candidate on one fold. *)
Definition _fit_and_score (estimator : LRFisterDeconvolve.t A)
           (scoring : list (string * scorer)) (w : A)
           (fold : batch A * batch A) : fold_result :=
  let (train, test) := fold in
  match LRFisterDeconvolve.fit train (set_regularizer_width w (clone estimator)) with
  | (fitted, Ok _) =>
      {| fit_error := false;
         scores := map (fun ns => (fst ns, (cell_of (snd ns fitted test),
                                            cell_of (snd ns fitted train)))) scoring |}
  | (_, Raise _) =>
      {| fit_error := true;
         scores := map (fun ns => (fst ns, (None, None))) scoring |}
  end.

Fixpoint lookup {V : Type} (key : string) (d : list (string * V)) : result V :=
  match d with
  | [] => Raise KeyError
  | (k, v) :: rest => if String.eqb k key then Ok v else lookup key rest
  end.

(** The cells of one metric across the folds of one candidate. *)
Definition cells_of (name : string) (test : bool)
           (per_fold : list fold_result) : list cell :=
  map (fun out =>
         match lookup name (scores out) with
         | Ok (te, tr) => if test then te else tr
         | Raise _ => None
         end) per_fold.

Fixpoint all_some (cs : list cell) : option (list A) :=
  match cs with
  | [] => Some []
  | None :: _ => None
  | Some v :: rest =>
      match all_some rest with
      | Some vs => Some (v :: vs)
      | None => None
      end
  end.

(** [np.average] over the folds; NaN as soon as one fold is NaN. *)
Definition mean_cells (cs : list cell) : cell :=
  option_map np_mean (all_some cs).

Definition std_cells (cs : list cell) : cell :=
  option_map
    (fun vs => let m := np_mean vs in
               nsqrt (np_mean (map (fun v => nsquare (nsub v m)) vs)))
    (all_some cs).

(** [np.nanmin]: the least of the entries that are not NaN, if any. *)
Definition nanmin (means : list cell) : option A :=
  fold_left (fun least c =>
               match c with
               | Some v =>
                   if nisnan v then least
                   else match least with
                        | Some m => Some (if nltb v m then v else m)
                        | None => Some v
                        end
               | None => least
               end) means None.

(** [np.nan_to_num(means, nan=np.nanmin(means) - 1)]: the NaN means
    are placed one below the least mean that is a number. *)
Definition filled (means : list cell) (least : A) : list A :=
  let fill := nsub least (of_Z 1) in
  map (fun c => match c with
                | Some v => nan_to_num fill v
                | None => fill
                end) means.

(** [rankdata(-keys, method='min')]: one plus the number of entries
    that are strictly greater. *)
Definition rankdata_min (keys : list A) : list nat :=
  map (fun a => 1 + length (filter (fun b => nltb a b) keys)) keys.

(** The ranks of the candidates on a metric: all 1 when every mean is
    NaN, the ranks of the filled means otherwise. *)
Definition rank_test (means : list cell) : list nat :=
  match nanmin means with
  | None => map (fun _ => 1) means
  | Some least => rankdata_min (filled means least)
  end.

(** [np.argmin]: the first position of the least entry. *)
Fixpoint argmin_from (best_i best_v i : nat) (l : list nat) : nat :=
  match l with
  | [] => best_i
  | v :: rest =>
      if v <? best_v then argmin_from i v (i + 1) rest
      else argmin_from best_i best_v (i + 1) rest
  end.

Definition argmin (l : list nat) : nat :=
  match l with
  | [] => 0
  | v :: rest => argmin_from 0 v 1 rest
  end.

(** [results["rank_test_" + refit].argmin()] *)
Definition best_index (means : list cell) : nat :=
  argmin (rank_test means).

Record fitted : Type := {
  cv_results_ : list (string * list cell);
  best_index_ : nat;
  best_estimator_ : LRFisterDeconvolve.t A
}.

(** The four score columns of one metric. *)
Definition columns_of (name : string)
           (per_candidate : list (list fold_result))
  : list (string * list cell) :=
  [ (("mean_test_" ++ name)%string,
     map (fun pf => mean_cells (cells_of name true pf)) per_candidate);
    (("std_test_" ++ name)%string,
     map (fun pf => std_cells (cells_of name true pf)) per_candidate);
    (("mean_train_" ++ name)%string,
     map (fun pf => mean_cells (cells_of name false pf)) per_candidate);
    (("std_train_" ++ name)%string,
     map (fun pf => std_cells (cells_of name false pf)) per_candidate) ].

(** [GridSearchCV(estimator, {'regularizer_width': widths}, cv=cv,
    return_train_score=True, scoring=scoring, refit=refit).fit(X)] *)
Definition fit (estimator : LRFisterDeconvolve.t A) (widths : list A)
           (cv : nat) (scoring : list (string * scorer)) (refit : string)
           (X : batch A) : result fitted :=
  _ <- lookup refit scoring ;;
  _ <- (match widths with [] => Raise ValueError | _ => Ok tt end) ;;
  folds <- KFold_split cv X ;;
  let per_candidate :=
    map (fun w => map (_fit_and_score estimator scoring w) folds) widths in
  (* _warn_or_raise_about_fit_failures: all the fits failed *)
  _ <- (if forallb (forallb fit_error) per_candidate
        then Raise ValueError else Ok tt) ;;
  let results := flat_map (fun ns => columns_of (fst ns) per_candidate) scoring in
  means <- lookup ("mean_test_" ++ refit)%string results ;;
  let best := best_index means in
  w <- (match nth_error widths best with
        | Some w => Ok w
        | None => Raise ValueError
        end) ;;
  match LRFisterDeconvolve.fit X (set_regularizer_width w (clone estimator)) with
  | (best_estimator, Ok _) =>
      Ok {| cv_results_ := results;
            best_index_ := best;
            best_estimator_ := best_estimator |}
  | (_, Raise e) => Raise e
  end.

End Search.
End GridSearchCV.

(** ** module deconvolution_metrics *)

(** The two scorers [LRFisterGrid.fit] hands to the grid search.  The
    module is imported by [LRDeconvolve.py]; [LRFisterGrid.fit] takes it
    as a parameter. *)
Record deconvolution_metrics (A : Type) : Type := {
  neg_deconvolved_mse : GridSearchCV.scorer (A := A);
  neg_reconvolved_mse : GridSearchCV.scorer (A := A)
}.
Arguments deconvolution_metrics A : clear implicits.

Module DeconvolutionMetrics.
Section Metrics.

Context {A : Type} `{Numeric A}.

(** Modelled from the spec: [deconvolution_metrics.neg_reconvolved_mse]
    is not among the sources; the specification gives it as the
    negative MSE between the reconvolved signal and the held-out
    averaged measurement. *)
Definition spec_neg_reconvolved_mse : GridSearchCV.scorer :=
  fun estimator X =>
    reconvolved <-
      getattr (LRDeconvolve.reconvolved_y_ (LRFisterDeconvolve.super estimator)) ;;
    mse <- mean_squared_error reconvolved (mean_axis0 X) ;;
    Ok (nmul (of_Z (-1)) mse).

(** Modelled from the spec: [deconvolution_metrics.neg_deconvolved_mse]
    is not among the sources; the specification gives it as the
    negative MSE between the deconvolved signal and the ground truth. *)
Definition spec_neg_deconvolved_mse : GridSearchCV.scorer :=
  fun estimator X =>
    deconvolved <-
      getattr (LRDeconvolve.deconvolved_y_ (LRFisterDeconvolve.super estimator)) ;;
    ground_truth <-
      getattr (LRDeconvolve.ground_truth_y (LRFisterDeconvolve.super estimator)) ;;
    mse <- mean_squared_error deconvolved ground_truth ;;
    Ok (nmul (of_Z (-1)) mse).

Definition spec_metrics : deconvolution_metrics A :=
  {| neg_deconvolved_mse := spec_neg_deconvolved_mse;
     neg_reconvolved_mse := spec_neg_reconvolved_mse |}.

End Metrics.
End DeconvolutionMetrics.

(** ** class LRFisterGrid *)

Module LRFisterGrid.
Section Class.

Context {A : Type} `{Numeric A}.

Record t : Type := {
  impulse_response_x : list A;
  impulse_response_y : list A;
  convolved_x : list A;
  reconvolved_x : list A;
  deconvolved_x : list A;
  regularizer_widths : list A;
  iterations : Z;
  ground_truth_y : option (list A);
  (* attributes that exist only once [fit] has assigned them *)
  measured_y_ : option (list A);
  deconvolved_y_ : option (list A);
  reconvolved_y_ : option (list A);
  gridsearch_cv_results_ : option (list (string * list (option A)));
  deconvolved_mse_ : option (list (option A));
  deconvolved_mse_std_ : option (list (option A));
  reconvolved_mse_ : option (list (option A));
  reconvolved_mse_std_ : option (list (option A));
  cv_ : option (list (option A));
  cv_std_ : option (list (option A))
}.

Definition __init__ (impulse_x impulse_y conv_x widths : list A)
           (its : Z) (ground_truth : option (list A)) : t :=
  {| impulse_response_x := impulse_x;
     impulse_response_y := impulse_y;
     convolved_x := conv_x;
     reconvolved_x := conv_x;
     deconvolved_x := LRDeconvolve._get_deconvolved_x impulse_x conv_x;
     regularizer_widths := widths;
     iterations := its;
     ground_truth_y := ground_truth;
     measured_y_ := None;
     deconvolved_y_ := None;
     reconvolved_y_ := None;
     gridsearch_cv_results_ := None;
     deconvolved_mse_ := None;
     deconvolved_mse_std_ := None;
     reconvolved_mse_ := None;
     reconvolved_mse_std_ := None;
     cv_ := None;
     cv_std_ := None |}.

(** The fitted attributes, in the order [fit] assigns them. *)
Inductive attr : Type :=
| Measured_y_ (v : list A)
| Deconvolved_y_ (v : list A)
| Reconvolved_y_ (v : list A)
| Gridsearch_cv_results_ (v : list (string * list (option A)))
| Deconvolved_mse_ (v : list (option A))
| Deconvolved_mse_std_ (v : list (option A))
| Reconvolved_mse_ (v : list (option A))
| Reconvolved_mse_std_ (v : list (option A))
| Cv_ (v : list (option A))
| Cv_std_ (v : list (option A)).

Definition setattr (a : attr) (self : t) : t :=
  {| impulse_response_x := impulse_response_x self;
     impulse_response_y := impulse_response_y self;
     convolved_x := convolved_x self;
     reconvolved_x := reconvolved_x self;
     deconvolved_x := deconvolved_x self;
     regularizer_widths := regularizer_widths self;
     iterations := iterations self;
     ground_truth_y := ground_truth_y self;
     measured_y_ :=
       match a with Measured_y_ v => Some v | _ => measured_y_ self end;
     deconvolved_y_ :=
       match a with Deconvolved_y_ v => Some v | _ => deconvolved_y_ self end;
     reconvolved_y_ :=
       match a with Reconvolved_y_ v => Some v | _ => reconvolved_y_ self end;
     gridsearch_cv_results_ :=
       match a with
       | Gridsearch_cv_results_ v => Some v
       | _ => gridsearch_cv_results_ self
       end;
     deconvolved_mse_ :=
       match a with Deconvolved_mse_ v => Some v | _ => deconvolved_mse_ self end;
     deconvolved_mse_std_ :=
       match a with
       | Deconvolved_mse_std_ v => Some v
       | _ => deconvolved_mse_std_ self
       end;
     reconvolved_mse_ :=
       match a with Reconvolved_mse_ v => Some v | _ => reconvolved_mse_ self end;
     reconvolved_mse_std_ :=
       match a with
       | Reconvolved_mse_std_ v => Some v
       | _ => reconvolved_mse_std_ self
       end;
     cv_ := match a with Cv_ v => Some v | _ => cv_ self end;
     cv_std_ := match a with Cv_std_ v => Some v | _ => cv_std_ self end |}.

(** [-1 * array] on a score column. *)
Definition negated (col : list (option A)) : list (option A) :=
  map (option_map (nmul (of_Z (-1)))) col.

(** The [scoring] dictionary built by [fit]. *)
Definition scoring_of (metrics : deconvolution_metrics A) (self : t)
  : list (string * GridSearchCV.scorer) :=
  match ground_truth_y self with
  | Some _ => [ ("deconvolved"%string, neg_deconvolved_mse metrics);
                ("reconvolved"%string, neg_reconvolved_mse metrics) ]
  | None => [ ("reconvolved"%string, neg_reconvolved_mse metrics) ]
  end.

(** The estimator prototype built by [fit]. *)
Definition deconvolver_of (self : t) : LRFisterDeconvolve.t A :=
  LRFisterDeconvolve.__init__
    (impulse_response_x self) (impulse_response_y self) (convolved_x self)
    (ndiv (of_Z 1) (of_Z 20)) (* the default regularizer_width=0.05 *)
    (iterations self) (ground_truth_y self) false.

Definition fit (metrics : deconvolution_metrics A) (X : batch A)
  : method t unit :=
  deconvolver_gs <~
    eval (fun self =>
            GridSearchCV.fit (deconvolver_of self) (regularizer_widths self) 5
                             (scoring_of metrics self) "reconvolved" X) ;;
  let cv_results := GridSearchCV.cv_results_ deconvolver_gs in
  assign (setattr (Measured_y_ (mean_axis0 X))) ;;;
  d <~ eval (fun _ =>
               getattr (LRDeconvolve.deconvolved_y_
                          (LRFisterDeconvolve.super
                             (GridSearchCV.best_estimator_ deconvolver_gs)))) ;;
  assign (setattr (Deconvolved_y_ d)) ;;;
  r <~ eval (fun self => d <- getattr (deconvolved_y_ self) ;;
                         convolve d (impulse_response_y self)) ;;
  assign (setattr (Reconvolved_y_ r)) ;;;
  assign (setattr (Gridsearch_cv_results_ cv_results)) ;;;
  c <~ eval (fun _ => GridSearchCV.lookup "mean_test_deconvolved" cv_results) ;;
  assign (setattr (Deconvolved_mse_ (negated c))) ;;;
  c <~ eval (fun _ => GridSearchCV.lookup "std_test_deconvolved" cv_results) ;;
  assign (setattr (Deconvolved_mse_std_ c)) ;;;
  c <~ eval (fun _ => GridSearchCV.lookup "mean_train_reconvolved" cv_results) ;;
  assign (setattr (Reconvolved_mse_ (negated c))) ;;;
  c <~ eval (fun _ => GridSearchCV.lookup "std_train_reconvolved" cv_results) ;;
  assign (setattr (Reconvolved_mse_std_ c)) ;;;
  c <~ eval (fun _ => GridSearchCV.lookup "mean_test_reconvolved" cv_results) ;;
  assign (setattr (Cv_ (negated c))) ;;;
  c <~ eval (fun _ => GridSearchCV.lookup "std_test_reconvolved" cv_results) ;;
  assign (setattr (Cv_std_ c)) ;;;
  mret tt.

Definition predict (self : t) (X : batch A) : result (list A) :=
  getattr (deconvolved_y_ self).

End Class.
Arguments t A : clear implicits.
End LRFisterGrid.

(** ** The selection, as the specification words it *)

Section Selection.

Context {A : Type} `{Numeric A}.

(** The held-out score of one grid point on one fold: a fresh estimator
    with that width is fitted on the train rows and scored on the test
    rows; a failed fit or scoring gives no score. *)
Definition held_out_score (score : GridSearchCV.scorer (A := A))
           (prototype : LRFisterDeconvolve.t A) (w : A)
           (fold : batch A * batch A) : option A :=
  match LRFisterDeconvolve.fit
          (fst fold)
          (GridSearchCV.set_regularizer_width w (GridSearchCV.clone prototype)) with
  | (fitted, Ok _) => GridSearchCV.cell_of (score fitted (snd fold))
  | (_, Raise _) => None
  end.

(** The score of the same fitted estimator on the rows it was fitted
    on. *)
Definition train_score (score : GridSearchCV.scorer (A := A))
           (prototype : LRFisterDeconvolve.t A) (w : A)
           (fold : batch A * batch A) : option A :=
  match LRFisterDeconvolve.fit
          (fst fold)
          (GridSearchCV.set_regularizer_width w (GridSearchCV.clone prototype)) with
  | (fitted, Ok _) => GridSearchCV.cell_of (score fitted (fst fold))
  | (_, Raise _) => None
  end.


(** The mean held-out score of every grid point. *)
Definition mean_held_out_scores (score : GridSearchCV.scorer (A := A))
           (prototype : LRFisterDeconvolve.t A) (widths : list A)
           (folds : list (batch A * batch A)) : list (option A) :=
  map (fun w => GridSearchCV.mean_cells
                  (map (held_out_score score prototype w) folds)) widths.



(** The score columns the table holds for a metric. *)
Definition score_columns (name : string) : list string :=
  [ ("mean_test_" ++ name)%string; ("std_test_" ++ name)%string;
    ("mean_train_" ++ name)%string; ("std_train_" ++ name)%string ].

End Selection.

(** ** The recurrences, as the specification words them *)

Section Recurrences.

Context {A : Type} `{Numeric A}.

(** One Lucy-Richardson update of the estimate [O_k]:
    [I_k = O_k * h], [blur_k = m / I_k], [corr_k = blur_k * reverse(h)],
    [O_{k+1} = O_k . corr_k]. *)
Definition LR_update (h m O_k : list A) : result (list A) :=
  I_k <- convolve O_k h ;;
  blur_k <- np_divide m I_k ;;
  corr_k <- convolve blur_k (rev h) ;;
  np_multiply O_k corr_k.

(** [O_k] of a recurrence [O_{k+1} = step O_k] started at [O_0]. *)
Fixpoint recurrence (step : list A -> result (list A)) (O_0 : list A)
         (k : nat) : result (list A) :=
  match k with
  | 0 => Ok O_0
  | S k' => O_k <- recurrence step O_0 k' ;; step O_k
  end.

(** Plain Lucy-Richardson: [O_0 = m], [O_{k+1} = LR_update O_k]. *)
Definition LR_recurrence (h m : list A) (k : nat) : result (list A) :=
  recurrence (LR_update h m) m k.

(** The Gaussian kernel [G]: on the domain [x], centered at the mean
    of [x], of standard deviation [width], divided by its sum. *)
Definition gaussian_kernel (x : list A) (width : A) : list A :=
  let mu := np_mean x in
  let g := map (fun xi => nexp (nmul (ndiv (of_Z (-1)) (of_Z 2))
                                     (nsquare (ndiv (nsub xi mu) width)))) x in
  map (fun gi => ndiv gi (np_sum g)) g.

(** Fister: the plain update, then valid-mode convolution with [G]. *)
Definition fister_step (h x : list A) (width : A) (m O_k : list A)
  : result (list A) :=
  O' <- LR_update h m O_k ;;
  convolve O' (gaussian_kernel x width).

Definition fister_recurrence (h x : list A) (width : A) (m : list A) (k : nat)
  : result (list A) :=
  recurrence (fister_step h x width m) m k.

(** L2: the plain update, then [(-1 + sqrt(1 + 2 alpha O)) / alpha] on
    every element. *)
Definition l2_correction (alpha o : A) : A :=
  ndiv (nadd (of_Z (-1)) (nsqrt (nadd (of_Z 1) (nmul (nmul (of_Z 2) alpha) o))))
       alpha.

Definition l2_step (h : list A) (alpha : A) (m O_k : list A)
  : result (list A) :=
  O' <- LR_update h m O_k ;;
  Ok (map (l2_correction alpha) O').

Definition l2_recurrence (h : list A) (alpha : A) (m : list A) (k : nat)
  : result (list A) :=
  recurrence (l2_step h alpha m) m k.

(** Division as in a field, by a divisor that is not zero: what
    "normalized to unit sum" rests on. *)
Definition exact_division : Prop :=
  (forall c : A, c <> nzero -> ndiv nzero c = nzero)
  /\ (forall a b c : A,
        c <> nzero -> ndiv (nadd a b) c = nadd (ndiv a c) (ndiv b c))
  /\ (forall c : A, c <> nzero -> ndiv c c = of_Z 1).

(** The Gaussian profile before normalization. *)
Definition gaussian_profile (x : list A) (width : A) : list A :=
  map (fun xi => nexp (nmul (ndiv (of_Z (-1)) (of_Z 2))
                            (nsquare (ndiv (nsub xi (np_mean x)) width)))) x.

(** The steps at which a scalar of a given name was written. *)
Definition steps_of (name : string) (log : list (event A)) : list nat :=
  map (fun e => snd e)
      (filter (fun e => String.eqb (fst (fst e)) name) log).

(** [k] applications of [step], the first one peeled off: the shape
    of a loop started in the middle of the recurrence. *)
Fixpoint iterate (step : list A -> result (list A)) (k : nat) (start : list A)
  : result (list A) :=
  match k with
  | 0 => Ok start
  | S k' => O' <- step start ;; iterate step k' O'
  end.

(** numpy's broadcasting rule on two 1-D shapes. *)
Definition broadcastable (la lb : nat) : Prop := la = lb \/ la = 1 \/ lb = 1.

(** No telemetry at all. *)
Definition silent (O : list A) (i : nat) : result (list (event A)) := Ok [].

End Recurrences.

(** ** Sample inputs *)

(** Binary64 inputs on which the model is run.  The impulse response has
    [2 L - 1] samples for a measured signal of [L]: the lengths at which
    every valid-mode convolution of the iteration returns [L] samples. *)
Module Samples.

Definition x : list float := [-1; 0; 1]%float.
Definition h : list float := [1; 1; 1]%float.
Definition convolved_x : list float := [0; 1]%float.

Definition X2 : batch float :=
  {| ncols := 2; rows := [[1; 2]; [3; 5]]%float |}.

Definition X4 : batch float :=
  {| ncols := 4; rows := [[1; 1; 1; 1]]%float |}.

Definition X5 : batch float :=
  {| ncols := 2; rows := [[1; 2]; [3; 5]; [2; 2]; [1; 4]; [2; 3]]%float |}.

Definition plain : LRDeconvolve.t float :=
  LRDeconvolve.__init__ x h convolved_x 3 None.

Definition fister : LRFisterDeconvolve.t float :=
  LRFisterDeconvolve.__init__ x h convolved_x 0.5%float 3 None false.

Definition l2 : LRL2Deconvolve.t float :=
  LRL2Deconvolve.__init__ x h convolved_x 0.5%float 3 None.

(** The concrete scenario of the specification: a three-sample impulse
    response and a three-sample measured signal. *)
Definition h3 : list float := [0.25; 0.5; 0.25]%float.
Definition M_spec : list float := [0.25; 0.75; 0.25]%float.

Definition batch_of (m : list float) : batch float :=
  {| ncols := length m; rows := [m] |}.


Definition l2_50 : LRL2Deconvolve.t float :=
  LRL2Deconvolve.__init__ x h3 [0; 1; 2]%float 0.5%float 50 None.

(** One sample, one pass, a negative penalty coefficient: the radicand
    [1 + 2 * (-1) * 1] is negative. *)
Definition X1 : batch float := {| ncols := 1; rows := [[1]]%float |}.

Definition l2_negative : LRL2Deconvolve.t float :=
  LRL2Deconvolve.__init__ [0]%float [1]%float [0]%float (-1)%float 1 None.

(** The selector, with and without a ground truth. *)
Definition grid : LRFisterGrid.t float :=
  LRFisterGrid.__init__ x h convolved_x [0.5; 2]%float 3 (Some [1; 2]%float).

Definition grid_no_truth : LRFisterGrid.t float :=
  LRFisterGrid.__init__ x h convolved_x [0.5; 2]%float 3 None.

(** Five rows of four columns: no fit goes through against [h]. *)
Definition X5_wide : batch float :=
  {| ncols := 4;
     rows := [[1; 1; 1; 1]; [1; 1; 1; 1]; [1; 1; 1; 1];
              [1; 1; 1; 1]; [1; 1; 1; 1]]%float |}.

(** The same estimator over the reals. *)
Definition x_exact : list R := [-1; 0; 1]%R.

Definition X2_exact : batch R :=
  {| ncols := 2; rows := [[1; 2]; [3; 5]]%R |}.

Definition fister_exact : LRFisterDeconvolve.t R :=
  LRFisterDeconvolve.__init__ x_exact [1; 1; 1]%R [0; 1]%R 1%R 3 None false.

End Samples.

(** Further binary64 inputs: estimators that are given no iteration,
    a ground truth, or a one-sample impulse response. *)
Module MoreSamples.

Definition plain0 : LRDeconvolve.t float :=
  LRDeconvolve.__init__ Samples.x Samples.h Samples.convolved_x 0 None.

Definition plain_truth : LRDeconvolve.t float :=
  LRDeconvolve.__init__ Samples.x Samples.h Samples.convolved_x 3
                        (Some [1; 2]%float).

Definition plain_bad_truth : LRDeconvolve.t float :=
  LRDeconvolve.__init__ Samples.x Samples.h Samples.convolved_x 3
                        (Some [1; 2; 3]%float).

Definition l2_other_alpha : LRL2Deconvolve.t float :=
  LRL2Deconvolve.__init__ Samples.x Samples.h Samples.convolved_x 2%float 3 None.

Definition X2_other : batch float :=
  {| ncols := 2; rows := [[4; 1]; [0.5; 8]; [2; 2]]%float |}.

(** A selector that asks for no iteration. *)
Definition grid0 : LRFisterGrid.t float :=
  LRFisterGrid.__init__ Samples.x Samples.h Samples.convolved_x
                        [0.5; 2]%float 0 (Some [1; 2]%float).

Definition fister_logged : LRFisterDeconvolve.t float :=
  LRFisterDeconvolve.__init__ Samples.x Samples.h Samples.convolved_x
                              0.5%float 3 None true.

(** Three passes with [alpha = -1]: the radicand [1 - 2 O] is negative
    for every positive estimate above one half. *)
Definition l2_negative3 : LRL2Deconvolve.t float :=
  LRL2Deconvolve.__init__ Samples.x Samples.h Samples.convolved_x (-1)%float 3 None.


End MoreSamples.

(** ** Outcomes up to shape *)

(** Two outcomes agree up to shape: both are arrays of one length, or
    both raise the same exception. *)
Definition same_shape {A : Type} (r1 r2 : result (list A)) : Prop :=
  match r1, r2 with
  | Ok a, Ok b => length a = length b
  | Raise e1, Raise e2 => e1 = e2
  | _, _ => False
  end.

(** An array holds a NaN. *)
Definition has_nan (a : list float) : bool := existsb PrimFloat.is_nan a.

(** ** Generic facts *)

Lemma bind_ok_inv {T U : Type} (r : result T) (k : T -> result U) (u : U) :
  bind r k = Ok u -> exists v, r = Ok v /\ k v = Ok u.
Proof.
  destruct r as [v|e]; simpl; intros E; [eauto | discriminate].
Qed.

Lemma bind_raise_inv {T U : Type} (r : result T) (k : T -> result U) (e : exn) :
  bind r k = Raise e -> r = Raise e \/ exists v, r = Ok v /\ k v = Raise e.
Proof.
  destruct r as [v|e']; simpl; intros E; [right; eauto | left; congruence].
Qed.

Tactic Notation "inv_bind" hyp(E) "as" ident(v) ident(Ev) :=
  apply bind_ok_inv in E; destruct E as (v & Ev & E).

Section Generic.

Context {A : Type} `{Numeric A}.

Lemma iterate_snoc (step : list A -> result (list A)) (k : nat) (O : list A) :
  iterate step (S k) O = (O_k <- iterate step k O ;; step O_k).
Proof.
  revert O; induction k as [|k IH]; intros O.
  - simpl. destruct (step O); reflexivity.
  - change (iterate step (S (S k)) O)
      with (O' <- step O ;; iterate step (S k) O').
    simpl. destruct (step O) as [O'|e]; simpl; [apply IH | reflexivity].
Qed.

Lemma iterate_last (step : list A -> result (list A)) (k : nat) (O O_k : list A) :
  iterate step (S k) O = Ok O_k ->
  exists O_prev, iterate step k O = Ok O_prev /\ step O_prev = Ok O_k.
Proof.
  rewrite iterate_snoc. intros E. inv_bind E as O_prev Ep. eauto.
Qed.

(** Peeling the first or the last step gives the same iterates. *)
Lemma recurrence_iterate (step : list A -> result (list A)) (O_0 : list A) (k : nat) :
  recurrence step O_0 k = iterate step k O_0.
Proof.
  induction k as [|k IH]; [reflexivity|].
  rewrite iterate_snoc, <- IH. reflexivity.
Qed.

Lemma for_each_app {S : Type} (body : nat -> S -> result S) (r1 r2 : list nat) (s : S) :
  for_each body (r1 ++ r2) s = (s' <- for_each body r1 s ;; for_each body r2 s').
Proof.
  revert s; induction r1 as [|i r1 IH]; intros s; simpl; [reflexivity|].
  destruct (body i s); simpl; [apply IH | reflexivity].
Qed.

Lemma steps_of_app (name : string) (l1 l2 : list (event A)) :
  steps_of name (l1 ++ l2) = steps_of name l1 ++ steps_of name l2.
Proof.
  unfold steps_of. rewrite filter_app, map_app. reflexivity.
Qed.

End Generic.

(** ** Loops and recurrences *)

(** The three iteration loops have one shape: a step on the previous
    estimate, then telemetry of the new one (none in two of them). *)
Section Loop.

Context {A : Type}.

Variable step : list A -> result (list A).
Variable telemetry : list A -> nat -> result (list (event A)).
Variable body : nat -> loop_vars A -> result (loop_vars A).

Hypothesis body_unfold : forall (i : nat) (v : loop_vars A),
    body i v =
    (O' <- step (var_previous_O v) ;;
     stats <- telemetry O' i ;;
     Ok {| var_previous_O := O';
           var_current_O := Some O';
           var_log := var_log v ++ stats |}).

Lemma loop_sound (k : nat) :
  forall (s : nat) (v v' : loop_vars A),
    for_each body (seq s k) v = Ok v' ->
    iterate step k (var_previous_O v) = Ok (var_previous_O v')
    /\ (1 <= k -> var_current_O v' = Some (var_previous_O v')).
Proof.
  induction k as [|k IH]; intros s v v' E.
  - simpl in E. injection E as <-. simpl. split; [reflexivity | lia].
  - simpl in E. rewrite body_unfold in E.
    inv_bind E as v1 Ebody.
    inv_bind Ebody as O' Eupd. inv_bind Ebody as stats Estats.
    injection Ebody as <-.
    destruct (IH _ _ _ E) as (Hit & Hcur). simpl in *.
    rewrite Eupd. simpl. split; [exact Hit|].
    intros _. destruct k as [|k'].
    + simpl in E. injection E as <-. reflexivity.
    + apply Hcur. lia.
Qed.

(** Every pass through the body leaves its trace in the log. *)
Lemma loop_log (name : string) :
  (forall O i stats, telemetry O i = Ok stats -> steps_of name stats = [i]) ->
  forall (k s : nat) (v v' : loop_vars A),
    for_each body (seq s k) v = Ok v' ->
    steps_of name (var_log v') = steps_of name (var_log v) ++ seq s k.
Proof.
  intros Htel. induction k as [|k IH]; intros s v v' E.
  - simpl in E. injection E as <-. simpl. rewrite app_nil_r. reflexivity.
  - simpl in E. rewrite body_unfold in E.
    inv_bind E as v1 Ebody.
    inv_bind Ebody as O' Eupd. inv_bind Ebody as stats Estats.
    injection Ebody as <-.
    rewrite (IH _ _ _ E). simpl.
    rewrite steps_of_app, (Htel _ _ _ Estats), <- app_assoc. reflexivity.
Qed.

Lemma loop_complete (k : nat) :
  forall (s : nat) (v : loop_vars A) (O : list A),
    iterate step k (var_previous_O v) = Ok O ->
    (forall j O', j < k ->
       iterate step (S j) (var_previous_O v) = Ok O' ->
       is_ok (telemetry O' (s + j)) = true) ->
    exists v', for_each body (seq s k) v = Ok v' /\ var_previous_O v' = O.
Proof.
  induction k as [|k IH]; intros s v O E Htel.
  - simpl in E. injection E as <-. exists v. split; reflexivity.
  - simpl in E. inv_bind E as O1 Ev.
    assert (Hs : is_ok (telemetry O1 (s + 0)) = true).
    { apply Htel; [lia|]. simpl. rewrite Ev. destruct O1; reflexivity. }
    rewrite Nat.add_0_r in Hs.
    destruct (telemetry O1 s) as [stats|e] eqn:Es; [|discriminate].
    simpl. rewrite body_unfold, Ev. simpl. rewrite Es. simpl.
    apply IH; [exact E|].
    intros j O' Hj Eit. simpl var_previous_O in Eit.
    replace (S s + j) with (s + S j) by lia.
    apply Htel; [lia|].
    change (iterate step (S (S j)) (var_previous_O v))
      with (O2 <- step (var_previous_O v) ;; iterate step (S j) O2).
    rewrite Ev. exact Eit.
Qed.

(** A loop raises what its step or its telemetry raised. *)
Lemma loop_raise_inv (range : list nat) (v : loop_vars A) (e : exn) :
  for_each body range v = Raise e ->
  (exists O, step O = Raise e) \/ (exists O i, telemetry O i = Raise e).
Proof.
  revert v; induction range as [|i range IH]; intros v E; [discriminate|].
  simpl in E. rewrite body_unfold in E.
  destruct (step (var_previous_O v)) as [O'|e'] eqn:Es; simpl in E.
  - destruct (telemetry O' i) as [stats|e'] eqn:Et; simpl in E.
    + eapply IH; exact E.
    + injection E as ->. right. eauto.
  - injection E as ->. left. eauto.
Qed.

(** A step that raises in pass [k] of the loop ends the loop there. *)
Lemma loop_raise (k n : nat) (init v : loop_vars A) (e : exn) :
  for_each body (seq 0 k) init = Ok v ->
  step (var_previous_O v) = Raise e ->
  k < n ->
  for_each body (seq 0 n) init = Raise e.
Proof.
  intros Eloop Estep Hk.
  replace n with (k + S (n - S k)) by lia.
  rewrite seq_app, for_each_app, Eloop. simpl.
  rewrite body_unfold, Estep. reflexivity.
Qed.

(** A loop whose result is returned has run at least once, and its
    result is the outcome of a last step. *)
Lemma loop_result (k : nat) (init v : loop_vars A) (O : list A) (log : list (event A)) :
  for_each body (seq 0 k) init = Ok v ->
  var_current_O init = None ->
  return_current_O v = Ok (O, log) ->
  exists O_prev, step O_prev = Ok O.
Proof.
  intros Eloop Hinit Eret. destruct k as [|k'].
  - simpl in Eloop. injection Eloop as <-.
    unfold return_current_O in Eret. rewrite Hinit in Eret. discriminate.
  - apply loop_sound in Eloop. destruct Eloop as (Hit & Hcur).
    unfold return_current_O in Eret. rewrite Hcur in Eret by lia.
    injection Eret as <- <-.
    apply iterate_last in Hit. destruct Hit as (O_prev & _ & Estep). eauto.
Qed.

End Loop.

Arguments loop_sound {A step telemetry body} body_unfold k s v v' _.
Arguments loop_log {A step telemetry body} body_unfold name _ k s v v' _.
Arguments loop_complete {A step telemetry body} body_unfold k s v O _ _.
Arguments loop_result {A step telemetry body} body_unfold k init v O log _ _ _.
Arguments loop_raise {A step telemetry body} body_unfold k n init v e _ _ _.
Arguments loop_raise_inv {A step telemetry body} body_unfold range v e _.

Section Bodies.

Context {A : Type} `{Numeric A}.

(** The body of [_LR] is one update of the recurrence followed by the
    telemetry of the new estimate. *)
Lemma LR_body_unfold (self : LRDeconvolve.t A) (m : list A)
      (i : nat) (v : loop_vars A) :
  LRDeconvolve._LR_body self m (np_flip (LRDeconvolve.impulse_response_y self)) i v =
  (O' <- LR_update (LRDeconvolve.impulse_response_y self) m (var_previous_O v) ;;
   stats <- LRDeconvolve._save_iteration_stats self O' i ;;
   Ok {| var_previous_O := O';
         var_current_O := Some O';
         var_log := var_log v ++ stats |}).
Proof.
  unfold LRDeconvolve._LR_body, LR_update, np_flip.
  destruct (convolve _ _) as [I|e]; simpl; [|reflexivity].
  destruct (np_divide m I) as [b|e]; simpl; [|reflexivity].
  destruct (convolve b _) as [c|e]; simpl; reflexivity.
Qed.

Lemma save_iteration_stats_steps (self : LRDeconvolve.t A)
      (O : list A) (i : nat) (stats : list (event A)) :
  LRDeconvolve._save_iteration_stats self O i = Ok stats ->
  steps_of "reconstruction_mse" stats = [i].
Proof.
  unfold LRDeconvolve._save_iteration_stats. intros E.
  inv_bind E as r Er. inv_bind E as y Ey. inv_bind E as e1 Ee1.
  destruct (LRDeconvolve.ground_truth_y self) as [g|].
  - inv_bind E as e2 Ee2. inv_bind E as gr Egr. inv_bind E as e3 Ee3.
    injection E as <-. reflexivity.
  - injection E as <-. reflexivity.
Qed.

(** A telemetry call that succeeds has reconvolved its argument. *)
Lemma save_iteration_stats_convolve (self : LRDeconvolve.t A) (O : list A) (i : nat) :
  is_ok (LRDeconvolve._save_iteration_stats self O i) = true ->
  exists r, convolve O (LRDeconvolve.impulse_response_y self) = Ok r.
Proof.
  unfold LRDeconvolve._save_iteration_stats.
  destruct (convolve O _) as [r|e]; simpl; [eauto | discriminate].
Qed.

Lemma LRL2_body_unfold (self : LRL2Deconvolve.t A) (m : list A)
      (i : nat) (v : loop_vars A) :
  LRL2Deconvolve._LRL2_body
    self m (np_flip (LRDeconvolve.impulse_response_y (LRL2Deconvolve.super self))) i v =
  (O' <- l2_step (LRDeconvolve.impulse_response_y (LRL2Deconvolve.super self))
                 (LRL2Deconvolve.alpha self) m (var_previous_O v) ;;
   stats <- silent O' i ;;
   Ok {| var_previous_O := O';
         var_current_O := Some O';
         var_log := var_log v ++ stats |}).
Proof.
  unfold LRL2Deconvolve._LRL2_body, l2_step, LR_update, np_flip, silent.
  destruct (convolve _ _) as [I|e]; simpl; [|reflexivity].
  destruct (np_divide m I) as [b|e]; simpl; [|reflexivity].
  destruct (convolve b _) as [c|e]; simpl; [|reflexivity].
  destruct (np_multiply _ c) as [O'|e]; simpl; [|reflexivity].
  rewrite app_nil_r. reflexivity.
Qed.

Lemma LR_fister_body_unfold (self : LRFisterDeconvolve.t A) (m : list A)
      (i : nat) (v : loop_vars A) :
  LRFisterDeconvolve._LR_fister_body
    self m (np_flip (LRDeconvolve.impulse_response_y (LRFisterDeconvolve.super self)))
    (LRFisterDeconvolve._normalized_gaussian
       (LRDeconvolve.impulse_response_x (LRFisterDeconvolve.super self))
       (np_mean (LRDeconvolve.impulse_response_x (LRFisterDeconvolve.super self)))
       (LRFisterDeconvolve.regularizer_width self)) i v =
  (O' <- fister_step (LRDeconvolve.impulse_response_y (LRFisterDeconvolve.super self))
                     (LRDeconvolve.impulse_response_x (LRFisterDeconvolve.super self))
                     (LRFisterDeconvolve.regularizer_width self) m (var_previous_O v) ;;
   stats <- silent O' i ;;
   Ok {| var_previous_O := O';
         var_current_O := Some O';
         var_log := var_log v ++ stats |}).
Proof.
  unfold LRFisterDeconvolve._LR_fister_body, fister_step, LR_update, np_flip, silent.
  change (LRFisterDeconvolve._normalized_gaussian
            (LRDeconvolve.impulse_response_x (LRFisterDeconvolve.super self))
            (np_mean (LRDeconvolve.impulse_response_x (LRFisterDeconvolve.super self)))
            (LRFisterDeconvolve.regularizer_width self))
    with (gaussian_kernel (LRDeconvolve.impulse_response_x (LRFisterDeconvolve.super self))
                          (LRFisterDeconvolve.regularizer_width self)).
  destruct (convolve _ _) as [I|e]; simpl; [|reflexivity].
  destruct (np_divide m I) as [b|e]; simpl; [|reflexivity].
  destruct (convolve b _) as [c|e]; simpl; [|reflexivity].
  destruct (np_multiply _ c) as [O'|e]; simpl; [|reflexivity].
  destruct (convolve O' _) as [O''|e]; simpl; [|reflexivity].
  rewrite app_nil_r. reflexivity.
Qed.

Lemma LR_fister_body_logging_unfold (self : LRFisterDeconvolve.t A) (m : list A)
      (i : nat) (v : loop_vars A) :
  LRFisterDeconvolve._LR_fister_body_logging
    self m (np_flip (LRDeconvolve.impulse_response_y (LRFisterDeconvolve.super self)))
    (LRFisterDeconvolve._normalized_gaussian
       (LRDeconvolve.impulse_response_x (LRFisterDeconvolve.super self))
       (np_mean (LRDeconvolve.impulse_response_x (LRFisterDeconvolve.super self)))
       (LRFisterDeconvolve.regularizer_width self)) i v =
  (O' <- fister_step (LRDeconvolve.impulse_response_y (LRFisterDeconvolve.super self))
                     (LRDeconvolve.impulse_response_x (LRFisterDeconvolve.super self))
                     (LRFisterDeconvolve.regularizer_width self) m (var_previous_O v) ;;
   stats <- LRDeconvolve._save_iteration_stats (LRFisterDeconvolve.super self) O' i ;;
   Ok {| var_previous_O := O';
         var_current_O := Some O';
         var_log := var_log v ++ stats |}).
Proof.
  unfold LRFisterDeconvolve._LR_fister_body_logging, fister_step, LR_update, np_flip.
  change (LRFisterDeconvolve._normalized_gaussian
            (LRDeconvolve.impulse_response_x (LRFisterDeconvolve.super self))
            (np_mean (LRDeconvolve.impulse_response_x (LRFisterDeconvolve.super self)))
            (LRFisterDeconvolve.regularizer_width self))
    with (gaussian_kernel (LRDeconvolve.impulse_response_x (LRFisterDeconvolve.super self))
                          (LRFisterDeconvolve.regularizer_width self)).
  destruct (convolve _ _) as [I|e]; simpl; [|reflexivity].
  destruct (np_divide m I) as [b|e]; simpl; [|reflexivity].
  destruct (convolve b _) as [c|e]; simpl; [|reflexivity].
  destruct (np_multiply _ c) as [O'|e]; simpl; reflexivity.
Qed.

End Bodies.

(** ** Shapes *)

Section Shapes.

Context {A : Type} `{Numeric A}.

Lemma convolve_ok_inv (a b r : list A) :
  convolve a b = Ok r ->
  a <> [] /\ b <> []
  /\ length r = Nat.max (length a) (length b) - Nat.min (length a) (length b) + 1.
Proof.
  unfold convolve. destruct a as [|x a]; [discriminate|].
  destruct b as [|y b]; [discriminate|].
  intros E. split; [discriminate|]. split; [discriminate|].
  destruct (Nat.ltb_spec (length (x :: a)) (length (y :: b))) as [Hlt|Hge];
    injection E as <-; rewrite length_map, length_seq;
    cbn [length] in *; lia.
Qed.

Lemma convolve_ok (a b : list A) :
  a <> [] -> b <> [] -> exists r, convolve a b = Ok r.
Proof.
  intros Ha Hb. unfold convolve.
  destruct a as [|x a]; [contradiction|]. destruct b as [|y b]; [contradiction|].
  destruct (length (x :: a) <? length (y :: b)); eauto.
Qed.

Lemma convolve_raise_inv (a b : list A) (e : exn) :
  convolve a b = Raise e -> e = ValueError /\ (a = [] \/ b = []).
Proof.
  unfold convolve. destruct a as [|x a].
  - intros E. injection E as <-. auto.
  - destruct b as [|y b].
    + intros E. injection E as <-. auto.
    + destruct (length (x :: a) <? length (y :: b)); discriminate.
Qed.

Lemma convolve_nonempty (a b r : list A) : convolve a b = Ok r -> r <> [].
Proof.
  intros E. apply convolve_ok_inv in E. destruct E as (_ & _ & L).
  destruct r; [simpl in L; lia | discriminate].
Qed.

Lemma broadcast_ok (op : A -> A -> A) (a b : list A) :
  broadcastable (length a) (length b) -> exists r, broadcast op a b = Ok r.
Proof.
  unfold broadcast, broadcastable. intros Hb.
  destruct (Nat.eqb_spec (length a) (length b)) as [E|NE]; [eauto|].
  destruct a as [|x [|x' a]]; eauto;
    destruct b as [|y [|y' b]]; eauto; simpl in *; lia.
Qed.

Lemma broadcast_ok_inv (op : A -> A -> A) (a b r : list A) :
  broadcast op a b = Ok r ->
  broadcastable (length a) (length b)
  /\ length r = (if length a =? length b then length a
                 else if length a =? 1 then length b else length a).
Proof.
  unfold broadcast, broadcastable.
  destruct (Nat.eqb_spec (length a) (length b)) as [E|NE].
  - intros Er. injection Er as <-. split; [auto|].
    rewrite length_map, length_combine. lia.
  - destruct a as [|x [|x' a]]; destruct b as [|y [|y' b]];
      intros Er; try discriminate; injection Er as <-;
      simpl in *; rewrite ?length_map; auto; try lia.
Qed.

Lemma broadcast_raise_inv (op : A -> A -> A) (a b : list A) (e : exn) :
  broadcast op a b = Raise e ->
  e = ValueError /\ ~ broadcastable (length a) (length b).
Proof.
  intros E. split.
  - unfold broadcast in E.
    destruct (length a =? length b); [discriminate|].
    destruct a as [|x [|x' a]]; destruct b as [|y [|y' b]];
      try discriminate; injection E as <-; reflexivity.
  - intros Hb. destruct (broadcast_ok op a b Hb) as (r & Er). congruence.
Qed.

Lemma broadcast_nonempty (op : A -> A -> A) (a b r : list A) :
  broadcast op a b = Ok r -> a <> [] -> b <> [] -> r <> [].
Proof.
  intros E Ha Hb. apply broadcast_ok_inv in E. destruct E as (_ & L).
  destruct a as [|x a]; [contradiction|]. destruct b as [|y b]; [contradiction|].
  destruct r; [|discriminate]. simpl in L.
  destruct (length a =? length b); [discriminate|].
  destruct (length a =? 0); discriminate.
Qed.

(** An update that succeeds leaves a non-empty estimate and shows the
    impulse response to be non-empty. *)
Lemma LR_update_ok_inv (h m O O' : list A) :
  LR_update h m O = Ok O' -> h <> [] /\ O' <> [].
Proof.
  unfold LR_update. intros E.
  inv_bind E as I EI. inv_bind E as blur Eb. inv_bind E as corr Ec.
  destruct (convolve_ok_inv _ _ EI) as (HO & Hh & _).
  split; [exact Hh|].
  unfold np_multiply in E.
  eapply broadcast_nonempty; [exact E | exact HO |].
  eapply convolve_nonempty; exact Ec.
Qed.

(** The update raises nothing but ValueError. *)
Lemma LR_update_raise_inv (h m O : list A) (e : exn) :
  LR_update h m O = Raise e -> e = ValueError.
Proof.
  unfold LR_update, np_divide, np_multiply. intros E.
  apply bind_raise_inv in E. destruct E as [E|(I & _ & E)];
    [apply (convolve_raise_inv _ _ E)|].
  apply bind_raise_inv in E. destruct E as [E|(b & _ & E)];
    [apply (broadcast_raise_inv _ _ _ E)|].
  apply bind_raise_inv in E. destruct E as [E|(c & _ & E)];
    [apply (convolve_raise_inv _ _ E)|].
  apply (broadcast_raise_inv _ _ _ E).
Qed.

Lemma sum_scaled (c : A) (l : list A) :
  exact_division -> c <> nzero ->
  np_sum (map (fun g => ndiv g c) l) = ndiv (np_sum l) c.
Proof.
  intros (Hz & Hadd & _) Hc. unfold np_sum.
  rewrite <- (Hz c Hc) at 1. generalize (nzero (A := A)) as acc.
  induction l as [|g l IH]; intros acc; simpl; [reflexivity|].
  rewrite <- (Hadd _ _ _ Hc). apply IH.
Qed.

Lemma gaussian_kernel_unit_sum (x : list A) (width : A) :
  exact_division ->
  np_sum (gaussian_profile x width) <> nzero ->
  np_sum (gaussian_kernel x width) = of_Z 1.
Proof.
  intros Hd Hs. pose proof Hd as (_ & _ & Hself).
  change (gaussian_kernel x width)
    with (map (fun g => ndiv g (np_sum (gaussian_profile x width)))
              (gaussian_profile x width)).
  rewrite (sum_scaled _ Hd Hs). apply Hself. exact Hs.
Qed.

End Shapes.

(** ** What [fit] leaves behind *)

Section Fits.

Context {A : Type} `{Numeric A}.

Lemma LR_update_reconvolves (h m O O' : list A) :
  LR_update h m O = Ok O' -> exists r, convolve O' h = Ok r.
Proof.
  intros E. apply LR_update_ok_inv in E. destruct E as (Hh & HO').
  apply convolve_ok; assumption.
Qed.

Lemma fister_step_reconvolves (h x : list A) (width : A) (m O O' : list A) :
  fister_step h x width m O = Ok O' -> exists r, convolve O' h = Ok r.
Proof.
  unfold fister_step. intros E. inv_bind E as O1 Eupd.
  apply LR_update_ok_inv in Eupd. destruct Eupd as (Hh & _).
  apply convolve_ok; [|exact Hh]. eapply convolve_nonempty; exact E.
Qed.

Lemma l2_step_reconvolves (h : list A) (alpha : A) (m O O' : list A) :
  l2_step h alpha m O = Ok O' -> exists r, convolve O' h = Ok r.
Proof.
  unfold l2_step. intros E. inv_bind E as O1 Eupd. injection E as <-.
  apply LR_update_ok_inv in Eupd. destruct Eupd as (Hh & HO1).
  apply convolve_ok; [|exact Hh]. destruct O1; [contradiction | discriminate].
Qed.

(** The estimate [_LR] returns can always be reconvolved. *)
Lemma LR_reconvolves (self : LRDeconvolve.t A) (m O : list A) (log : list (event A)) :
  LRDeconvolve._LR self m = Ok (O, log) ->
  exists r, convolve O (LRDeconvolve.impulse_response_y self) = Ok r.
Proof.
  unfold LRDeconvolve._LR, py_range. intros E. inv_bind E as v Eloop.
  destruct (loop_result (LR_body_unfold self m) _ _ _ _ _ Eloop eq_refl E)
    as (O_prev & Estep).
  eapply LR_update_reconvolves; exact Estep.
Qed.

Lemma LR_fister_reconvolves (self : LRFisterDeconvolve.t A) (m O : list A)
      (log : list (event A)) :
  LRFisterDeconvolve._LR_fister self m = Ok (O, log) ->
  exists r, convolve O (LRDeconvolve.impulse_response_y (LRFisterDeconvolve.super self))
            = Ok r.
Proof.
  unfold LRFisterDeconvolve._LR_fister, py_range. intros E. inv_bind E as v Eloop.
  destruct (LRFisterDeconvolve.logging self).
  - destruct (loop_result (LR_fister_body_logging_unfold self m) _ _ _ _ _ Eloop eq_refl E)
      as (O_prev & Estep).
    eapply fister_step_reconvolves; exact Estep.
  - destruct (loop_result (LR_fister_body_unfold self m) _ _ _ _ _ Eloop eq_refl E)
      as (O_prev & Estep).
    eapply fister_step_reconvolves; exact Estep.
Qed.

Lemma LRL2_reconvolves (self : LRL2Deconvolve.t A) (m O : list A) :
  LRL2Deconvolve._LRL2 self m = Ok O ->
  exists r, convolve O (LRDeconvolve.impulse_response_y (LRL2Deconvolve.super self))
            = Ok r.
Proof.
  unfold LRL2Deconvolve._LRL2, py_range. intros E. inv_bind E as v Eloop.
  inv_bind E as out Eout. destruct out as [O1 log1]. injection E as <-.
  destruct (loop_result (LRL2_body_unfold self m) _ _ _ _ _ Eloop eq_refl Eout)
    as (O_prev & Estep).
  eapply l2_step_reconvolves; exact Estep.
Qed.

(** [LRDeconvolve.fit], outcome by outcome: the measured signal is
    assigned first; the other two attributes only once the iteration has
    returned. *)
Lemma LRDeconvolve_fit_cases (self : LRDeconvolve.t A) (X : batch A) :
  let fitting := LRDeconvolve.set_measured_y_ (mean_axis0 X) self in
  match LRDeconvolve._LR fitting (mean_axis0 X) with
  | Ok (d, log) =>
      exists r,
      convolve d (LRDeconvolve.impulse_response_y self) = Ok r
      /\ LRDeconvolve.fit X self
         = (LRDeconvolve.set_reconvolved_y_
              r (LRDeconvolve.set_deconvolved_y_ d fitting), Ok log)
  | Raise e => LRDeconvolve.fit X self = (fitting, Raise e)
  end.
Proof.
  intros fitting.
  unfold LRDeconvolve.fit, mbind, assign, eval, mret. cbn. fold fitting.
  destruct (LRDeconvolve._LR fitting (mean_axis0 X)) as [[d log]|e] eqn:E;
    cbn; [|reflexivity].
  destruct (LR_reconvolves _ _ E) as (r & Er).
  exists r. split; [exact Er|].
  change (LRDeconvolve.impulse_response_y fitting)
    with (LRDeconvolve.impulse_response_y self) in Er.
  rewrite Er. reflexivity.
Qed.

Lemma LRFisterDeconvolve_fit_cases (self : LRFisterDeconvolve.t A) (X : batch A) :
  let fitting :=
    LRFisterDeconvolve.with_super (LRDeconvolve.set_measured_y_ (mean_axis0 X)) self in
  match LRFisterDeconvolve._LR_fister fitting (mean_axis0 X) with
  | Ok (d, log) =>
      exists r,
      convolve d (LRDeconvolve.impulse_response_y (LRFisterDeconvolve.super self)) = Ok r
      /\ LRFisterDeconvolve.fit X self
         = (LRFisterDeconvolve.with_super
              (LRDeconvolve.set_reconvolved_y_ r)
              (LRFisterDeconvolve.with_super (LRDeconvolve.set_deconvolved_y_ d) fitting),
            Ok log)
  | Raise e => LRFisterDeconvolve.fit X self = (fitting, Raise e)
  end.
Proof.
  intros fitting.
  unfold LRFisterDeconvolve.fit, mbind, assign, eval, mret. cbn. fold fitting.
  destruct (LRFisterDeconvolve._LR_fister fitting (mean_axis0 X)) as [[d log]|e] eqn:E;
    cbn; [|reflexivity].
  destruct (LR_fister_reconvolves _ _ E) as (r & Er).
  exists r. split; [exact Er|].
  change (LRDeconvolve.impulse_response_y (LRFisterDeconvolve.super fitting))
    with (LRDeconvolve.impulse_response_y (LRFisterDeconvolve.super self)) in Er.
  rewrite Er. reflexivity.
Qed.

Lemma LRL2Deconvolve_fit_cases (self : LRL2Deconvolve.t A) (X : batch A) :
  match LRL2Deconvolve._LRL2 self (mean_axis0 X) with
  | Ok d =>
      exists r,
      convolve d (LRDeconvolve.impulse_response_y (LRL2Deconvolve.super self)) = Ok r
      /\ LRL2Deconvolve.fit X self
         = (LRL2Deconvolve.with_super
              (LRDeconvolve.set_reconvolved_y_ r)
              (LRL2Deconvolve.with_super (LRDeconvolve.set_deconvolved_y_ d) self),
            Ok tt)
  | Raise e => LRL2Deconvolve.fit X self = (self, Raise e)
  end.
Proof.
  unfold LRL2Deconvolve.fit, mbind, assign, eval, mret. cbn.
  destruct (LRL2Deconvolve._LRL2 self (mean_axis0 X)) as [d|e] eqn:E;
    cbn; [|reflexivity].
  destruct (LRL2_reconvolves _ _ E) as (r & Er).
  exists r. split; [exact Er|]. rewrite Er. reflexivity.
Qed.

End Fits.

(** ** Ranking *)

Section Ranking.

Context {A : Type} `{Numeric A}.













End Ranking.

(** ** The grid search, step by step *)

Section Grid.

Context {A : Type} `{Numeric A}.

Lemma GridSearchCV_fit_inv (estimator : LRFisterDeconvolve.t A) (widths : list A)
      (cv : nat) (scoring : list (string * GridSearchCV.scorer))
      (refit : string) (X : batch A) (gs : GridSearchCV.fitted) :
  GridSearchCV.fit estimator widths cv scoring refit X = Ok gs ->
  exists folds means w log,
    widths <> []
    /\ GridSearchCV.KFold_split cv X = Ok folds
    /\ GridSearchCV.cv_results_ gs
       = flat_map
           (fun ns =>
              GridSearchCV.columns_of
                (fst ns)
                (map (fun w => map (GridSearchCV._fit_and_score estimator scoring w) folds)
                     widths))
           scoring
    /\ GridSearchCV.lookup ("mean_test_" ++ refit)%string (GridSearchCV.cv_results_ gs)
       = Ok means
    /\ GridSearchCV.best_index_ gs = GridSearchCV.best_index means
    /\ nth_error widths (GridSearchCV.best_index means) = Some w
    /\ LRFisterDeconvolve.fit
         X (GridSearchCV.set_regularizer_width w (GridSearchCV.clone estimator))
       = (GridSearchCV.best_estimator_ gs, Ok log).
Proof.
  unfold GridSearchCV.fit. intros E.
  inv_bind E as sc Esc. inv_bind E as u Eu. inv_bind E as folds Efolds.
  cbv zeta in E. inv_bind E as u' Eu'. inv_bind E as means Emeans.
  inv_bind E as w Ew.
  destruct (LRFisterDeconvolve.fit X _) as [best [log|e]] eqn:Efit; [|discriminate].
  injection E as <-. cbn.
  exists folds, means, w, log.
  split; [destruct widths; [discriminate | discriminate]|].
  split; [exact Efolds|]. split; [reflexivity|]. split; [exact Emeans|].
  split; [reflexivity|]. split; [|exact Efit].
  destruct (nth_error widths _); [injection Ew as <-; reflexivity | discriminate].
Qed.



(** The cells of a metric that is in the scoring dictionary are the
    scores of its scorer, on the held-out rows or on the train rows. *)
Lemma cells_of_scores (estimator : LRFisterDeconvolve.t A)
      (scoring : list (string * GridSearchCV.scorer)) (name : string)
      (score : GridSearchCV.scorer) (test : bool) (w : A)
      (folds : list (batch A * batch A)) :
  GridSearchCV.lookup name scoring = Ok score ->
  GridSearchCV.cells_of name test
                        (map (GridSearchCV._fit_and_score estimator scoring w) folds)
  = map ((if test then held_out_score else train_score) score estimator w) folds.
Proof.
  intros Hlook. unfold GridSearchCV.cells_of. rewrite map_map.
  apply map_ext. intros [train held_out].
  unfold GridSearchCV._fit_and_score.
  assert (Hs : (if test then held_out_score else train_score)
                 score estimator w (train, held_out)
               = match LRFisterDeconvolve.fit
                         train (GridSearchCV.set_regularizer_width
                                  w (GridSearchCV.clone estimator)) with
                 | (fitted, Ok _) =>
                     GridSearchCV.cell_of
                       (score fitted (if test then held_out else train))
                 | (_, Raise _) => None
                 end).
  { unfold held_out_score, train_score.
    destruct test; cbn [fst snd];
      destruct (LRFisterDeconvolve.fit train _) as [fitted [log|e]]; reflexivity. }
  rewrite Hs.
  destruct (LRFisterDeconvolve.fit train _) as [fitted [log|e]];
    cbn [GridSearchCV.scores].
  - induction scoring as [|[k sc] scoring IH]; [discriminate|].
    simpl in *. destruct (String.eqb k name).
    + injection Hlook as <-. destruct test; reflexivity.
    + apply IH, Hlook.
  - induction scoring as [|[k sc] scoring IH]; [discriminate|].
    simpl in *. destruct (String.eqb k name);
      [destruct test; reflexivity | apply IH, Hlook].
Qed.



(** What the refitted winner holds. *)
Lemma refit_attributes (self : LRFisterGrid.t A) (X : batch A) (w : A)
      (best : LRFisterDeconvolve.t A) (log : list (event A)) :
  LRFisterDeconvolve.fit
    X (GridSearchCV.set_regularizer_width
         w (GridSearchCV.clone (LRFisterGrid.deconvolver_of self))) = (best, Ok log) ->
  exists d r,
    LRDeconvolve.deconvolved_y_ (LRFisterDeconvolve.super best) = Some d
    /\ convolve d (LRFisterGrid.impulse_response_y self) = Ok r.
Proof.
  intros E.
  pose proof (LRFisterDeconvolve_fit_cases
                (GridSearchCV.set_regularizer_width
                   w (GridSearchCV.clone (LRFisterGrid.deconvolver_of self))) X) as Hc.
  cbv zeta in Hc.
  destruct (LRFisterDeconvolve._LR_fister _ _) as [[d log']|e'].
  - destruct Hc as (r & Er & Efit). rewrite Efit in E. injection E as <- _.
    exists d, r. split; [reflexivity | exact Er].
  - rewrite Hc in E. discriminate.
Qed.

(** The selection column is the list of mean held-out scores. *)
Lemma selection_column (estimator : LRFisterDeconvolve.t A) (widths : list A)
      (scoring : list (string * GridSearchCV.scorer)) (score : GridSearchCV.scorer)
      (folds : list (batch A * batch A)) :
  GridSearchCV.lookup "reconvolved" scoring = Ok score ->
  map (fun pf => GridSearchCV.mean_cells (GridSearchCV.cells_of "reconvolved" true pf))
      (map (fun w => map (GridSearchCV._fit_and_score estimator scoring w) folds) widths)
  = mean_held_out_scores score estimator widths folds.
Proof.
  intros Hlook. unfold mean_held_out_scores. rewrite map_map.
  apply map_ext. intros w.
  rewrite (cells_of_scores estimator scoring "reconvolved" true w folds Hlook).
  reflexivity.
Qed.

(** Without a ground truth the table has no "deconvolved" column, and
    [fit] stops at its first read of one. *)
Lemma LRFisterGrid_fit_without_truth (metrics : deconvolution_metrics A)
      (self : LRFisterGrid.t A) (X : batch A) (gs : GridSearchCV.fitted) :
  LRFisterGrid.ground_truth_y self = None ->
  GridSearchCV.fit (LRFisterGrid.deconvolver_of self)
                   (LRFisterGrid.regularizer_widths self) 5
                   (LRFisterGrid.scoring_of metrics self) "reconvolved" X = Ok gs ->
  GridSearchCV.lookup "mean_test_deconvolved" (GridSearchCV.cv_results_ gs)
  = Raise KeyError
  /\ exists d r,
      LRDeconvolve.deconvolved_y_
        (LRFisterDeconvolve.super (GridSearchCV.best_estimator_ gs)) = Some d
      /\ convolve d (LRFisterGrid.impulse_response_y self) = Ok r
      /\ LRFisterGrid.fit metrics X self
         = (LRFisterGrid.setattr
              (LRFisterGrid.Gridsearch_cv_results_ (GridSearchCV.cv_results_ gs))
              (LRFisterGrid.setattr
                 (LRFisterGrid.Reconvolved_y_ r)
                 (LRFisterGrid.setattr
                    (LRFisterGrid.Deconvolved_y_ d)
                    (LRFisterGrid.setattr
                       (LRFisterGrid.Measured_y_ (mean_axis0 X)) self))),
            Raise KeyError).
Proof.
  intros Hgt Es.
  destruct (GridSearchCV_fit_inv _ _ _ _ _ _ Es)
    as (folds & means & w & log & Hw & Hf & Hres & Hmeans & Hbi & Hnth & Hrefit).
  destruct (refit_attributes _ _ _ Hrefit) as (d & r & Hd & Hconv).
  assert (Hkey : GridSearchCV.lookup "mean_test_deconvolved"
                                     (GridSearchCV.cv_results_ gs) = Raise KeyError).
  { rewrite Hres. unfold LRFisterGrid.scoring_of. rewrite Hgt. reflexivity. }
  split; [exact Hkey|]. exists d, r. split; [exact Hd|]. split; [exact Hconv|].
  unfold LRFisterGrid.fit, mbind, eval, assign, mret.
  rewrite Es. cbn [LRFisterGrid.setattr]. rewrite Hd.
  cbn [getattr bind LRFisterGrid.deconvolved_y_ LRFisterGrid.impulse_response_y
       LRFisterGrid.setattr].
  rewrite Hconv, Hkey. reflexivity.
Qed.

(** With a ground truth every column [fit] reads is in the table, and
    [fit] completes whenever the grid search does. *)
Lemma LRFisterGrid_fit_with_truth (metrics : deconvolution_metrics A)
      (self : LRFisterGrid.t A) (X : batch A) (gs : GridSearchCV.fitted) (g : list A) :
  LRFisterGrid.ground_truth_y self = Some g ->
  GridSearchCV.fit (LRFisterGrid.deconvolver_of self)
                   (LRFisterGrid.regularizer_widths self) 5
                   (LRFisterGrid.scoring_of metrics self) "reconvolved" X = Ok gs ->
  exists d r means,
    LRDeconvolve.deconvolved_y_
      (LRFisterDeconvolve.super (GridSearchCV.best_estimator_ gs)) = Some d
    /\ convolve d (LRFisterGrid.impulse_response_y self) = Ok r
    /\ GridSearchCV.lookup "mean_test_reconvolved" (GridSearchCV.cv_results_ gs)
       = Ok means
    /\ snd (LRFisterGrid.fit metrics X self) = Ok tt
    /\ let after := fst (LRFisterGrid.fit metrics X self) in
       LRFisterGrid.measured_y_ after = Some (mean_axis0 X)
       /\ LRFisterGrid.deconvolved_y_ after = Some d
       /\ LRFisterGrid.reconvolved_y_ after = Some r
       /\ LRFisterGrid.gridsearch_cv_results_ after
          = Some (GridSearchCV.cv_results_ gs)
       /\ LRFisterGrid.cv_ after = Some (LRFisterGrid.negated means).
Proof.
  intros Hgt Es.
  destruct (GridSearchCV_fit_inv _ _ _ _ _ _ Es)
    as (folds & means & w & log & Hw & Hf & Hres & Hmeans & Hbi & Hnth & Hrefit).
  destruct (refit_attributes _ _ _ Hrefit) as (d & r & Hd & Hconv).
  exists d, r, means. split; [exact Hd|]. split; [exact Hconv|].
  split; [exact Hmeans|].
  unfold LRFisterGrid.fit, mbind, eval, assign, mret.
  rewrite Es. cbn [LRFisterGrid.setattr]. rewrite Hd.
  cbn [getattr bind LRFisterGrid.deconvolved_y_ LRFisterGrid.impulse_response_y
       LRFisterGrid.setattr].
  rewrite Hconv.
  change ("mean_test_" ++ "reconvolved")%string
    with "mean_test_reconvolved"%string in Hmeans.
  rewrite Hmeans.
  assert (Hk : forall key,
             In key ["mean_test_deconvolved"; "std_test_deconvolved";
                     "mean_train_reconvolved"; "std_train_reconvolved";
                     "std_test_reconvolved"]%string ->
             exists col, GridSearchCV.lookup key (GridSearchCV.cv_results_ gs) = Ok col).
  { intros key Hin. rewrite Hres. unfold LRFisterGrid.scoring_of. rewrite Hgt.
    simpl in Hin.
    repeat (destruct Hin as [<-|Hin]; [eexists; reflexivity|]). destruct Hin. }
  destruct (Hk "mean_test_deconvolved"%string) as (c1 & ->); [simpl; tauto|].
  destruct (Hk "std_test_deconvolved"%string) as (c2 & ->); [simpl; tauto|].
  destruct (Hk "mean_train_reconvolved"%string) as (c3 & ->); [simpl; tauto|].
  destruct (Hk "std_train_reconvolved"%string) as (c4 & ->); [simpl; tauto|].
  destruct (Hk "std_test_reconvolved"%string) as (c5 & ->); [simpl; tauto|].
  cbn. repeat split.
Qed.


Lemma LRFisterGrid_fit_search_raises (metrics : deconvolution_metrics A)
      (self : LRFisterGrid.t A) (X : batch A) (e : exn) :
  GridSearchCV.fit (LRFisterGrid.deconvolver_of self)
                   (LRFisterGrid.regularizer_widths self) 5
                   (LRFisterGrid.scoring_of metrics self) "reconvolved" X = Raise e ->
  LRFisterGrid.fit metrics X self = (self, Raise e).
Proof.
  intros Es. unfold LRFisterGrid.fit, mbind, eval, assign, mret.
  rewrite Es. reflexivity.
Qed.


End Grid.

(** ** Exact arithmetic: the reals *)

(** Division of reals is exact. *)
Lemma real_exact_division : exact_division (A := R).
Proof.
  repeat split; cbn; intros.
  - now field.
  - now field.
  - now field.
Qed.

Lemma real_sum_positive (l : list R) :
  forall acc : R,
    Forall (fun e => (0 < e)%R) l -> (0 <= acc)%R -> l <> [] ->
    (0 < fold_left Rplus l acc)%R.
Proof.
  induction l as [|e l IH]; intros acc Hpos Hacc Hne; [congruence|].
  inversion Hpos as [|e' l' He Hl]; subst. simpl.
  destruct l as [|e2 l].
  - simpl. lra.
  - apply IH; [exact Hl | lra | discriminate].
Qed.

(** Over the reals the Gaussian profile of a non-empty domain and a
    non-zero width has a positive sum, so the kernel sums to 1. *)
Lemma real_kernel_unit_sum (x : list R) (width : R) :
  x <> [] -> width <> 0%R -> np_sum (gaussian_kernel x width) = 1%R.
Proof.
  intros Hx _. change 1%R with (of_Z (A := R) 1).
  apply gaussian_kernel_unit_sum; [exact real_exact_division|].
  change (nzero (A := R)) with 0%R.
  apply Rgt_not_eq, Rlt_gt. unfold np_sum, gaussian_profile.
  change (nzero (A := R)) with 0%R. change (nadd (A := R)) with Rplus.
  apply real_sum_positive.
  - apply Forall_forall. intros e He. apply in_map_iff in He.
    destruct He as (xi & <- & _). apply exp_pos.
  - cbn. lra.
  - destruct x; [congruence | discriminate].
Qed.

(** ** Theorems *)

(** C1. For a measured signal [m] (the mean of the batch [X] over its
    rows), impulse response [h] and iteration count [N >= 1],
    [LRDeconvolve.fit] computes the recurrence [O_0 = m],
    [I_k = O_k * h], [blur_k = m / I_k], [corr_k = blur_k * reverse(h)],
    [O_{k+1} = O_k . corr_k]: whenever [fit] returns, the stored
    deconvolved signal is [O_N] and the loop has run exactly [N] times
    (one reconstruction-error scalar per step [0 .. N-1], no early
    stop); and whenever the recurrence reaches [O_N] and the
    per-iteration telemetry of [O_1 .. O_N] goes through, [fit] returns
    with [O_N] stored. *)
Theorem C1_fit_computes_LR_recurrence
        {A : Type} `{Numeric A}
        (self : LRDeconvolve.t A) (X : batch A) (N : nat) :
  LRDeconvolve.iterations self = Z.of_nat N ->
  1 <= N ->
  let h := LRDeconvolve.impulse_response_y self in
  let m := mean_axis0 X in
  let fitting := LRDeconvolve.set_measured_y_ m self in
  (forall self' log,
      LRDeconvolve.fit X self = (self', Ok log) ->
      exists O_N,
        LR_recurrence h m N = Ok O_N
        /\ LRDeconvolve.measured_y_ self' = Some m
        /\ LRDeconvolve.deconvolved_y_ self' = Some O_N
        /\ steps_of "reconstruction_mse" log = seq 0 N)
  /\
  (forall O_N,
      LR_recurrence h m N = Ok O_N ->
      (forall k O_next,
          k < N -> LR_recurrence h m (S k) = Ok O_next ->
          is_ok (LRDeconvolve._save_iteration_stats fitting O_next k) = true) ->
      exists self' log,
        LRDeconvolve.fit X self = (self', Ok log)
        /\ LRDeconvolve.deconvolved_y_ self' = Some O_N).
Proof.
  intros Hits HN h m fitting. split.
  - intros self' log E.
    unfold LRDeconvolve.fit, mbind, assign, eval, mret in E. cbn in E.
    fold m in E. fold fitting in E.
    destruct (LRDeconvolve._LR fitting m) as [[O log']|e] eqn:ELR; cbn in E;
      [|discriminate].
    destruct (convolve O _) as [r|e] eqn:Er; cbn in E; [|discriminate].
    injection E as <- <-.
    unfold LRDeconvolve._LR in ELR.
    inv_bind ELR as v Eloop.
    change (LRDeconvolve.iterations fitting) with (LRDeconvolve.iterations self) in Eloop.
    rewrite Hits in Eloop. unfold py_range in Eloop. rewrite Nat2Z.id in Eloop.
    pose proof (loop_log (LR_body_unfold fitting m) "reconstruction_mse"%string
                         (@save_iteration_stats_steps A _ fitting) _ _ _ _ Eloop) as Hlog.
    apply (loop_sound (LR_body_unfold fitting m)) in Eloop.
    destruct Eloop as (Hit & Hcur).
    unfold return_current_O in ELR. rewrite (Hcur HN) in ELR.
    injection ELR as <- <-.
    exists (var_previous_O v). cbn. repeat split.
    + unfold LR_recurrence. rewrite recurrence_iterate. exact Hit.
    + exact Hlog.
  - intros O_N Hrec Htel.
    unfold LR_recurrence in Hrec. rewrite recurrence_iterate in Hrec.
    destruct (loop_complete (LR_body_unfold fitting m) N 0
                {| var_previous_O := m; var_current_O := None; var_log := [] |}
                O_N Hrec) as (v' & Eloop & Hprev).
    { intros j O' Hj Eit. apply Htel; [exact Hj|].
      unfold LR_recurrence. rewrite recurrence_iterate. exact Eit. }
    destruct (loop_sound (LR_body_unfold fitting m) _ _ _ _ Eloop) as (_ & Hcur).
    specialize (Hcur HN).
    assert (Hconv : exists r, convolve O_N h = Ok r).
    { destruct N as [|N']; [lia|].
      apply (@save_iteration_stats_convolve A _ fitting O_N N').
      apply Htel; [lia|].
      unfold LR_recurrence. rewrite recurrence_iterate. exact Hrec. }
    destruct Hconv as (r & Er).
    eexists. eexists.
    unfold LRDeconvolve.fit, mbind, assign, eval, mret. cbn.
    fold m. fold fitting.
    unfold LRDeconvolve._LR.
    change (LRDeconvolve.iterations fitting) with (LRDeconvolve.iterations self).
    rewrite Hits. unfold py_range. rewrite Nat2Z.id.
    change (LRDeconvolve._deconvolution_guess fitting m) with m.
    rewrite Eloop. cbn. unfold return_current_O. rewrite Hcur, Hprev. cbn.
    fold h. rewrite Er. cbn. split; reflexivity.
Qed.

(** C3. For every [alpha] (in particular every [alpha <> 0]) and every
    iteration, [LRL2Deconvolve] applies the plain Lucy-Richardson
    multiplicative update and then replaces each element [O] of the
    updated estimate by [(-1 + sqrt(1 + 2*alpha*O)) / alpha] before the
    next iteration: [fit] returns exactly when that recurrence reaches
    [O_N], and then stores [O_N]. *)
Theorem C3_L2_iteration
        {A : Type} `{Numeric A}
        (self : LRL2Deconvolve.t A) (X : batch A) (N : nat) :
  LRDeconvolve.iterations (LRL2Deconvolve.super self) = Z.of_nat N ->
  1 <= N ->
  let h := LRDeconvolve.impulse_response_y (LRL2Deconvolve.super self) in
  let alpha := LRL2Deconvolve.alpha self in
  let m := mean_axis0 X in
  (forall self',
      LRL2Deconvolve.fit X self = (self', Ok tt) ->
      exists O_N,
        l2_recurrence h alpha m N = Ok O_N
        /\ LRDeconvolve.deconvolved_y_ (LRL2Deconvolve.super self') = Some O_N)
  /\
  (forall O_N,
      l2_recurrence h alpha m N = Ok O_N ->
      exists self',
        LRL2Deconvolve.fit X self = (self', Ok tt)
        /\ LRDeconvolve.deconvolved_y_ (LRL2Deconvolve.super self') = Some O_N)
  /\
  (forall k O_k O_next,
      l2_recurrence h alpha m k = Ok O_k ->
      l2_recurrence h alpha m (S k) = Ok O_next ->
      exists O',
        LR_update h m O_k = Ok O'
        /\ O_next =
           map (fun O => ndiv (nadd (of_Z (-1))
                                    (nsqrt (nadd (of_Z 1)
                                                 (nmul (nmul (of_Z 2) alpha) O))))
                              alpha) O').
Proof.
  intros Hits HN h alpha m. split; [|split].
  - intros self' E.
    unfold LRL2Deconvolve.fit, mbind, assign, eval, mret in E. cbn in E.
    fold m in E.
    destruct (LRL2Deconvolve._LRL2 self m) as [O|e] eqn:EL; cbn in E; [|discriminate].
    destruct (convolve O _) as [r|e] eqn:Er; cbn in E; [|discriminate].
    injection E as <-.
    unfold LRL2Deconvolve._LRL2 in EL.
    inv_bind EL as v Eloop. inv_bind EL as out Eout. injection EL as <-.
    rewrite Hits in Eloop. unfold py_range in Eloop. rewrite Nat2Z.id in Eloop.
    apply (loop_sound (LRL2_body_unfold self m)) in Eloop.
    destruct Eloop as (Hit & Hcur).
    unfold return_current_O in Eout. rewrite (Hcur HN) in Eout.
    injection Eout as <-.
    exists (var_previous_O v). cbn. split; [|reflexivity].
    unfold l2_recurrence. rewrite recurrence_iterate. exact Hit.
  - intros O_N Hrec.
    unfold l2_recurrence in Hrec. rewrite recurrence_iterate in Hrec.
    destruct (loop_complete (LRL2_body_unfold self m) N 0
                {| var_previous_O := m; var_current_O := None; var_log := [] |}
                O_N Hrec) as (v' & Eloop & Hprev).
    { intros; reflexivity. }
    destruct (loop_sound (LRL2_body_unfold self m) _ _ _ _ Eloop) as (_ & Hcur).
    specialize (Hcur HN).
    assert (Hconv : exists r, convolve O_N h = Ok r).
    { destruct N as [|N']; [lia|].
      apply iterate_last in Hrec. destruct Hrec as (O_prev & _ & Estep).
      unfold l2_step in Estep. inv_bind Estep as O' Eupd. injection Estep as <-.
      apply LR_update_ok_inv in Eupd. destruct Eupd as (Hh & HO').
      apply convolve_ok; [|exact Hh].
      destruct O'; [contradiction | discriminate]. }
    destruct Hconv as (r & Er).
    eexists.
    unfold LRL2Deconvolve.fit, mbind, assign, eval, mret. cbn.
    fold m. unfold LRL2Deconvolve._LRL2.
    rewrite Hits. unfold py_range. rewrite Nat2Z.id.
    change (LRDeconvolve._deconvolution_guess (LRL2Deconvolve.super self) m) with m.
    rewrite Eloop. cbn. unfold return_current_O. rewrite Hcur, Hprev. cbn.
    fold h. rewrite Er. cbn. split; reflexivity.
  - intros k O_k O_next Ek Enext.
    unfold l2_recurrence in *. simpl in Enext. rewrite Ek in Enext. simpl in Enext.
    unfold l2_step in Enext. inv_bind Enext as O' Eupd. injection Enext as <-.
    exists O'. split; [exact Eupd | reflexivity].
Qed.

(** C2, as the code has it.  For every measured signal and iteration
    count [N >= 1], each iteration of [LRFisterDeconvolve] is the plain
    Lucy-Richardson multiplicative update followed by valid-mode
    convolution of the updated estimate with the kernel [G]: the Gaussian
    profile on the impulse-response x domain, centered at the mean of
    that domain, of standard deviation the regularizer width, every
    entry divided by the sum of the profile as [np.sum] computes it; the
    deconvolved signal is the estimate after [N] such steps.  The
    entries of [G] sum to 1 in exact arithmetic, over the reals, for a
    non-empty domain and a non-zero width.  In binary64, as the code
    runs, they need not: on the domain [[-1, 0, 1]] at width 0.5 the sum
    is 0.99999999999999978, also from the correctly rounded profile
    [[exp(-2), 1, exp(-2)]], and at width 0 every entry of [G] is NaN. *)
Theorem C2_fister_iteration
        {A : Type} `{Numeric A}
        (self : LRFisterDeconvolve.t A) (X : batch A) (N : nat) :
  LRDeconvolve.iterations (LRFisterDeconvolve.super self) = Z.of_nat N ->
  1 <= N ->
  let h := LRDeconvolve.impulse_response_y (LRFisterDeconvolve.super self) in
  let x := LRDeconvolve.impulse_response_x (LRFisterDeconvolve.super self) in
  let width := LRFisterDeconvolve.regularizer_width self in
  let m := mean_axis0 X in
  let G := gaussian_kernel x width in
  let fitting := LRDeconvolve.set_measured_y_ m (LRFisterDeconvolve.super self) in
  (forall self' log,
      LRFisterDeconvolve.fit X self = (self', Ok log) ->
      exists O_N,
        fister_recurrence h x width m N = Ok O_N
        /\ LRDeconvolve.deconvolved_y_ (LRFisterDeconvolve.super self') = Some O_N)
  /\
  (forall O_N,
      fister_recurrence h x width m N = Ok O_N ->
      (LRFisterDeconvolve.logging self = true ->
       forall k O_next,
         k < N -> fister_recurrence h x width m (S k) = Ok O_next ->
         is_ok (LRDeconvolve._save_iteration_stats fitting O_next k) = true) ->
      exists self' log,
        LRFisterDeconvolve.fit X self = (self', Ok log)
        /\ LRDeconvolve.deconvolved_y_ (LRFisterDeconvolve.super self') = Some O_N)
  /\
  (forall k O_k O_next,
      fister_recurrence h x width m k = Ok O_k ->
      fister_recurrence h x width m (S k) = Ok O_next ->
      exists O', LR_update h m O_k = Ok O' /\ convolve O' G = Ok O_next)
  /\
  G = map (fun g => ndiv g (np_sum (gaussian_profile x width)))
          (map (fun xi => nexp (nmul (ndiv (of_Z (-1)) (of_Z 2))
                                     (nsquare (ndiv (nsub xi (np_mean x)) width)))) x)
  /\
  (forall (x_real : list R) (width_real : R),
      x_real <> [] -> width_real <> 0%R ->
      np_sum (gaussian_kernel x_real width_real) = 1%R)
  /\
  (let G64 := LRFisterDeconvolve._normalized_gaussian
                [-1; 0; 1]%float (np_mean [-1; 0; 1]%float) 0.5%float in
   let profile := [0x1.152aaa3bf81ccp-3; 1; 0x1.152aaa3bf81ccp-3]%float in
   np_sum G64 = 0x1.ffffffffffffep-1%float
   /\ np_sum (map (fun g => ndiv g (np_sum profile)) profile)
      = 0x1.ffffffffffffep-1%float
   /\ PrimFloat.ltb 0x1.ffffffffffffep-1%float 1%float = true)
  /\
  forallb PrimFloat.is_nan
          (LRFisterDeconvolve._normalized_gaussian
             [-1; 0; 1]%float (np_mean [-1; 0; 1]%float) 0%float) = true.
Proof.
  intros Hits HN h x width m G fitting.
  set (self1 := LRFisterDeconvolve.with_super (LRDeconvolve.set_measured_y_ m) self).
  assert (Hfit : forall O_N,
             fister_recurrence h x width m N = Ok O_N -> exists r, convolve O_N h = Ok r).
  { intros O_N Hrec. unfold fister_recurrence in Hrec.
    rewrite recurrence_iterate in Hrec.
    destruct N as [|N']; [lia|].
    apply iterate_last in Hrec. destruct Hrec as (O_prev & _ & Estep).
    unfold fister_step in Estep. inv_bind Estep as O' Eupd.
    apply LR_update_ok_inv in Eupd. destruct Eupd as (Hh & _).
    apply convolve_ok; [|exact Hh].
    eapply convolve_nonempty; exact Estep. }
  split; [|split; [|split; [|split; [|split]]]].
  - intros self' log E.
    unfold LRFisterDeconvolve.fit, mbind, assign, eval, mret in E. cbn in E.
    fold m in E. fold self1 in E.
    destruct (LRFisterDeconvolve._LR_fister self1 m) as [[O log']|e] eqn:ELR;
      cbn in E; [|discriminate].
    destruct (convolve O _) as [r|e] eqn:Er; cbn in E; [|discriminate].
    injection E as <- <-.
    unfold LRFisterDeconvolve._LR_fister in ELR.
    inv_bind ELR as v Eloop.
    change (LRDeconvolve.iterations (LRFisterDeconvolve.super self1))
      with (LRDeconvolve.iterations (LRFisterDeconvolve.super self)) in Eloop.
    rewrite Hits in Eloop. unfold py_range in Eloop. rewrite Nat2Z.id in Eloop.
    assert (Hs : iterate (fister_step h x width m) N m = Ok (var_previous_O v)
                 /\ (1 <= N -> var_current_O v = Some (var_previous_O v))).
    { destruct (LRFisterDeconvolve.logging self1).
      - exact (loop_sound (LR_fister_body_logging_unfold self1 m) _ _ _ _ Eloop).
      - exact (loop_sound (LR_fister_body_unfold self1 m) _ _ _ _ Eloop). }
    destruct Hs as (Hit & Hcur).
    unfold return_current_O in ELR. rewrite (Hcur HN) in ELR.
    injection ELR as <- <-.
    exists (var_previous_O v). cbn. split; [|reflexivity].
    unfold fister_recurrence. rewrite recurrence_iterate. exact Hit.
  - intros O_N Hrec Htel.
    destruct (Hfit O_N Hrec) as (r & Er).
    unfold fister_recurrence in Hrec. rewrite recurrence_iterate in Hrec.
    assert (Hloop : exists v',
               (if LRFisterDeconvolve.logging self1
                then for_each
                       (LRFisterDeconvolve._LR_fister_body_logging
                          self1 m (np_flip h)
                          (LRFisterDeconvolve._normalized_gaussian x (np_mean x) width))
                       (seq 0 N)
                       {| var_previous_O := m; var_current_O := None; var_log := [] |}
                else for_each
                       (LRFisterDeconvolve._LR_fister_body
                          self1 m (np_flip h)
                          (LRFisterDeconvolve._normalized_gaussian x (np_mean x) width))
                       (seq 0 N)
                       {| var_previous_O := m; var_current_O := None; var_log := [] |})
               = Ok v'
               /\ var_previous_O v' = O_N
               /\ var_current_O v' = Some (var_previous_O v')).
    { change (LRFisterDeconvolve.logging self1) with (LRFisterDeconvolve.logging self).
      destruct (LRFisterDeconvolve.logging self) eqn:Elog.
      - destruct (loop_complete (LR_fister_body_logging_unfold self1 m) N 0
                    {| var_previous_O := m; var_current_O := None; var_log := [] |}
                    O_N Hrec) as (v' & Eloop & Hprev).
        { intros j O' Hj Eit. apply (Htel eq_refl); [exact Hj|].
          unfold fister_recurrence. rewrite recurrence_iterate. exact Eit. }
        exists v'. split; [exact Eloop|]. split; [exact Hprev|].
        apply (loop_sound (LR_fister_body_logging_unfold self1 m) _ _ _ _ Eloop). exact HN.
      - destruct (loop_complete (LR_fister_body_unfold self1 m) N 0
                    {| var_previous_O := m; var_current_O := None; var_log := [] |}
                    O_N Hrec) as (v' & Eloop & Hprev).
        { intros; reflexivity. }
        exists v'. split; [exact Eloop|]. split; [exact Hprev|].
        apply (loop_sound (LR_fister_body_unfold self1 m) _ _ _ _ Eloop). exact HN. }
    destruct Hloop as (v' & Eloop & Hprev & Hcur).
    eexists. eexists.
    unfold LRFisterDeconvolve.fit, mbind, assign, eval, mret. cbn.
    fold m. fold self1. unfold LRFisterDeconvolve._LR_fister.
    change (LRDeconvolve.iterations (LRFisterDeconvolve.super self1))
      with (LRDeconvolve.iterations (LRFisterDeconvolve.super self)).
    rewrite Hits. unfold py_range. rewrite Nat2Z.id.
    change (LRDeconvolve._deconvolution_guess (LRFisterDeconvolve.super self1) m) with m.
    change (LRDeconvolve.impulse_response_x (LRFisterDeconvolve.super self1)) with x.
    change (LRDeconvolve.impulse_response_y (LRFisterDeconvolve.super self1)) with h.
    change (LRFisterDeconvolve.regularizer_width self1) with width.
    rewrite Eloop. cbn. unfold return_current_O. rewrite Hcur, Hprev. cbn.
    fold h. rewrite Er. cbn. split; reflexivity.
  - intros k O_k O_next Ek Enext.
    unfold fister_recurrence in *. simpl in Enext. rewrite Ek in Enext. simpl in Enext.
    unfold fister_step in Enext. inv_bind Enext as O' Eupd.
    exists O'. split; [exact Eupd | exact Enext].
  - reflexivity.
  - exact real_kernel_unit_sum.
  - vm_compute. repeat split.
Qed.

(** A run of C1 on a two-row batch: [fit] returns and stores [O_3]. *)
Lemma C1_witness :
  LRDeconvolve.iterations Samples.plain = Z.of_nat 3
  /\ 1 <= 3
  /\ exists O_N,
      LR_recurrence Samples.h (mean_axis0 Samples.X2) 3 = Ok O_N
      /\ LRDeconvolve.deconvolved_y_
           (fst (LRDeconvolve.fit Samples.X2 Samples.plain)) = Some O_N.
Proof.
  split; [reflexivity|]. split; [lia|].
  destruct (@C1_fit_computes_LR_recurrence _ _ Samples.plain Samples.X2 3)
    as [Hsound _]; [reflexivity | lia |].
  destruct (Hsound (fst (LRDeconvolve.fit Samples.X2 Samples.plain))
                   (match snd (LRDeconvolve.fit Samples.X2 Samples.plain) with
                    | Ok log => log
                    | Raise _ => []
                    end))
    as (O_N & Hrec & _ & Hdec & _); [vm_compute; reflexivity|].
  exists O_N. split; [exact Hrec | exact Hdec].
Defined.

(** A run of C3: the L2 fit returns and stores the third iterate. *)
Lemma C3_witness :
  LRDeconvolve.iterations (LRL2Deconvolve.super Samples.l2) = Z.of_nat 3
  /\ 1 <= 3
  /\ exists O_N,
      l2_recurrence Samples.h 0.5%float (mean_axis0 Samples.X2) 3 = Ok O_N
      /\ LRDeconvolve.deconvolved_y_
           (LRL2Deconvolve.super (fst (LRL2Deconvolve.fit Samples.X2 Samples.l2)))
         = Some O_N.
Proof.
  split; [reflexivity|]. split; [lia|].
  destruct (@C3_L2_iteration _ _ Samples.l2 Samples.X2 3)
    as (Hsound & _ & _); [reflexivity | lia |].
  destruct (Hsound (fst (LRL2Deconvolve.fit Samples.X2 Samples.l2)))
    as (O_N & Hrec & Hdec); [vm_compute; reflexivity|].
  exists O_N. split; [exact Hrec | exact Hdec].
Defined.

(** A run of C2 in binary64 ([fit] returns and stores the third
    iterate), and the unit sum of the kernel over the reals at width 1. *)
Lemma C2_witness :
  LRDeconvolve.iterations (LRFisterDeconvolve.super Samples.fister) = Z.of_nat 3
  /\ 1 <= 3
  /\ (exists O_N,
        fister_recurrence Samples.h Samples.x 0.5%float (mean_axis0 Samples.X2) 3
        = Ok O_N
        /\ LRDeconvolve.deconvolved_y_
             (LRFisterDeconvolve.super
                (fst (LRFisterDeconvolve.fit Samples.X2 Samples.fister)))
           = Some O_N)
  /\ np_sum (gaussian_kernel Samples.x_exact 1%R) = 1%R.
Proof.
  split; [reflexivity|]. split; [lia|]. split.
  - destruct (@C2_fister_iteration _ _ Samples.fister Samples.X2 3)
      as (Hsound & _); [reflexivity | lia |].
    destruct (Hsound (fst (LRFisterDeconvolve.fit Samples.X2 Samples.fister)) [])
      as (O_N & Hrec & Hdec); [vm_compute; reflexivity|].
    exists O_N. split; [exact Hrec | exact Hdec].
  - destruct (@C2_fister_iteration _ _ Samples.fister_exact Samples.X2_exact 3)
      as (_ & _ & _ & _ & Hsum & _); [reflexivity | lia |].
    apply Hsum; [discriminate | lra].
Defined.

(** C2 fails on the code as worded: the entries of [G] do not sum to 1.
    For the estimator of the run above, whose fit returns, the kernel on
    the domain [[-1, 0, 1]] at width 0.5 sums to 0.99999999999999978,
    which is below 1; and at width 0 the three entries of the kernel are
    NaN, and so is their sum. *)
Lemma C2_counterexample :
  let s := LRFisterDeconvolve.super Samples.fister in
  let G := LRFisterDeconvolve._normalized_gaussian
             (LRDeconvolve.impulse_response_x s)
             (np_mean (LRDeconvolve.impulse_response_x s))
             (LRFisterDeconvolve.regularizer_width Samples.fister) in
  let G0 := LRFisterDeconvolve._normalized_gaussian
              (LRDeconvolve.impulse_response_x s)
              (np_mean (LRDeconvolve.impulse_response_x s)) 0%float in
  is_ok (snd (LRFisterDeconvolve.fit Samples.X2 Samples.fister)) = true
  /\ np_sum G = 0x1.ffffffffffffep-1%float
  /\ PrimFloat.eqb (np_sum G) 1%float = false
  /\ PrimFloat.ltb (np_sum G) 1%float = true
  /\ forallb PrimFloat.is_nan G0 = true
  /\ PrimFloat.is_nan (np_sum G0) = true.
Proof.
  vm_compute. repeat split.
Qed.

(** C8. On a freshly constructed, never-fit instance [predict(X)] and
    [score(X)] fail for every [X] (the fitted attribute is missing:
    AttributeError, the specification's UsageError).  After a successful
    [fit], [predict] ignores its argument and every call returns the
    stored deconvolved signal, and [score(X_test)] is the negative mean
    squared error between the stored reconvolved signal and the mean of
    [X_test] over its rows.  This holds for the plain estimator and for
    both regularised subclasses. *)
Theorem C8_estimator_state_machine {A : Type} `{Numeric A} :
  (forall impulse_x impulse_y conv_x its ground_truth (X : batch A),
      let fresh := LRDeconvolve.__init__ impulse_x impulse_y conv_x its ground_truth in
      LRDeconvolve.predict fresh X = Raise AttributeError
      /\ LRDeconvolve.score fresh X = Raise AttributeError)
  /\
  (forall impulse_x impulse_y conv_x width its ground_truth logging (X : batch A),
      let fresh := LRFisterDeconvolve.__init__
                     impulse_x impulse_y conv_x width its ground_truth logging in
      LRFisterDeconvolve.predict fresh X = Raise AttributeError
      /\ LRFisterDeconvolve.score fresh X = Raise AttributeError)
  /\
  (forall impulse_x impulse_y conv_x alpha its ground_truth (X : batch A),
      let fresh := LRL2Deconvolve.__init__
                     impulse_x impulse_y conv_x alpha its ground_truth in
      LRL2Deconvolve.predict fresh X = Raise AttributeError
      /\ LRL2Deconvolve.score fresh X = Raise AttributeError)
  /\
  (forall (self self' : LRDeconvolve.t A) (X : batch A) log,
      LRDeconvolve.fit X self = (self', Ok log) ->
      exists d r,
        LRDeconvolve.deconvolved_y_ self' = Some d
        /\ LRDeconvolve.reconvolved_y_ self' = Some r
        /\ (forall X1 X2 : batch A,
               LRDeconvolve.predict self' X1 = Ok d
               /\ LRDeconvolve.predict self' X2 = Ok d)
        /\ (forall X_test : batch A,
               LRDeconvolve.score self' X_test
               = (mse <- mean_squared_error r (mean_axis0 X_test) ;;
                  Ok (nmul (of_Z (-1)) mse))))
  /\
  (forall (self self' : LRFisterDeconvolve.t A) (X : batch A) log,
      LRFisterDeconvolve.fit X self = (self', Ok log) ->
      exists d r,
        LRDeconvolve.deconvolved_y_ (LRFisterDeconvolve.super self') = Some d
        /\ LRDeconvolve.reconvolved_y_ (LRFisterDeconvolve.super self') = Some r
        /\ (forall X1 X2 : batch A,
               LRFisterDeconvolve.predict self' X1 = Ok d
               /\ LRFisterDeconvolve.predict self' X2 = Ok d)
        /\ (forall X_test : batch A,
               LRFisterDeconvolve.score self' X_test
               = (mse <- mean_squared_error r (mean_axis0 X_test) ;;
                  Ok (nmul (of_Z (-1)) mse))))
  /\
  (forall (self self' : LRL2Deconvolve.t A) (X : batch A),
      LRL2Deconvolve.fit X self = (self', Ok tt) ->
      exists d r,
        LRDeconvolve.deconvolved_y_ (LRL2Deconvolve.super self') = Some d
        /\ LRDeconvolve.reconvolved_y_ (LRL2Deconvolve.super self') = Some r
        /\ (forall X1 X2 : batch A,
               LRL2Deconvolve.predict self' X1 = Ok d
               /\ LRL2Deconvolve.predict self' X2 = Ok d)
        /\ (forall X_test : batch A,
               LRL2Deconvolve.score self' X_test
               = (mse <- mean_squared_error r (mean_axis0 X_test) ;;
                  Ok (nmul (of_Z (-1)) mse)))).
Proof.
  repeat split; try reflexivity.
  - intros self self' X log E.
    pose proof (LRDeconvolve_fit_cases self X) as Hc. cbv zeta in Hc.
    destruct (LRDeconvolve._LR _ _) as [[d log']|e].
    + destruct Hc as (r & _ & Efit). rewrite Efit in E. injection E as <- <-.
      exists d, r. repeat split; reflexivity.
    + rewrite Hc in E. discriminate.
  - intros self self' X log E.
    pose proof (LRFisterDeconvolve_fit_cases self X) as Hc. cbv zeta in Hc.
    destruct (LRFisterDeconvolve._LR_fister _ _) as [[d log']|e].
    + destruct Hc as (r & _ & Efit). rewrite Efit in E. injection E as <- <-.
      exists d, r. repeat split; reflexivity.
    + rewrite Hc in E. discriminate.
  - intros self self' X E.
    pose proof (LRL2Deconvolve_fit_cases self X) as Hc.
    destruct (LRL2Deconvolve._LRL2 _ _) as [d|e].
    + destruct Hc as (r & _ & Efit). rewrite Efit in E. injection E as <-.
      exists d, r. repeat split; reflexivity.
    + rewrite Hc in E. discriminate.
Qed.

(** A run of C8: after [fit] on a two-row batch [predict] answers the
    same signal for two different arguments and [score] answers a
    number. *)
Lemma C8_witness :
  exists d s,
    LRDeconvolve.predict (fst (LRDeconvolve.fit Samples.X2 Samples.plain)) Samples.X2 = Ok d
    /\ LRDeconvolve.predict (fst (LRDeconvolve.fit Samples.X2 Samples.plain)) Samples.X4 = Ok d
    /\ LRDeconvolve.score (fst (LRDeconvolve.fit Samples.X2 Samples.plain)) Samples.X2 = Ok s.
Proof.
  destruct (@C8_estimator_state_machine float _) as (_ & _ & _ & Hplain & _).
  destruct (Hplain Samples.plain
                   (fst (LRDeconvolve.fit Samples.X2 Samples.plain)) Samples.X2
                   (match snd (LRDeconvolve.fit Samples.X2 Samples.plain) with
                    | Ok log => log
                    | Raise _ => []
                    end))
    as (d & r & _ & _ & Hpred & _); [vm_compute; reflexivity|].
  exists d. eexists. split; [apply (Hpred Samples.X2 Samples.X4)|].
  split; [apply (Hpred Samples.X2 Samples.X4)|].
  vm_compute. reflexivity.
Defined.

(** C6, as the code has it.  A [fit] that fails does not restore the
    Unfit state.  The deconvolved and reconvolved signals are exactly
    those held before the call (none on a never-fit instance, those of
    the last successful [fit] otherwise), so [predict] and [score]
    answer as they did before the call; nothing of the failed call is
    stored in them.  [LRDeconvolve] and [LRFisterDeconvolve] have already
    overwritten [measured_y_] with the mean of the new batch;
    [LRL2Deconvolve] is left unchanged. *)
Theorem C6_failed_fit_keeps_previous_results {A : Type} `{Numeric A} :
  (forall (self self' : LRDeconvolve.t A) (X : batch A) (e : exn),
      LRDeconvolve.fit X self = (self', Raise e) ->
      self' = LRDeconvolve.set_measured_y_ (mean_axis0 X) self
      /\ LRDeconvolve.deconvolved_y_ self' = LRDeconvolve.deconvolved_y_ self
      /\ LRDeconvolve.reconvolved_y_ self' = LRDeconvolve.reconvolved_y_ self
      /\ (forall X', LRDeconvolve.predict self' X' = LRDeconvolve.predict self X')
      /\ (forall X', LRDeconvolve.score self' X' = LRDeconvolve.score self X'))
  /\
  (forall (self self' : LRFisterDeconvolve.t A) (X : batch A) (e : exn),
      LRFisterDeconvolve.fit X self = (self', Raise e) ->
      self' = LRFisterDeconvolve.with_super
                (LRDeconvolve.set_measured_y_ (mean_axis0 X)) self
      /\ (forall X', LRFisterDeconvolve.predict self' X'
                     = LRFisterDeconvolve.predict self X')
      /\ (forall X', LRFisterDeconvolve.score self' X'
                     = LRFisterDeconvolve.score self X'))
  /\
  (forall (self self' : LRL2Deconvolve.t A) (X : batch A) (e : exn),
      LRL2Deconvolve.fit X self = (self', Raise e) -> self' = self).
Proof.
  split; [|split].
  - intros self self' X e E.
    pose proof (LRDeconvolve_fit_cases self X) as Hc. cbv zeta in Hc.
    destruct (LRDeconvolve._LR _ _) as [[d log']|e'].
    + destruct Hc as (r & _ & Efit). rewrite Efit in E. discriminate.
    + rewrite Hc in E. injection E as <- _. repeat split; reflexivity.
  - intros self self' X e E.
    pose proof (LRFisterDeconvolve_fit_cases self X) as Hc. cbv zeta in Hc.
    destruct (LRFisterDeconvolve._LR_fister _ _) as [[d log']|e'].
    + destruct Hc as (r & _ & Efit). rewrite Efit in E. discriminate.
    + rewrite Hc in E. injection E as <- _. repeat split; reflexivity.
  - intros self self' X e E.
    pose proof (LRL2Deconvolve_fit_cases self X) as Hc.
    destruct (LRL2Deconvolve._LRL2 _ _) as [d|e'].
    + destruct Hc as (r & _ & Efit). rewrite Efit in E. discriminate.
    + rewrite Hc in E. injection E as <- _. reflexivity.
Qed.

(** C6 fails on the code: an estimator fitted on a two-column batch and
    then given a four-column batch fails in the second [fit], and still
    answers [predict] and [score] from the first one, next to the
    measured signal of the failed call. *)
Lemma C6_counterexample :
  let fitted := fst (LRDeconvolve.fit Samples.X2 Samples.plain) in
  let after := fst (LRDeconvolve.fit Samples.X4 fitted) in
  is_ok (snd (LRDeconvolve.fit Samples.X2 Samples.plain)) = true
  /\ snd (LRDeconvolve.fit Samples.X4 fitted) = Raise ValueError
  /\ LRDeconvolve.predict after Samples.X4 = Ok [2; 3.5]%float
  /\ LRDeconvolve.score after Samples.X2 = Ok (-8.125)%float
  /\ LRDeconvolve.measured_y_ after = Some [1; 1; 1; 1]%float.
Proof.
  vm_compute. repeat split; reflexivity.
Qed.

(** The failed call of the counterexample, through the theorem. *)
Lemma C6_witness :
  let fitted := fst (LRDeconvolve.fit Samples.X2 Samples.plain) in
  let after := fst (LRDeconvolve.fit Samples.X4 fitted) in
  LRDeconvolve.fit Samples.X4 fitted = (after, Raise ValueError)
  /\ LRDeconvolve.deconvolved_y_ after = LRDeconvolve.deconvolved_y_ fitted
  /\ LRDeconvolve.reconvolved_y_ after = LRDeconvolve.reconvolved_y_ fitted.
Proof.
  intros fitted after.
  assert (E : LRDeconvolve.fit Samples.X4 fitted = (after, Raise ValueError))
    by (vm_compute; reflexivity).
  split; [exact E|].
  destruct (@C6_failed_fit_keeps_previous_results float _) as (Hplain & _).
  destruct (Hplain fitted after Samples.X4 ValueError E) as (_ & Hd & Hr & _).
  split; [exact Hd | exact Hr].
Defined.

(** C7, as the code has it.  Valid-mode convolution of two non-empty
    arrays has [max - min + 1] entries, the operands being swapped when
    the second is the longer; an empty operand raises.  The elementwise
    ratio [measured / I_k] follows numpy broadcasting: it raises
    ValueError (the specification's ShapeMismatch) exactly when the two
    lengths differ and neither is 1, and is computed, the operand of
    length 1 being broadcast, otherwise.  When it raises in some pass of
    the loop, the kernel raises ValueError in that pass and produces no
    result; this holds for the plain kernel, for the Fister kernel with
    and without logging, and for the L2 kernel. *)
Theorem C7_shapes {A : Type} `{Numeric A} :
  (forall a b r : list A,
      convolve a b = Ok r ->
      length r = Nat.max (length a) (length b) - Nat.min (length a) (length b) + 1)
  /\
  (forall a b : list A,
      is_ok (convolve a b) = false <-> a = [] \/ b = [])
  /\
  (forall m I : list A,
      np_divide m I = Raise ValueError
      <-> length m <> length I /\ length m <> 1 /\ length I <> 1)
  /\
  (forall m I : list A,
      length m = length I \/ length m = 1 \/ length I = 1 ->
      exists r,
        np_divide m I = Ok r
        /\ (length m = length I -> length r = length m)
        /\ (length I = 1 -> length r = length m)
        /\ (length m = 1 -> length r = length I))
  /\
  (forall (self : LRDeconvolve.t A) (m I : list A) (k : nat) (v : loop_vars A),
      let h := LRDeconvolve.impulse_response_y self in
      (k < Z.to_nat (LRDeconvolve.iterations self))%nat ->
      for_each (LRDeconvolve._LR_body self m (np_flip h)) (seq 0 k)
               {| var_previous_O := m; var_current_O := None; var_log := [] |} = Ok v ->
      convolve (var_previous_O v) h = Ok I ->
      np_divide m I = Raise ValueError ->
      LRDeconvolve._LR self m = Raise ValueError)
  /\
  (forall (self : LRFisterDeconvolve.t A) (m I : list A) (k : nat) (v : loop_vars A),
      let h := LRDeconvolve.impulse_response_y (LRFisterDeconvolve.super self) in
      let x := LRDeconvolve.impulse_response_x (LRFisterDeconvolve.super self) in
      let gauss :=
        LRFisterDeconvolve._normalized_gaussian
          x (np_mean x) (LRFisterDeconvolve.regularizer_width self) in
      let init := {| var_previous_O := m; var_current_O := None; var_log := [] |} in
      (k < Z.to_nat (LRDeconvolve.iterations (LRFisterDeconvolve.super self)))%nat ->
      (if LRFisterDeconvolve.logging self
       then for_each (LRFisterDeconvolve._LR_fister_body_logging
                        self m (np_flip h) gauss) (seq 0 k) init
       else for_each (LRFisterDeconvolve._LR_fister_body
                        self m (np_flip h) gauss) (seq 0 k) init) = Ok v ->
      convolve (var_previous_O v) h = Ok I ->
      np_divide m I = Raise ValueError ->
      LRFisterDeconvolve._LR_fister self m = Raise ValueError)
  /\
  (forall (self : LRL2Deconvolve.t A) (m I : list A) (k : nat) (v : loop_vars A),
      let h := LRDeconvolve.impulse_response_y (LRL2Deconvolve.super self) in
      (k < Z.to_nat (LRDeconvolve.iterations (LRL2Deconvolve.super self)))%nat ->
      for_each (LRL2Deconvolve._LRL2_body self m (np_flip h)) (seq 0 k)
               {| var_previous_O := m; var_current_O := None; var_log := [] |} = Ok v ->
      convolve (var_previous_O v) h = Ok I ->
      np_divide m I = Raise ValueError ->
      LRL2Deconvolve._LRL2 self m = Raise ValueError).
Proof.
  split; [|split; [|split; [|split; [|split; [|split]]]]].
  - intros a b r E. apply (convolve_ok_inv _ _ E).
  - intros a b. split.
    + destruct (convolve a b) as [r|e] eqn:E; [discriminate|].
      intros _. apply (convolve_raise_inv _ _ E).
    + intros Hab. destruct (convolve a b) as [r|e] eqn:E; [|reflexivity].
      destruct (convolve_ok_inv _ _ E) as (Ha & Hb & _). tauto.
  - intros m I. unfold np_divide. split.
    + intros E. apply broadcast_raise_inv in E. destruct E as (_ & Hnb).
      unfold broadcastable in Hnb. lia.
    + intros Hl. destruct (broadcast ndiv m I) as [r|e] eqn:E.
      * apply broadcast_ok_inv in E. destruct E as (Hb & _).
        unfold broadcastable in Hb. lia.
      * apply broadcast_raise_inv in E. destruct E as (-> & _). reflexivity.
  - intros m I Hl.
    destruct (@broadcast_ok A ndiv m I) as (r & Er);
      [unfold broadcastable; exact Hl|].
    exists r. split; [exact Er|].
    apply broadcast_ok_inv in Er. destruct Er as (_ & Hlen).
    repeat split; intros E; rewrite Hlen.
    + rewrite E, Nat.eqb_refl. reflexivity.
    + destruct (Nat.eqb_spec (length m) (length I)) as [E'|NE]; [reflexivity|].
      destruct (Nat.eqb_spec (length m) 1) as [E1|NE1]; [lia | reflexivity].
    + destruct (Nat.eqb_spec (length m) (length I)) as [E'|NE]; [lia|].
      rewrite E. reflexivity.
  - intros self m I k v h Hk Eloop EI Eratio.
    unfold LRDeconvolve._LR, py_range.
    change (LRDeconvolve._deconvolution_guess self m) with m.
    rewrite (loop_raise (LR_body_unfold self m) k _ _ _ ValueError Eloop); auto.
    unfold LR_update. fold h. rewrite EI. simpl. rewrite Eratio. reflexivity.
  - intros self m I k v h x gauss init Hk Eloop EI Eratio.
    subst h x gauss init.
    assert (Estep : fister_step
                      (LRDeconvolve.impulse_response_y (LRFisterDeconvolve.super self))
                      (LRDeconvolve.impulse_response_x (LRFisterDeconvolve.super self))
                      (LRFisterDeconvolve.regularizer_width self) m
                      (var_previous_O v) = Raise ValueError).
    { unfold fister_step, LR_update. rewrite EI. simpl. rewrite Eratio. reflexivity. }
    unfold LRFisterDeconvolve._LR_fister, py_range.
    change (LRDeconvolve._deconvolution_guess (LRFisterDeconvolve.super self) m) with m.
    destruct (LRFisterDeconvolve.logging self).
    + rewrite (loop_raise (LR_fister_body_logging_unfold self m) k _ _ _ ValueError
                          Eloop Estep Hk).
      reflexivity.
    + rewrite (loop_raise (LR_fister_body_unfold self m) k _ _ _ ValueError
                          Eloop Estep Hk).
      reflexivity.
  - intros self m I k v h Hk Eloop EI Eratio.
    unfold LRL2Deconvolve._LRL2, py_range.
    change (LRDeconvolve._deconvolution_guess (LRL2Deconvolve.super self) m) with m.
    rewrite (loop_raise (LRL2_body_unfold self m) k _ _ _ ValueError Eloop); auto.
    unfold l2_step, LR_update. fold h. rewrite EI. simpl. rewrite Eratio. reflexivity.
Qed.

(** C7 fails on the code.  With three samples in both the impulse
    response and the measured signal the first convolution has one
    entry, the ratio pairs lengths 3 and 1 and is broadcast instead of
    raising, and the L2 kernel returns a three-sample estimate after its
    50 passes.  And two samples convolved with three give two samples,
    where [m - n + 1] is zero. *)
Lemma C7_counterexample :
  convolve Samples.M_spec Samples.h3 = Ok [0.5]%float
  /\ np_divide Samples.M_spec [0.5]%float = Ok [0.5; 1.5; 0.5]%float
  /\ LR_update Samples.h3 Samples.M_spec Samples.M_spec = Ok Samples.M_spec
  /\ (exists O_50,
        LRL2Deconvolve._LRL2 Samples.l2_50 Samples.M_spec = Ok O_50
        /\ length O_50 = 3)
  /\ is_ok (snd (LRL2Deconvolve.fit (Samples.batch_of Samples.M_spec) Samples.l2_50))
     = true
  /\ (exists r, convolve [1; 2]%float Samples.h3 = Ok r /\ length r = 2).
Proof.
  repeat split.
  - eexists. split; [vm_compute; reflexivity | reflexivity].
  - eexists. split; [vm_compute; reflexivity | reflexivity].
Qed.

(** A run of C7: four measured samples against a three-sample impulse
    response give a two-entry first convolution; the ratio raises and so
    does the kernel, in its first pass. *)
Lemma C7_witness :
  np_divide (mean_axis0 Samples.X4) [3; 3]%float = Raise ValueError
  /\ LRDeconvolve._LR Samples.plain (mean_axis0 Samples.X4) = Raise ValueError.
Proof.
  destruct (@C7_shapes float _) as (_ & _ & Hratio & _ & Hplain & _).
  assert (Er : np_divide (mean_axis0 Samples.X4) [3; 3]%float = Raise ValueError).
  { apply Hratio. vm_compute. repeat split; intros E; discriminate E. }
  split; [exact Er|].
  apply (Hplain Samples.plain (mean_axis0 Samples.X4) [3; 3]%float 0
                {| var_previous_O := mean_axis0 Samples.X4;
                   var_current_O := None; var_log := [] |}).
  - vm_compute. lia.
  - reflexivity.
  - vm_compute. reflexivity.
  - exact Er.
Defined.

(** ** Binary64: the square root of a negative number *)

Lemma is_nan_of_spec (x : float) :
  Prim2SF x = S754_nan -> PrimFloat.is_nan x = true.
Proof.
  intros E. unfold PrimFloat.is_nan. rewrite eqb_spec, E. reflexivity.
Qed.

Lemma sqrt_negative_is_nan (r : float) :
  PrimFloat.ltb r 0%float = true -> Prim2SF (PrimFloat.sqrt r) = S754_nan.
Proof.
  rewrite ltb_spec, sqrt_spec.
  change (Prim2SF 0%float) with (S754_zero false).
  destruct (Prim2SF r) as [s|s| |s mx ex]; try destruct s;
    try discriminate; reflexivity.
Qed.

Lemma l2_correction_negative_radicand (alpha o : float) :
  PrimFloat.ltb (nadd (of_Z 1) (nmul (nmul (of_Z 2) alpha) o)) 0%float = true ->
  PrimFloat.is_nan (l2_correction alpha o) = true.
Proof.
  intros Hneg. apply is_nan_of_spec. unfold l2_correction.
  cbn [nadd ndiv nmul nsqrt of_Z F64.float_numeric] in *.
  rewrite div_spec, add_spec, (sqrt_negative_is_nan Hneg).
  unfold SF64div, SF64add.
  destruct (Prim2SF (F64.float_of_Z (-1))); reflexivity.
Qed.




(** C10, as the code has it.  On an [LRFisterGrid] built with
    [ground_truth_y = None] no call to [fit] completes.  The scoring
    handed to the grid search holds the "reconvolved" metric alone, so
    whenever the grid search returns, the cross-validation results have
    no "mean_test_deconvolved" entry and [fit] raises the missing-key
    error at its read of it, after it has assigned the measured,
    deconvolved and reconvolved signals and the results table.  When the
    grid search itself raises, that error is the one [fit] raises, and
    nothing has been assigned.  So [fit] can succeed only when a ground
    truth is supplied. *)
Theorem C10_fit_needs_ground_truth
        {A : Type} `{Numeric A}
        (metrics : deconvolution_metrics A) (self : LRFisterGrid.t A) (X : batch A) :
  LRFisterGrid.ground_truth_y self = None ->
  let search :=
    GridSearchCV.fit (LRFisterGrid.deconvolver_of self)
                     (LRFisterGrid.regularizer_widths self) 5
                     (LRFisterGrid.scoring_of metrics self) "reconvolved" X in
  LRFisterGrid.scoring_of metrics self
  = [("reconvolved"%string, neg_reconvolved_mse metrics)]
  /\
  (exists e, snd (LRFisterGrid.fit metrics X self) = Raise e)
  /\
  (forall gs,
      search = Ok gs ->
      GridSearchCV.lookup "mean_test_deconvolved" (GridSearchCV.cv_results_ gs)
      = Raise KeyError
      /\ snd (LRFisterGrid.fit metrics X self) = Raise KeyError
      /\ let after := fst (LRFisterGrid.fit metrics X self) in
         LRFisterGrid.measured_y_ after = Some (mean_axis0 X)
         /\ LRFisterGrid.deconvolved_y_ after
            = LRDeconvolve.deconvolved_y_
                (LRFisterDeconvolve.super (GridSearchCV.best_estimator_ gs))
         /\ LRFisterGrid.gridsearch_cv_results_ after
            = Some (GridSearchCV.cv_results_ gs)
         /\ LRFisterGrid.deconvolved_mse_ after = LRFisterGrid.deconvolved_mse_ self
         /\ LRFisterGrid.cv_ after = LRFisterGrid.cv_ self)
  /\
  (forall e, search = Raise e -> LRFisterGrid.fit metrics X self = (self, Raise e)).
Proof.
  intros Hgt search.
  assert (Hok : forall gs,
             search = Ok gs ->
             GridSearchCV.lookup "mean_test_deconvolved" (GridSearchCV.cv_results_ gs)
             = Raise KeyError
             /\ snd (LRFisterGrid.fit metrics X self) = Raise KeyError
             /\ let after := fst (LRFisterGrid.fit metrics X self) in
                LRFisterGrid.measured_y_ after = Some (mean_axis0 X)
                /\ LRFisterGrid.deconvolved_y_ after
                   = LRDeconvolve.deconvolved_y_
                       (LRFisterDeconvolve.super (GridSearchCV.best_estimator_ gs))
                /\ LRFisterGrid.gridsearch_cv_results_ after
                   = Some (GridSearchCV.cv_results_ gs)
                /\ LRFisterGrid.deconvolved_mse_ after = LRFisterGrid.deconvolved_mse_ self
                /\ LRFisterGrid.cv_ after = LRFisterGrid.cv_ self).
  { intros gs Es.
    destruct (LRFisterGrid_fit_without_truth metrics self X Hgt Es)
      as (Hkey & d & r & Hd & Hconv & Efit).
    split; [exact Hkey|]. rewrite Efit. cbn. rewrite Hd. repeat split. }
  split; [unfold LRFisterGrid.scoring_of; rewrite Hgt; reflexivity|].
  split; [|split; [exact Hok|]].
  - destruct search as [gs|e] eqn:Es.
    + exists KeyError. apply (Hok gs eq_refl).
    + exists e. rewrite (LRFisterGrid_fit_search_raises metrics self X Es). reflexivity.
  - intros e Es. apply LRFisterGrid_fit_search_raises, Es.
Qed.

(** C10 fails on the code as worded: without a ground truth [fit] does
    fail on every call, but not always with the missing-key error.  On
    a two-row batch the five-fold split raises ValueError, and on a
    batch whose width does not fit the impulse response every fit of
    the search fails and the search raises ValueError; neither call
    reaches the read of the table. *)
Lemma C10_counterexample :
  LRFisterGrid.ground_truth_y Samples.grid_no_truth = None
  /\ snd (LRFisterGrid.fit DeconvolutionMetrics.spec_metrics
                           Samples.X2 Samples.grid_no_truth) = Raise ValueError
  /\ snd (LRFisterGrid.fit DeconvolutionMetrics.spec_metrics
                           Samples.X5_wide Samples.grid_no_truth) = Raise ValueError.
Proof.
  vm_compute. repeat split.
Qed.

(** A run of C10: on five rows the grid search returns and [fit] raises
    the missing-key error. *)
Lemma C10_witness :
  LRFisterGrid.ground_truth_y Samples.grid_no_truth = None
  /\ is_ok (GridSearchCV.fit
              (LRFisterGrid.deconvolver_of Samples.grid_no_truth)
              (LRFisterGrid.regularizer_widths Samples.grid_no_truth) 5
              (LRFisterGrid.scoring_of DeconvolutionMetrics.spec_metrics
                                       Samples.grid_no_truth)
              "reconvolved" Samples.X5) = true
  /\ snd (LRFisterGrid.fit DeconvolutionMetrics.spec_metrics
                           Samples.X5 Samples.grid_no_truth) = Raise KeyError.
Proof.
  split; [reflexivity|]. split; [vm_compute; reflexivity|].
  destruct (@C10_fit_needs_ground_truth
              float _ DeconvolutionMetrics.spec_metrics
              Samples.grid_no_truth Samples.X5 eq_refl)
    as (_ & _ & Hok & _).
  destruct (GridSearchCV.fit
              (LRFisterGrid.deconvolver_of Samples.grid_no_truth)
              (LRFisterGrid.regularizer_widths Samples.grid_no_truth) 5
              (LRFisterGrid.scoring_of DeconvolutionMetrics.spec_metrics
                                       Samples.grid_no_truth)
              "reconvolved" Samples.X5) as [gs|e] eqn:Es.
  - apply (Hok gs eq_refl).
  - vm_compute in Es. discriminate Es.
Defined.



(** When every fit of the search fails the search raises ValueError
    and nothing is refitted: with no iteration each fit raises
    UnboundLocalError, and the selector raises ValueError. *)
Lemma all_fits_failed_is_ValueError :
  snd (LRFisterDeconvolve.fit
         Samples.X5
         (GridSearchCV.set_regularizer_width
            0.5%float (GridSearchCV.clone (LRFisterGrid.deconvolver_of MoreSamples.grid0))))
  = Raise UnboundLocalError
  /\ snd (LRFisterGrid.fit DeconvolutionMetrics.spec_metrics Samples.X5 MoreSamples.grid0)
     = Raise ValueError.
Proof.
  vm_compute. split; reflexivity.
Qed.

(** The ranking of a NaN mean in binary64: a mean that is NaN, from a
    scorer that returned NaN or from a failed fit, is ranked below a
    mean that is a number, whatever their order in the grid. *)
Lemma nan_mean_is_not_selected :
  GridSearchCV.best_index [Some nan; Some (-1)%float] = 1
  /\ GridSearchCV.best_index [None; Some (-1)%float] = 1
  /\ GridSearchCV.best_index [Some (-1)%float; Some nan] = 0
  /\ GridSearchCV.best_index [Some nan; None] = 0.
Proof.
  vm_compute. repeat split.
Qed.


(** * Further properties of the code *)

(** ** Helper facts *)

Section MoreFacts.

Context {A : Type} `{Numeric A}.

Lemma mean_squared_error_ok_inv (y_true y_pred : list A) (v : A) :
  mean_squared_error y_true y_pred = Ok v ->
  length y_true = length y_pred
  /\ length y_true <> 0
  /\ forallb nfinite y_true = true
  /\ forallb nfinite y_pred = true.
Proof.
  unfold mean_squared_error.
  destruct (Nat.eqb_spec (length y_true) (length y_pred)) as [El|]; [|discriminate].
  destruct (Nat.eqb_spec (length y_true) 0) as [|Hn]; [discriminate|]. simpl.
  destruct (forallb nfinite y_true); [|discriminate].
  destruct (forallb nfinite y_pred); [|discriminate].
  intros _. repeat split; assumption.
Qed.

Lemma mean_squared_error_raise_inv (y_true y_pred : list A) (e : exn) :
  mean_squared_error y_true y_pred = Raise e -> e = ValueError.
Proof.
  unfold mean_squared_error.
  destruct (negb _); [intros E; injection E as <-; reflexivity|].
  destruct (_ =? 0); [intros E; injection E as <-; reflexivity|].
  destruct (negb _); [intros E; injection E as <-; reflexivity | discriminate].
Qed.

Lemma mean_squared_error_lengths (y_true y_pred : list A) :
  length y_true <> length y_pred ->
  mean_squared_error y_true y_pred = Raise ValueError.
Proof.
  intros Hl. unfold mean_squared_error.
  destruct (Nat.eqb_spec (length y_true) (length y_pred)); [contradiction | reflexivity].
Qed.

Lemma py_range_nonpos (n : Z) : (n <= 0)%Z -> py_range n = [].
Proof.
  intros Hn. unfold py_range. destruct n; simpl; try reflexivity. lia.
Qed.

End MoreFacts.

(** A loop without telemetry is the iteration of its step. *)
Section SilentLoop.

Context {A : Type}.

Variable step : list A -> result (list A).
Variable body : nat -> loop_vars A -> result (loop_vars A).

Hypothesis body_unfold : forall (i : nat) (v : loop_vars A),
    body i v =
    (O' <- step (var_previous_O v) ;;
     stats <- silent O' i ;;
     Ok {| var_previous_O := O';
           var_current_O := Some O';
           var_log := var_log v ++ stats |}).

Lemma silent_loop (k : nat) :
  forall (s : nat) (v : loop_vars A),
    for_each body (seq s k) v =
    (final <- iterate step k (var_previous_O v) ;;
     Ok {| var_previous_O := final;
           var_current_O := match k with 0 => var_current_O v | S _ => Some final end;
           var_log := var_log v |}).
Proof.
  induction k as [|k IH]; intros s v.
  - simpl. destruct v; reflexivity.
  - simpl. rewrite body_unfold.
    destruct (step (var_previous_O v)) as [O'|e]; simpl; [|reflexivity].
    rewrite IH. simpl. rewrite app_nil_r.
    destruct k as [|k']; [reflexivity|].
    destruct (iterate step (S k') O') as [final|e]; reflexivity.
Qed.

End SilentLoop.

Arguments silent_loop {A step body} body_unfold k s v.

Section MoreLoops.

Context {A : Type} `{Numeric A}.

Lemma iterate_ext (f g : list A -> result (list A)) :
  (forall O, f O = g O) ->
  forall (k : nat) (start : list A), iterate f k start = iterate g k start.
Proof.
  intros Hfg. induction k as [|k IH]; intros start; [reflexivity|].
  simpl. rewrite Hfg. destruct (g start); simpl; [apply IH | reflexivity].
Qed.

(** The unused helper is the step of the Fister recurrence. *)
Lemma LR_fister_iteration_step (self : LRFisterDeconvolve.t A) (m O : list A) :
  let s := LRFisterDeconvolve.super self in
  LRFisterDeconvolve._LR_fister_iteration
    self O m (np_flip (LRDeconvolve.impulse_response_y s))
    (LRFisterDeconvolve._normalized_gaussian
       (LRDeconvolve.impulse_response_x s)
       (np_mean (LRDeconvolve.impulse_response_x s))
       (LRFisterDeconvolve.regularizer_width self))
  = fister_step (LRDeconvolve.impulse_response_y s)
                (LRDeconvolve.impulse_response_x s)
                (LRFisterDeconvolve.regularizer_width self) m O.
Proof.
  intros s.
  unfold LRFisterDeconvolve._LR_fister_iteration, fister_step, LR_update, np_flip.
  fold s.
  destruct (convolve O _) as [I|e]; simpl; [|reflexivity].
  destruct (np_divide m I) as [b|e]; simpl; [|reflexivity].
  destruct (convolve b _) as [c|e]; simpl; [|reflexivity].
  destruct (np_multiply O c) as [O'|e]; simpl; reflexivity.
Qed.

(** The L2 and the unlogged Fister kernel, as iterations of their step. *)
Lemma LRL2_as_iteration (self : LRL2Deconvolve.t A) (m : list A) :
  LRL2Deconvolve._LRL2 self m =
  match Z.to_nat (LRDeconvolve.iterations (LRL2Deconvolve.super self)) with
  | 0 => Raise UnboundLocalError
  | S k =>
      iterate (l2_step (LRDeconvolve.impulse_response_y (LRL2Deconvolve.super self))
                       (LRL2Deconvolve.alpha self) m)
              (S k) m
  end.
Proof.
  unfold LRL2Deconvolve._LRL2, py_range.
  rewrite (silent_loop (LRL2_body_unfold self m)).
  change (LRDeconvolve._deconvolution_guess (LRL2Deconvolve.super self) m) with m.
  destruct (Z.to_nat _) as [|k]; [reflexivity|].
  cbn [var_previous_O var_current_O var_log].
  destruct (iterate _ (S k) m) as [final|e]; reflexivity.
Qed.

Lemma LR_fister_as_iteration (self : LRFisterDeconvolve.t A) (m : list A) :
  LRFisterDeconvolve.logging self = false ->
  LRFisterDeconvolve._LR_fister self m =
  match Z.to_nat (LRDeconvolve.iterations (LRFisterDeconvolve.super self)) with
  | 0 => Raise UnboundLocalError
  | S k =>
      final <- iterate (fister_step
                          (LRDeconvolve.impulse_response_y (LRFisterDeconvolve.super self))
                          (LRDeconvolve.impulse_response_x (LRFisterDeconvolve.super self))
                          (LRFisterDeconvolve.regularizer_width self) m)
                       (S k) m ;;
      Ok (final, [])
  end.
Proof.
  intros Hlog. unfold LRFisterDeconvolve._LR_fister, py_range. rewrite Hlog.
  rewrite (silent_loop (LR_fister_body_unfold self m)).
  change (LRDeconvolve._deconvolution_guess (LRFisterDeconvolve.super self) m) with m.
  destruct (Z.to_nat _) as [|k]; [reflexivity|].
  cbn [var_previous_O var_current_O var_log].
  destruct (iterate _ (S k) m) as [final|e]; reflexivity.
Qed.

End MoreLoops.

(** X1. An estimator whose iteration count is zero or negative cannot be
    fitted: the loop body never runs, [return current_O] finds the
    variable unbound, and [fit] raises UnboundLocalError whatever the
    batch.  [LRDeconvolve] and [LRFisterDeconvolve] have assigned
    [measured_y_] by then; [LRL2Deconvolve] is unchanged. *)
Theorem X1_no_iteration_is_unbound {A : Type} `{Numeric A} :
  (forall (self : LRDeconvolve.t A) (X : batch A),
      (LRDeconvolve.iterations self <= 0)%Z ->
      LRDeconvolve.fit X self
      = (LRDeconvolve.set_measured_y_ (mean_axis0 X) self, Raise UnboundLocalError))
  /\
  (forall (self : LRFisterDeconvolve.t A) (X : batch A),
      (LRDeconvolve.iterations (LRFisterDeconvolve.super self) <= 0)%Z ->
      LRFisterDeconvolve.fit X self
      = (LRFisterDeconvolve.with_super
           (LRDeconvolve.set_measured_y_ (mean_axis0 X)) self,
         Raise UnboundLocalError))
  /\
  (forall (self : LRL2Deconvolve.t A) (X : batch A),
      (LRDeconvolve.iterations (LRL2Deconvolve.super self) <= 0)%Z ->
      LRL2Deconvolve.fit X self = (self, Raise UnboundLocalError)).
Proof.
  split; [|split].
  - intros self X Hn.
    pose proof (LRDeconvolve_fit_cases self X) as Hc. cbv zeta in Hc.
    unfold LRDeconvolve._LR in Hc.
    change (LRDeconvolve.iterations (LRDeconvolve.set_measured_y_ (mean_axis0 X) self))
      with (LRDeconvolve.iterations self) in Hc.
    rewrite (py_range_nonpos Hn) in Hc. exact Hc.
  - intros self X Hn.
    pose proof (LRFisterDeconvolve_fit_cases self X) as Hc. cbv zeta in Hc.
    unfold LRFisterDeconvolve._LR_fister in Hc.
    change (LRDeconvolve.iterations
              (LRFisterDeconvolve.super
                 (LRFisterDeconvolve.with_super
                    (LRDeconvolve.set_measured_y_ (mean_axis0 X)) self)))
      with (LRDeconvolve.iterations (LRFisterDeconvolve.super self)) in Hc.
    rewrite (py_range_nonpos Hn) in Hc.
    destruct (LRFisterDeconvolve.logging _); exact Hc.
  - intros self X Hn.
    pose proof (LRL2Deconvolve_fit_cases self X) as Hc.
    unfold LRL2Deconvolve._LRL2 in Hc.
    rewrite (py_range_nonpos Hn) in Hc. exact Hc.
Qed.

(** A run of X1: no iteration, a two-row batch. *)
Lemma X1_witness :
  (LRDeconvolve.iterations MoreSamples.plain0 <= 0)%Z
  /\ snd (LRDeconvolve.fit Samples.X2 MoreSamples.plain0) = Raise UnboundLocalError.
Proof.
  destruct (@X1_no_iteration_is_unbound float _) as (Hplain & _).
  assert (Hn : (LRDeconvolve.iterations MoreSamples.plain0 <= 0)%Z)
    by (vm_compute; discriminate).
  split; [exact Hn|].
  rewrite (Hplain MoreSamples.plain0 Samples.X2 Hn). reflexivity.
Defined.

(** X2. [_LR_fister_iteration], the helper the class keeps unused, is
    the body of the loop of [_LR_fister]: without logging, [_LR_fister]
    on [N >= 1] iterations returns what [N] successive calls of the
    helper return, started from the measured signal, and raises what the
    first failing call raises; on no iteration it raises
    UnboundLocalError. *)
Theorem X2_LR_fister_iteration_is_the_loop_body
        {A : Type} `{Numeric A}
        (self : LRFisterDeconvolve.t A) (m : list A) :
  LRFisterDeconvolve.logging self = false ->
  let s := LRFisterDeconvolve.super self in
  let gauss :=
    LRFisterDeconvolve._normalized_gaussian
      (LRDeconvolve.impulse_response_x s)
      (np_mean (LRDeconvolve.impulse_response_x s))
      (LRFisterDeconvolve.regularizer_width self) in
  let impulse_response_y_reversed := np_flip (LRDeconvolve.impulse_response_y s) in
  LRFisterDeconvolve._LR_fister self m =
  match Z.to_nat (LRDeconvolve.iterations s) with
  | 0 => Raise UnboundLocalError
  | S k =>
      final <- iterate (fun previous =>
                          LRFisterDeconvolve._LR_fister_iteration
                            self previous m impulse_response_y_reversed gauss)
                       (S k) m ;;
      Ok (final, [])
  end.
Proof.
  intros Hlog s gauss hrev.
  rewrite (LR_fister_as_iteration self m Hlog). fold s.
  destruct (Z.to_nat _) as [|k]; [reflexivity|].
  rewrite (iterate_ext
             (fun previous =>
                LRFisterDeconvolve._LR_fister_iteration self previous m hrev gauss)
             (fister_step (LRDeconvolve.impulse_response_y s)
                          (LRDeconvolve.impulse_response_x s)
                          (LRFisterDeconvolve.regularizer_width self) m)).
  - reflexivity.
  - intros O. apply LR_fister_iteration_step.
Qed.

(** A run of X2: three calls of the helper give what the kernel
    returns. *)
Lemma X2_witness :
  LRFisterDeconvolve.logging Samples.fister = false
  /\ exists final,
      LRFisterDeconvolve._LR_fister Samples.fister (mean_axis0 Samples.X2)
      = Ok (final, [])
      /\ length final = 2.
Proof.
  split; [reflexivity|].
  pose proof (@X2_LR_fister_iteration_is_the_loop_body
                float _ Samples.fister (mean_axis0 Samples.X2) eq_refl) as E.
  cbv zeta in E. rewrite E. clear E.
  eexists. split; vm_compute; reflexivity.
Defined.

Section MoreShapes.

Context {A : Type} `{Numeric A}.

Lemma broadcast_length_cases (op : A -> A -> A) (a b r : list A) :
  broadcast op a b = Ok r ->
  (length a = length b /\ length r = length a)
  \/ (length a = 1 /\ length r = length b)
  \/ (length b = 1 /\ length r = length a).
Proof.
  intros E. apply broadcast_ok_inv in E. destruct E as (Hb & Hl).
  unfold broadcastable in Hb.
  destruct (Nat.eqb_spec (length a) (length b)); [lia|].
  destruct (Nat.eqb_spec (length a) 1); lia.
Qed.

Lemma mean_axis0_length (X : batch A) : length (mean_axis0 X) = ncols X.
Proof.
  unfold mean_axis0. rewrite length_map, length_seq. reflexivity.
Qed.

(** What a telemetry call that returns has checked. *)
Lemma save_iteration_stats_ok_inv (self : LRDeconvolve.t A) (O : list A)
      (i : nat) (stats : list (event A)) :
  LRDeconvolve._save_iteration_stats self O i = Ok stats ->
  exists reconstruction measured mse rest,
    convolve O (LRDeconvolve.impulse_response_y self) = Ok reconstruction
    /\ LRDeconvolve.measured_y_ self = Some measured
    /\ mean_squared_error reconstruction measured = Ok mse
    /\ stats = ("reconstruction_mse"%string, mse, i) :: rest
    /\ map (fun e : event A => (fst (fst e), snd e)) stats
       = match LRDeconvolve.ground_truth_y self with
         | None => [("reconstruction_mse"%string, i)]
         | Some _ => [("reconstruction_mse"%string, i);
                      ("deconvolved_mse"%string, i);
                      ("reconvolved_mse"%string, i)]
         end
    /\ (forall g, LRDeconvolve.ground_truth_y self = Some g -> length O = length g).
Proof.
  unfold LRDeconvolve._save_iteration_stats. intros E.
  inv_bind E as r Er. inv_bind E as y Ey. inv_bind E as e1 Ee1.
  destruct (LRDeconvolve.measured_y_ self) as [measured|]; [|discriminate].
  injection Ey as ->.
  destruct (LRDeconvolve.ground_truth_y self) as [g|].
  - inv_bind E as e2 Ee2. inv_bind E as gr Egr. inv_bind E as e3 Ee3.
    injection E as <-.
    exists r, y, e1, [("deconvolved_mse"%string, e2, i); ("reconvolved_mse"%string, e3, i)].
    split; [exact Er|]. split; [reflexivity|]. split; [exact Ee1|].
    split; [reflexivity|]. split; [reflexivity|].
    intros g' Hg. injection Hg as <-.
    apply (mean_squared_error_ok_inv _ _ Ee2).
  - injection E as <-. exists r, y, e1, [].
    split; [exact Er|]. split; [reflexivity|]. split; [exact Ee1|].
    split; [reflexivity|]. split; [reflexivity|]. discriminate.
Qed.

End MoreShapes.

(** The last and the first pass of a loop. *)
Section LoopEnds.

Context {A : Type}.

Variable step : list A -> result (list A).
Variable telemetry : list A -> nat -> result (list (event A)).
Variable body : nat -> loop_vars A -> result (loop_vars A).

Hypothesis body_unfold : forall (i : nat) (v : loop_vars A),
    body i v =
    (O' <- step (var_previous_O v) ;;
     stats <- telemetry O' i ;;
     Ok {| var_previous_O := O';
           var_current_O := Some O';
           var_log := var_log v ++ stats |}).

Lemma loop_last (k : nat) (init v : loop_vars A) :
  for_each body (seq 0 (S k)) init = Ok v ->
  exists before stats,
    for_each body (seq 0 k) init = Ok before
    /\ step (var_previous_O before) = Ok (var_previous_O v)
    /\ telemetry (var_previous_O v) k = Ok stats
    /\ var_log v = var_log before ++ stats
    /\ var_current_O v = Some (var_previous_O v).
Proof.
  rewrite seq_S, for_each_app. intros E.
  inv_bind E as before Ebefore. simpl in E. rewrite body_unfold in E.
  inv_bind E as v1 Ebody. injection E as <-.
  inv_bind Ebody as O' Estep. inv_bind Ebody as stats Estats.
  injection Ebody as <-. simpl.
  exists before, stats. repeat split; assumption.
Qed.

Lemma loop_first (k : nat) (init v : loop_vars A) :
  for_each body (seq 0 (S k)) init = Ok v ->
  exists O_1 stats,
    step (var_previous_O init) = Ok O_1 /\ telemetry O_1 0 = Ok stats.
Proof.
  simpl. rewrite body_unfold. intros E.
  inv_bind E as v1 Ebody.
  inv_bind Ebody as O' Estep. inv_bind Ebody as stats Estats.
  exists O', stats. split; assumption.
Qed.

End LoopEnds.

Arguments loop_last {A step telemetry body} body_unfold k init v _.
Arguments loop_first {A step telemetry body} body_unfold k init v _.

(** X3. The telemetry of one iteration.  When [_save_iteration_stats]
    returns it has written, at the step of the iteration, the scalar
    "reconstruction_mse" alone when there is no ground truth, and the
    three scalars "reconstruction_mse", "deconvolved_mse",
    "reconvolved_mse" in this order when there is one; the reconvolved
    estimate then has as many samples as the measured signal, and the
    estimate as many as the ground truth.  When it raises, it raises
    ValueError, or AttributeError on an instance whose measured signal
    was never assigned.  A ground truth whose length is not that of the
    estimate makes it raise ValueError. *)
Theorem X3_iteration_telemetry {A : Type} `{Numeric A}
        (self : LRDeconvolve.t A) (O : list A) (i : nat) :
  (forall stats,
      LRDeconvolve._save_iteration_stats self O i = Ok stats ->
      map (fun e : event A => (fst (fst e), snd e)) stats
      = match LRDeconvolve.ground_truth_y self with
        | None => [("reconstruction_mse"%string, i)]
        | Some _ => [("reconstruction_mse"%string, i);
                     ("deconvolved_mse"%string, i);
                     ("reconvolved_mse"%string, i)]
        end
      /\ (exists reconstruction measured,
            convolve O (LRDeconvolve.impulse_response_y self) = Ok reconstruction
            /\ LRDeconvolve.measured_y_ self = Some measured
            /\ length reconstruction = length measured)
      /\ (forall g, LRDeconvolve.ground_truth_y self = Some g -> length O = length g))
  /\
  (forall e,
      LRDeconvolve._save_iteration_stats self O i = Raise e ->
      e = ValueError
      \/ (e = AttributeError /\ LRDeconvolve.measured_y_ self = None))
  /\
  (forall g measured,
      LRDeconvolve.ground_truth_y self = Some g ->
      LRDeconvolve.measured_y_ self = Some measured ->
      length O <> length g ->
      LRDeconvolve._save_iteration_stats self O i = Raise ValueError).
Proof.
  split; [|split].
  - intros stats E.
    destruct (save_iteration_stats_ok_inv _ _ _ E)
      as (r & y & mse & rest & Er & Ey & Emse & _ & Hnames & Hg).
    split; [exact Hnames|]. split; [|exact Hg].
    exists r, y. split; [exact Er|]. split; [exact Ey|].
    apply (mean_squared_error_ok_inv _ _ Emse).
  - intros e E. unfold LRDeconvolve._save_iteration_stats in E.
    apply bind_raise_inv in E. destruct E as [E|(r & _ & E)];
      [left; apply (convolve_raise_inv _ _ E)|].
    apply bind_raise_inv in E. destruct E as [E|(y & _ & E)].
    { right. destruct (LRDeconvolve.measured_y_ self); [discriminate|].
      injection E as <-. split; reflexivity. }
    apply bind_raise_inv in E. destruct E as [E|(e1 & _ & E)];
      [left; apply (mean_squared_error_raise_inv _ _ E)|].
    destruct (LRDeconvolve.ground_truth_y self) as [g|]; [|discriminate].
    apply bind_raise_inv in E. destruct E as [E|(e2 & _ & E)];
      [left; apply (mean_squared_error_raise_inv _ _ E)|].
    apply bind_raise_inv in E. destruct E as [E|(gr & _ & E)];
      [left; apply (convolve_raise_inv _ _ E)|].
    apply bind_raise_inv in E. destruct E as [E|(e3 & _ & E)];
      [left; apply (mean_squared_error_raise_inv _ _ E) | discriminate].
  - intros g measured Hg Hm Hlen.
    unfold LRDeconvolve._save_iteration_stats. rewrite Hg, Hm.
    destruct (convolve O _) as [r|e] eqn:Er; simpl.
    2:{ destruct (convolve_raise_inv _ _ Er) as (-> & _). reflexivity. }
    destruct (mean_squared_error r measured) as [e1|e] eqn:Ee1; simpl.
    2:{ rewrite (mean_squared_error_raise_inv _ _ Ee1). reflexivity. }
    rewrite (mean_squared_error_lengths _ _ Hlen). reflexivity.
Qed.

(** A run of X3: a three-sample ground truth against a two-sample
    estimate. *)
Lemma X3_witness :
  LRDeconvolve._save_iteration_stats
    (LRDeconvolve.set_measured_y_ [2; 3.5]%float MoreSamples.plain_bad_truth)
    [2; 3.5]%float 0
  = Raise ValueError.
Proof.
  destruct (@X3_iteration_telemetry
              float _
              (LRDeconvolve.set_measured_y_ [2; 3.5]%float MoreSamples.plain_bad_truth)
              [2; 3.5]%float 0) as (_ & _ & Hbad).
  apply (Hbad [1; 2; 3]%float [2; 3.5]%float); [reflexivity | reflexivity |].
  simpl. lia.
Defined.

(** X4. What a fitted plain estimator guarantees.  Whenever
    [LRDeconvolve.fit] returns on a batch [X], the reconvolved signal it
    stores has as many samples as [X] has columns (at least one), the
    reconvolved signal and the mean of [X] are finite, a ground truth,
    if any, has the length of the deconvolved signal, and [score] on the
    batch just fitted does not raise: it is minus the reconstruction
    error logged in the last iteration. *)
Theorem X4_fitted_plain_estimator
        {A : Type} `{Numeric A}
        (self self' : LRDeconvolve.t A) (X : batch A) (log : list (event A)) :
  LRDeconvolve.fit X self = (self', Ok log) ->
  exists d r mse last,
    LRDeconvolve.deconvolved_y_ self' = Some d
    /\ LRDeconvolve.reconvolved_y_ self' = Some r
    /\ length r = ncols X
    /\ 1 <= ncols X
    /\ forallb nfinite r = true
    /\ forallb nfinite (mean_axis0 X) = true
    /\ (forall g, LRDeconvolve.ground_truth_y self = Some g -> length d = length g)
    /\ Z.to_nat (LRDeconvolve.iterations self) = S last
    /\ In ("reconstruction_mse"%string, mse, last) log
    /\ LRDeconvolve.score self' X = Ok (nmul (of_Z (-1)) mse).
Proof.
  intros Efit.
  pose proof (LRDeconvolve_fit_cases self X) as Hc. cbv zeta in Hc.
  set (fitting := LRDeconvolve.set_measured_y_ (mean_axis0 X) self) in *.
  destruct (LRDeconvolve._LR fitting (mean_axis0 X)) as [[d log']|e] eqn:ELR.
  2:{ rewrite Hc in Efit. discriminate. }
  destruct Hc as (r & Er & Efit'). rewrite Efit' in Efit.
  injection Efit as <- <-.
  unfold LRDeconvolve._LR, py_range in ELR. inv_bind ELR as v Eloop.
  change (LRDeconvolve.iterations fitting) with (LRDeconvolve.iterations self) in Eloop.
  destruct (Z.to_nat (LRDeconvolve.iterations self)) as [|last] eqn:EN.
  { simpl in Eloop. injection Eloop as <-. discriminate ELR. }
  destruct (loop_last (LR_body_unfold fitting (mean_axis0 X)) _ _ _ Eloop)
    as (before & stats & _ & _ & Estats & Hlog & Hcur).
  unfold return_current_O in ELR. rewrite Hcur in ELR. injection ELR as <- <-.
  destruct (save_iteration_stats_ok_inv _ _ _ Estats)
    as (r' & y & mse & rest & Er' & Ey & Emse & Hstats & _ & Hg).
  change (LRDeconvolve.impulse_response_y fitting)
    with (LRDeconvolve.impulse_response_y self) in Er'.
  assert (r' = r) as -> by congruence.
  injection Ey as <-.
  destruct (mean_squared_error_ok_inv _ _ Emse) as (Hlen & Hpos & Hfr & Hfm).
  rewrite mean_axis0_length in Hlen.
  exists (var_previous_O v), r, mse, last. cbn.
  split; [reflexivity|]. split; [reflexivity|]. split; [exact Hlen|].
  split; [lia|]. split; [exact Hfr|]. split; [exact Hfm|].
  split; [exact Hg|]. split; [reflexivity|]. split.
  - rewrite Hlog, Hstats. apply in_or_app. right. left. reflexivity.
  - unfold LRDeconvolve.score. cbn. rewrite Emse. reflexivity.
Qed.

(** A run of X4 on the two-row batch. *)
Lemma X4_witness :
  exists mse,
    In ("reconstruction_mse"%string, mse, 2)
       (match snd (LRDeconvolve.fit Samples.X2 Samples.plain) with
        | Ok log => log
        | Raise _ => []
        end)
    /\ LRDeconvolve.score (fst (LRDeconvolve.fit Samples.X2 Samples.plain)) Samples.X2
       = Ok (nmul (of_Z (-1)) mse).
Proof.
  destruct (@X4_fitted_plain_estimator
              float _ Samples.plain
              (fst (LRDeconvolve.fit Samples.X2 Samples.plain)) Samples.X2
              (match snd (LRDeconvolve.fit Samples.X2 Samples.plain) with
               | Ok log => log
               | Raise _ => []
               end))
    as (d & r & mse & last & _ & _ & _ & _ & _ & _ & _ & Hlast & Hin & Hscore);
    [vm_compute; reflexivity|].
  assert (last = 2) as -> by (vm_compute in Hlast; congruence).
  exists mse. split; [exact Hin | exact Hscore].
Defined.

(** X5. The plain estimator fits only two shapes of impulse response.
    Whenever [LRDeconvolve.fit] returns on a batch of [L] columns, the
    impulse response has one sample or [2 L - 1] samples: for any other
    length either an elementwise operation cannot be broadcast or the
    reconstruction error of the first iteration compares signals of
    different lengths, and [fit] raises. *)
Theorem X5_plain_fit_shapes
        {A : Type} `{Numeric A}
        (self self' : LRDeconvolve.t A) (X : batch A) (log : list (event A)) :
  LRDeconvolve.fit X self = (self', Ok log) ->
  length (LRDeconvolve.impulse_response_y self) = 1
  \/ length (LRDeconvolve.impulse_response_y self) = 2 * ncols X - 1.
Proof.
  intros Efit.
  pose proof (LRDeconvolve_fit_cases self X) as Hc. cbv zeta in Hc.
  set (fitting := LRDeconvolve.set_measured_y_ (mean_axis0 X) self) in *.
  set (m := mean_axis0 X) in *.
  set (h := LRDeconvolve.impulse_response_y self).
  destruct (LRDeconvolve._LR fitting m) as [[d log']|e] eqn:ELR.
  2:{ rewrite Hc in Efit. discriminate. }
  clear Hc Efit.
  unfold LRDeconvolve._LR, py_range in ELR. inv_bind ELR as v Eloop.
  destruct (Z.to_nat (LRDeconvolve.iterations fitting)) as [|k].
  { simpl in Eloop. injection Eloop as <-. discriminate ELR. }
  destruct (loop_first (LR_body_unfold fitting m) _ _ _ Eloop)
    as (O_1 & stats & Estep & Estats).
  change (LRDeconvolve._deconvolution_guess fitting m) with m in Estep.
  cbn [var_previous_O] in Estep.
  change (LRDeconvolve.impulse_response_y fitting) with h in Estep.
  unfold LR_update in Estep.
  inv_bind Estep as I EI. inv_bind Estep as blur Eblur. inv_bind Estep as corr Ecorr.
  destruct (save_iteration_stats_ok_inv _ _ _ Estats)
    as (r & y & mse & rest & Er & Ey & Emse & _).
  change (LRDeconvolve.impulse_response_y fitting) with h in Er.
  injection Ey as <-.
  destruct (mean_squared_error_ok_inv _ _ Emse) as (Hlen & Hpos & _).
  destruct (convolve_ok_inv _ _ EI) as (_ & _ & LI).
  destruct (convolve_ok_inv _ _ Ecorr) as (_ & _ & Lcorr).
  destruct (convolve_ok_inv _ _ Er) as (_ & _ & Lr).
  rewrite length_rev in Lcorr.
  pose proof (broadcast_length_cases _ _ _ Eblur) as Lblur.
  pose proof (broadcast_length_cases _ _ _ Estep) as LO1.
  pose proof (mean_axis0_length X) as Lm. fold m in Lm.
  lia.
Qed.

(** A run of X5: three samples of impulse response, two columns. *)
Lemma X5_witness :
  length (LRDeconvolve.impulse_response_y Samples.plain) = 1
  \/ length (LRDeconvolve.impulse_response_y Samples.plain) = 2 * ncols Samples.X2 - 1.
Proof.
  apply (@X5_plain_fit_shapes
           float _ Samples.plain
           (fst (LRDeconvolve.fit Samples.X2 Samples.plain)) Samples.X2
           (match snd (LRDeconvolve.fit Samples.X2 Samples.plain) with
            | Ok log => log
            | Raise _ => []
            end)).
  vm_compute. reflexivity.
Defined.


Section ShapeOnly.

Context {A : Type} `{Numeric A}.

Lemma same_shape_bind (r1 r2 : result (list A)) (k1 k2 : list A -> result (list A)) :
  same_shape r1 r2 ->
  (forall a b, length a = length b -> same_shape (k1 a) (k2 b)) ->
  same_shape (bind r1 k1) (bind r2 k2).
Proof.
  destruct r1 as [a|e1], r2 as [b|e2]; simpl; intros Hr Hk; auto; contradiction.
Qed.

Lemma length_zero_nil (a b : list A) :
  length a = length b -> (a = [] <-> b = []).
Proof.
  destruct a, b; simpl; intros E; try discriminate; split; congruence.
Qed.

Lemma convolve_same_shape (a a' b b' : list A) :
  length a = length a' -> length b = length b' ->
  same_shape (convolve a b) (convolve a' b').
Proof.
  intros Ha Hb.
  destruct (convolve a b) as [r|e] eqn:E, (convolve a' b') as [r'|e'] eqn:E'; simpl.
  - apply convolve_ok_inv in E, E'. lia.
  - apply convolve_ok_inv in E. apply convolve_raise_inv in E'.
    destruct E as (Hna & Hnb & _), E' as (_ & [->| ->]);
      [destruct a | destruct b]; simpl in *; congruence.
  - apply convolve_ok_inv in E'. apply convolve_raise_inv in E.
    destruct E' as (Hna & Hnb & _), E as (_ & [->| ->]);
      [destruct a' | destruct b']; simpl in *; congruence.
  - apply convolve_raise_inv in E, E'. destruct E as (-> & _), E' as (-> & _).
    reflexivity.
Qed.

Lemma broadcast_same_shape (op op' : A -> A -> A) (a a' b b' : list A) :
  length a = length a' -> length b = length b' ->
  same_shape (broadcast op a b) (broadcast op' a' b').
Proof.
  intros Ha Hb.
  destruct (broadcast op a b) as [r|e] eqn:E,
           (broadcast op' a' b') as [r'|e'] eqn:E'; simpl.
  - apply broadcast_ok_inv in E, E'. destruct E as (_ & ->), E' as (_ & ->).
    rewrite Ha, Hb. destruct (length a' =? length b'); [reflexivity|].
    destruct (length a' =? 1); assumption || reflexivity.
  - apply broadcast_ok_inv in E. apply broadcast_raise_inv in E'.
    destruct E as (Hbc & _), E' as (_ & Hn). rewrite Ha, Hb in Hbc. contradiction.
  - apply broadcast_ok_inv in E'. apply broadcast_raise_inv in E.
    destruct E' as (Hbc & _), E as (_ & Hn). rewrite <- Ha, <- Hb in Hbc. contradiction.
  - apply broadcast_raise_inv in E, E'. destruct E as (-> & _), E' as (-> & _).
    reflexivity.
Qed.

Lemma LR_update_same_shape (h h' m m' O O' : list A) :
  length h = length h' -> length m = length m' -> length O = length O' ->
  same_shape (LR_update h m O) (LR_update h' m' O').
Proof.
  intros Hh Hm HO. unfold LR_update, np_divide, np_multiply.
  apply same_shape_bind; [apply convolve_same_shape; assumption|].
  intros I I' HI.
  apply same_shape_bind; [apply broadcast_same_shape; assumption|].
  intros b b' Hb.
  apply same_shape_bind;
    [apply convolve_same_shape; [assumption | rewrite !length_rev; assumption]|].
  intros c c' Hc. apply broadcast_same_shape; assumption.
Qed.

Lemma l2_step_same_shape (h h' : list A) (alpha alpha' : A) (m m' O O' : list A) :
  length h = length h' -> length m = length m' -> length O = length O' ->
  same_shape (l2_step h alpha m O) (l2_step h' alpha' m' O').
Proof.
  intros Hh Hm HO. unfold l2_step.
  pose proof (LR_update_same_shape h h' m m' O O' Hh Hm HO) as Hs.
  destruct (LR_update h m O), (LR_update h' m' O'); simpl in *; auto.
  rewrite !length_map. exact Hs.
Qed.

Lemma gaussian_kernel_length (x : list A) (width : A) :
  length (gaussian_kernel x width) = length x.
Proof.
  unfold gaussian_kernel. rewrite !length_map. reflexivity.
Qed.

Lemma fister_step_same_shape (h h' x x' : list A) (w w' : A) (m m' O O' : list A) :
  length h = length h' -> length x = length x' ->
  length m = length m' -> length O = length O' ->
  same_shape (fister_step h x w m O) (fister_step h' x' w' m' O').
Proof.
  intros Hh Hx Hm HO. unfold fister_step.
  apply same_shape_bind; [apply LR_update_same_shape; assumption|].
  intros a b Hab. apply convolve_same_shape; [assumption|].
  rewrite !gaussian_kernel_length. exact Hx.
Qed.

Lemma iterate_same_shape (f g : list A -> result (list A)) :
  (forall a b, length a = length b -> same_shape (f a) (g b)) ->
  forall (k : nat) (a b : list A),
    length a = length b -> same_shape (iterate f k a) (iterate g k b).
Proof.
  intros Hfg. induction k as [|k IH]; intros a b Hab; [exact Hab|].
  simpl. apply same_shape_bind; [apply Hfg, Hab|]. intros a' b' Hab'. apply IH, Hab'.
Qed.

(** The outcome of [LRL2Deconvolve.fit] seen from the caller. *)
Lemma LRL2_fit_outcome (self : LRL2Deconvolve.t A) (X : batch A) :
  snd (LRL2Deconvolve.fit X self)
  = match LRL2Deconvolve._LRL2 self (mean_axis0 X) with
    | Ok _ => Ok tt
    | Raise e => Raise e
    end.
Proof.
  pose proof (LRL2Deconvolve_fit_cases self X) as Hc.
  destruct (LRL2Deconvolve._LRL2 self (mean_axis0 X)) as [d|e].
  - destruct Hc as (r & _ & ->). reflexivity.
  - rewrite Hc. reflexivity.
Qed.

End ShapeOnly.

(** X6. Whether [LRL2Deconvolve.fit] returns, and the exception it
    raises when it does not, are decided by the shapes alone: two
    estimators whose impulse responses have the same length and that run
    the same number of iterations, on two batches of the same number of
    columns, return both or raise the same exception, whatever their
    penalty coefficients and whatever the values in the arrays. *)
Theorem X6_L2_fit_outcome_depends_on_shapes_only
        {A : Type} `{Numeric A}
        (self1 self2 : LRL2Deconvolve.t A) (X1 X2 : batch A) :
  length (LRDeconvolve.impulse_response_y (LRL2Deconvolve.super self1))
  = length (LRDeconvolve.impulse_response_y (LRL2Deconvolve.super self2)) ->
  Z.to_nat (LRDeconvolve.iterations (LRL2Deconvolve.super self1))
  = Z.to_nat (LRDeconvolve.iterations (LRL2Deconvolve.super self2)) ->
  ncols X1 = ncols X2 ->
  snd (LRL2Deconvolve.fit X1 self1) = snd (LRL2Deconvolve.fit X2 self2).
Proof.
  intros Hh HN Hc.
  rewrite !LRL2_fit_outcome, !LRL2_as_iteration, HN. clear HN.
  destruct (Z.to_nat (LRDeconvolve.iterations (LRL2Deconvolve.super self2))) as [|k];
    [reflexivity|].
  pose proof (@iterate_same_shape
                A
                (l2_step (LRDeconvolve.impulse_response_y (LRL2Deconvolve.super self1))
                         (LRL2Deconvolve.alpha self1) (mean_axis0 X1))
                (l2_step (LRDeconvolve.impulse_response_y (LRL2Deconvolve.super self2))
                         (LRL2Deconvolve.alpha self2) (mean_axis0 X2))) as Hs.
  assert (Hm : length (mean_axis0 X1) = length (mean_axis0 X2))
    by (rewrite !mean_axis0_length; exact Hc).
  assert (Hstep : forall a b : list A,
             length a = length b ->
             same_shape
               (l2_step (LRDeconvolve.impulse_response_y (LRL2Deconvolve.super self1))
                        (LRL2Deconvolve.alpha self1) (mean_axis0 X1) a)
               (l2_step (LRDeconvolve.impulse_response_y (LRL2Deconvolve.super self2))
                        (LRL2Deconvolve.alpha self2) (mean_axis0 X2) b))
    by (intros a b Hab; apply l2_step_same_shape; assumption).
  specialize (Hs Hstep (S k) _ _ Hm).
  destruct (iterate _ (S k) (mean_axis0 X1)), (iterate _ (S k) (mean_axis0 X2));
    simpl in Hs; try contradiction; congruence.
Qed.

(** A run of X6: another penalty coefficient and another batch of two
    columns. *)
Lemma X6_witness :
  snd (LRL2Deconvolve.fit Samples.X2 Samples.l2)
  = snd (LRL2Deconvolve.fit MoreSamples.X2_other MoreSamples.l2_other_alpha).
Proof.
  apply (@X6_L2_fit_outcome_depends_on_shapes_only
           float _ Samples.l2 MoreSamples.l2_other_alpha
           Samples.X2 MoreSamples.X2_other); reflexivity.
Defined.

Section ShapePreserving.

Context {A : Type} `{Numeric A}.

Lemma nonempty_of_length (a : list A) : 1 <= length a -> a <> [].
Proof.
  destruct a; simpl; [lia | discriminate].
Qed.

(** Against a kernel of one or of [2 L - 1] samples, valid-mode
    convolution of [L] samples returns [L] samples. *)
Lemma convolve_preserves (a b : list A) (L : nat) :
  1 <= L -> length a = L -> length b = 1 \/ length b = 2 * L - 1 ->
  exists r, convolve a b = Ok r /\ length r = L.
Proof.
  intros HL Ha Hb.
  destruct (@convolve_ok A _ a b) as (r & Er).
  - apply nonempty_of_length. lia.
  - apply nonempty_of_length. lia.
  - exists r. split; [exact Er|].
    apply convolve_ok_inv in Er. lia.
Qed.

Lemma broadcast_preserves (op : A -> A -> A) (a b : list A) (L : nat) :
  length a = L -> length b = L ->
  exists r, broadcast op a b = Ok r /\ length r = L.
Proof.
  intros Ha Hb.
  destruct (@broadcast_ok A op a b) as (r & Er);
    [unfold broadcastable; lia|].
  exists r. split; [exact Er|].
  apply broadcast_length_cases in Er. lia.
Qed.

Lemma LR_update_preserves (h m O : list A) (L : nat) :
  1 <= L -> length m = L -> length O = L ->
  length h = 1 \/ length h = 2 * L - 1 ->
  exists O', LR_update h m O = Ok O' /\ length O' = L.
Proof.
  intros HL Hm HO Hh. unfold LR_update, np_divide, np_multiply.
  destruct (@convolve_preserves O h L HL HO Hh) as (I & -> & LI). simpl.
  destruct (@broadcast_preserves ndiv m I L Hm LI) as (blur & -> & Lb). simpl.
  destruct (@convolve_preserves blur (rev h) L HL Lb) as (corr & -> & Lc);
    [rewrite length_rev; exact Hh|]. simpl.
  apply broadcast_preserves; assumption.
Qed.

Lemma iterate_preserves (step : list A -> result (list A)) (L : nat) :
  (forall O, length O = L -> exists O', step O = Ok O' /\ length O' = L) ->
  forall (k : nat) (start : list A),
    length start = L ->
    exists final, iterate step k start = Ok final /\ length final = L.
Proof.
  intros Hstep. induction k as [|k IH]; intros start Hs.
  - exists start. split; [reflexivity | exact Hs].
  - simpl. destruct (Hstep start Hs) as (O' & -> & HO'). simpl. apply IH, HO'.
Qed.

End ShapePreserving.

(** X7. The shapes on which the regularised fits always return.  With
    at least one iteration, a batch of [L >= 1] columns and an impulse
    response of one or of [2 L - 1] samples, [LRL2Deconvolve.fit]
    returns whatever the values and the penalty coefficient, and the
    deconvolved and the reconvolved signal it stores have [L] samples.
    The same holds for [LRFisterDeconvolve.fit] without logging when the
    impulse-response domain, too, has one or [2 L - 1] samples. *)
Theorem X7_regularised_fits_return
        {A : Type} `{Numeric A} (X : batch A) :
  1 <= ncols X ->
  (forall self : LRL2Deconvolve.t A,
      (1 <= LRDeconvolve.iterations (LRL2Deconvolve.super self))%Z ->
      length (LRDeconvolve.impulse_response_y (LRL2Deconvolve.super self)) = 1
      \/ length (LRDeconvolve.impulse_response_y (LRL2Deconvolve.super self))
         = 2 * ncols X - 1 ->
      exists self' d r,
        LRL2Deconvolve.fit X self = (self', Ok tt)
        /\ LRDeconvolve.deconvolved_y_ (LRL2Deconvolve.super self') = Some d
        /\ LRDeconvolve.reconvolved_y_ (LRL2Deconvolve.super self') = Some r
        /\ length d = ncols X
        /\ length r = ncols X)
  /\
  (forall self : LRFisterDeconvolve.t A,
      LRFisterDeconvolve.logging self = false ->
      (1 <= LRDeconvolve.iterations (LRFisterDeconvolve.super self))%Z ->
      length (LRDeconvolve.impulse_response_y (LRFisterDeconvolve.super self)) = 1
      \/ length (LRDeconvolve.impulse_response_y (LRFisterDeconvolve.super self))
         = 2 * ncols X - 1 ->
      length (LRDeconvolve.impulse_response_x (LRFisterDeconvolve.super self)) = 1
      \/ length (LRDeconvolve.impulse_response_x (LRFisterDeconvolve.super self))
         = 2 * ncols X - 1 ->
      exists self' d r,
        LRFisterDeconvolve.fit X self = (self', Ok [])
        /\ LRDeconvolve.deconvolved_y_ (LRFisterDeconvolve.super self') = Some d
        /\ LRDeconvolve.reconvolved_y_ (LRFisterDeconvolve.super self') = Some r
        /\ length d = ncols X
        /\ length r = ncols X).
Proof.
  intros HL. pose proof (mean_axis0_length X) as Lm. split.
  - intros self HN Hh.
    pose proof (LRL2Deconvolve_fit_cases self X) as Hc.
    rewrite LRL2_as_iteration in Hc.
    destruct (Z.to_nat (LRDeconvolve.iterations (LRL2Deconvolve.super self)))
      as [|k] eqn:EN; [lia|].
    destruct (@iterate_preserves
                A
                (l2_step (LRDeconvolve.impulse_response_y (LRL2Deconvolve.super self))
                         (LRL2Deconvolve.alpha self) (mean_axis0 X))
                (ncols X)) with (k := S k) (start := mean_axis0 X)
      as (d & Ed & Ld); [|exact Lm|].
    { intros O HO. unfold l2_step.
      destruct (@LR_update_preserves A _ _ _ O _ HL Lm HO Hh) as (O' & -> & HO'). simpl.
      eexists. split; [reflexivity|]. rewrite length_map. exact HO'. }
    rewrite Ed in Hc. destruct Hc as (r & Er & Efit).
    eexists. exists d, r. split; [exact Efit|]. cbn.
    split; [reflexivity|]. split; [reflexivity|]. split; [exact Ld|].
    apply convolve_ok_inv in Er. lia.
  - intros self Hlog HN Hh Hx.
    pose proof (LRFisterDeconvolve_fit_cases self X) as Hc. cbv zeta in Hc.
    rewrite LR_fister_as_iteration in Hc by exact Hlog.
    cbn [LRFisterDeconvolve.super LRFisterDeconvolve.with_super
         LRFisterDeconvolve.regularizer_width
         LRDeconvolve.iterations LRDeconvolve.impulse_response_y
         LRDeconvolve.impulse_response_x LRDeconvolve.set_measured_y_] in Hc.
    destruct (Z.to_nat (LRDeconvolve.iterations (LRFisterDeconvolve.super self)))
      as [|k] eqn:EN; [lia|].
    destruct (@iterate_preserves
                A
                (fister_step
                   (LRDeconvolve.impulse_response_y (LRFisterDeconvolve.super self))
                   (LRDeconvolve.impulse_response_x (LRFisterDeconvolve.super self))
                   (LRFisterDeconvolve.regularizer_width self) (mean_axis0 X))
                (ncols X)) with (k := S k) (start := mean_axis0 X)
      as (d & Ed & Ld); [|exact Lm|].
    { intros O HO. unfold fister_step.
      destruct (@LR_update_preserves A _ _ _ O _ HL Lm HO Hh) as (O' & -> & HO'). simpl.
      apply convolve_preserves; [exact HL | exact HO'|].
      rewrite gaussian_kernel_length. exact Hx. }
    rewrite Ed in Hc. cbn [bind] in Hc. destruct Hc as (r & Er & Efit).
    eexists. exists d, r. split; [exact Efit|]. cbn.
    split; [reflexivity|]. split; [reflexivity|]. split; [exact Ld|].
    apply convolve_ok_inv in Er. lia.
Qed.

(** A run of X7: two columns, three samples of impulse response. *)
Lemma X7_witness :
  1 <= ncols Samples.X2
  /\ exists d,
      LRDeconvolve.deconvolved_y_
        (LRL2Deconvolve.super (fst (LRL2Deconvolve.fit Samples.X2 Samples.l2)))
      = Some d
      /\ length d = 2.
Proof.
  split; [simpl; lia|].
  destruct (@X7_regularised_fits_return float _ Samples.X2) as (Hl2 & _);
    [simpl; lia|].
  destruct (Hl2 Samples.l2) as (self' & d & r & Efit & Hd & _ & Ld & _).
  - vm_compute. discriminate.
  - right. reflexivity.
  - exists d. rewrite Efit. split; [exact Hd | exact Ld].
Defined.

(** X8. With a ground truth [LRFisterGrid.fit] never fails on its own:
    every column it reads is in the table, so it returns exactly when
    the grid search returns, and otherwise raises what the grid search
    raised. *)
Theorem X8_grid_fit_with_ground_truth
        {A : Type} `{Numeric A}
        (metrics : deconvolution_metrics A) (self : LRFisterGrid.t A)
        (X : batch A) (g : list A) :
  LRFisterGrid.ground_truth_y self = Some g ->
  snd (LRFisterGrid.fit metrics X self)
  = match GridSearchCV.fit (LRFisterGrid.deconvolver_of self)
                           (LRFisterGrid.regularizer_widths self) 5
                           (LRFisterGrid.scoring_of metrics self) "reconvolved" X with
    | Ok _ => Ok tt
    | Raise e => Raise e
    end.
Proof.
  intros Hgt.
  destruct (GridSearchCV.fit _ _ _ _ _ _) as [gs|e] eqn:Es.
  - destruct (LRFisterGrid_fit_with_truth metrics self X Hgt Es)
      as (d & r & means & _ & _ & _ & Hok & _).
    exact Hok.
  - rewrite (LRFisterGrid_fit_search_raises metrics self X Es). reflexivity.
Qed.

(** A run of X8: five rows, a ground truth. *)
Lemma X8_witness :
  snd (LRFisterGrid.fit DeconvolutionMetrics.spec_metrics Samples.X5 Samples.grid)
  = Ok tt.
Proof.
  rewrite (@X8_grid_fit_with_ground_truth
             float _ DeconvolutionMetrics.spec_metrics Samples.grid Samples.X5
             [1; 2]%float eq_refl).
  vm_compute. reflexivity.
Defined.

(** X9. What [LRFisterGrid.predict] answers.  On a never-fit selector it
    raises AttributeError.  Once the grid search of a [fit] has
    returned, it answers the deconvolved signal of the refitted winner,
    whatever its argument, also when that [fit] went on to raise the
    missing-key error for want of a ground truth.  When the grid search
    raised, it answers as before that [fit]. *)
Theorem X9_grid_predict
        {A : Type} `{Numeric A}
        (metrics : deconvolution_metrics A) (self : LRFisterGrid.t A) (X : batch A) :
  let search :=
    GridSearchCV.fit (LRFisterGrid.deconvolver_of self)
                     (LRFisterGrid.regularizer_widths self) 5
                     (LRFisterGrid.scoring_of metrics self) "reconvolved" X in
  (forall impulse_x impulse_y conv_x widths its ground_truth (X' : batch A),
      LRFisterGrid.predict
        (LRFisterGrid.__init__ impulse_x impulse_y conv_x widths its ground_truth) X'
      = Raise AttributeError)
  /\
  (forall gs,
      search = Ok gs ->
      exists d,
        LRDeconvolve.deconvolved_y_
          (LRFisterDeconvolve.super (GridSearchCV.best_estimator_ gs)) = Some d
        /\ forall X' : batch A,
            LRFisterGrid.predict (fst (LRFisterGrid.fit metrics X self)) X' = Ok d)
  /\
  (forall e,
      search = Raise e ->
      forall X' : batch A,
        LRFisterGrid.predict (fst (LRFisterGrid.fit metrics X self)) X'
        = LRFisterGrid.predict self X').
Proof.
  intros search. split; [reflexivity|]. split.
  - intros gs Es.
    destruct (LRFisterGrid.ground_truth_y self) as [g|] eqn:Hgt.
    + destruct (LRFisterGrid_fit_with_truth metrics self X Hgt Es)
        as (d & r & means & Hd & _ & _ & _ & _ & Hdy & _).
      exists d. split; [exact Hd|]. intros X'.
      unfold LRFisterGrid.predict. rewrite Hdy. reflexivity.
    + destruct (LRFisterGrid_fit_without_truth metrics self X Hgt Es)
        as (_ & d & r & Hd & _ & Efit).
      exists d. split; [exact Hd|]. intros X'. rewrite Efit. reflexivity.
  - intros e Es X'.
    rewrite (LRFisterGrid_fit_search_raises metrics self X Es). reflexivity.
Qed.

(** A run of X9: after the missing-key error [predict] answers. *)
Lemma X9_witness :
  snd (LRFisterGrid.fit DeconvolutionMetrics.spec_metrics
                        Samples.X5 Samples.grid_no_truth) = Raise KeyError
  /\ exists d,
      LRFisterGrid.predict
        (fst (LRFisterGrid.fit DeconvolutionMetrics.spec_metrics
                               Samples.X5 Samples.grid_no_truth)) Samples.X2
      = Ok d.
Proof.
  split; [vm_compute; reflexivity|].
  destruct (@X9_grid_predict
              float _ DeconvolutionMetrics.spec_metrics
              Samples.grid_no_truth Samples.X5) as (_ & Hok & _).
  destruct (GridSearchCV.fit
              (LRFisterGrid.deconvolver_of Samples.grid_no_truth)
              (LRFisterGrid.regularizer_widths Samples.grid_no_truth) 5
              (LRFisterGrid.scoring_of DeconvolutionMetrics.spec_metrics
                                       Samples.grid_no_truth)
              "reconvolved" Samples.X5) as [gs|e] eqn:Es.
  - destruct (Hok gs eq_refl) as (d & _ & Hp). exists d. apply Hp.
  - vm_compute in Es. discriminate Es.
Defined.

(** X10. The signal the selector stores is an iterate of the Fister
    recurrence.  Once the grid search of [LRFisterGrid.fit] has
    returned, the selector's iteration count is at least one and its
    deconvolved signal is the iterate of that index of the Fister
    recurrence, run with the selected width from the mean of all the
    rows of the batch. *)
Theorem X10_grid_stores_fister_iterate
        {A : Type} `{Numeric A}
        (metrics : deconvolution_metrics A) (self : LRFisterGrid.t A)
        (X : batch A) (gs : GridSearchCV.fitted) :
  GridSearchCV.fit (LRFisterGrid.deconvolver_of self)
                   (LRFisterGrid.regularizer_widths self) 5
                   (LRFisterGrid.scoring_of metrics self) "reconvolved" X = Ok gs ->
  exists w d,
    nth_error (LRFisterGrid.regularizer_widths self) (GridSearchCV.best_index_ gs)
    = Some w
    /\ (1 <= LRFisterGrid.iterations self)%Z
    /\ fister_recurrence (LRFisterGrid.impulse_response_y self)
                         (LRFisterGrid.impulse_response_x self) w (mean_axis0 X)
                         (Z.to_nat (LRFisterGrid.iterations self)) = Ok d
    /\ LRFisterGrid.deconvolved_y_ (fst (LRFisterGrid.fit metrics X self)) = Some d.
Proof.
  intros Es.
  destruct (GridSearchCV_fit_inv _ _ _ _ _ _ Es)
    as (folds & means & w & log & Hw & Hf & Hres & Hmeans & Hbi & Hnth & Hrefit).
  assert (Hstored : exists d,
             LRDeconvolve.deconvolved_y_
               (LRFisterDeconvolve.super (GridSearchCV.best_estimator_ gs)) = Some d
             /\ LRFisterGrid.deconvolved_y_ (fst (LRFisterGrid.fit metrics X self))
                = Some d).
  { destruct (LRFisterGrid.ground_truth_y self) as [g|] eqn:Hgt.
    - destruct (LRFisterGrid_fit_with_truth metrics self X Hgt Es)
        as (d & r & means' & Hd & _ & _ & _ & _ & Hdy & _).
      exists d. split; [exact Hd | exact Hdy].
    - destruct (LRFisterGrid_fit_without_truth metrics self X Hgt Es)
        as (_ & d & r & Hd & _ & Efit).
      exists d. split; [exact Hd|]. rewrite Efit. reflexivity. }
  destruct Hstored as (d & Hd & Hdy).
  pose proof (LRFisterDeconvolve_fit_cases
                (GridSearchCV.set_regularizer_width
                   w (GridSearchCV.clone (LRFisterGrid.deconvolver_of self))) X) as Hc.
  cbv zeta in Hc.
  rewrite LR_fister_as_iteration in Hc by reflexivity.
  cbn [LRFisterDeconvolve.super LRFisterDeconvolve.with_super
       LRFisterDeconvolve.regularizer_width LRFisterDeconvolve.__init__
       LRDeconvolve.__init__ GridSearchCV.set_regularizer_width GridSearchCV.clone
       LRFisterGrid.deconvolver_of
       LRDeconvolve.iterations LRDeconvolve.impulse_response_y
       LRDeconvolve.impulse_response_x LRDeconvolve.set_measured_y_] in Hc.
  destruct (Z.to_nat (LRFisterGrid.iterations self)) as [|k] eqn:EN.
  { rewrite Hc in Hrefit. discriminate Hrefit. }
  destruct (iterate _ (S k) (mean_axis0 X)) as [final|e] eqn:Eit; cbn [bind] in Hc.
  2:{ rewrite Hc in Hrefit. discriminate Hrefit. }
  destruct Hc as (r & _ & Efit). rewrite Efit in Hrefit.
  injection Hrefit as Hbest _. rewrite <- Hbest in Hd. cbn in Hd.
  injection Hd as <-.
  exists w, final. split; [rewrite Hbi; exact Hnth|]. split; [lia|].
  split; [|exact Hdy].
  unfold fister_recurrence. rewrite recurrence_iterate. exact Eit.
Qed.

(** A run of X10 on the five-row batch. *)
Lemma X10_witness :
  exists w d,
    fister_recurrence Samples.h Samples.x w (mean_axis0 Samples.X5) 3 = Ok d
    /\ LRFisterGrid.deconvolved_y_
         (fst (LRFisterGrid.fit DeconvolutionMetrics.spec_metrics
                                Samples.X5 Samples.grid)) = Some d.
Proof.
  destruct (GridSearchCV.fit
              (LRFisterGrid.deconvolver_of Samples.grid)
              (LRFisterGrid.regularizer_widths Samples.grid) 5
              (LRFisterGrid.scoring_of DeconvolutionMetrics.spec_metrics Samples.grid)
              "reconvolved" Samples.X5) as [gs|e] eqn:Es.
  - destruct (X10_grid_stores_fister_iterate
                DeconvolutionMetrics.spec_metrics Samples.grid Samples.X5 Es)
      as (w & d & _ & _ & Hrec & Hd).
    exists w, d. split; [exact Hrec | exact Hd].
  - vm_compute in Es. discriminate Es.
Defined.

(** X11. Which [fit] assigns the measured signal.  [LRDeconvolve.fit]
    and [LRFisterDeconvolve.fit] leave the mean of the batch in
    [measured_y_] whether they return or raise; [LRL2Deconvolve.fit]
    keeps it in a local variable and never assigns the attribute, which
    stays what it was (missing on an instance never fitted
    otherwise). *)
Theorem X11_measured_signal_assignment {A : Type} `{Numeric A} (X : batch A) :
  (forall self : LRDeconvolve.t A,
      LRDeconvolve.measured_y_ (fst (LRDeconvolve.fit X self)) = Some (mean_axis0 X))
  /\
  (forall self : LRFisterDeconvolve.t A,
      LRDeconvolve.measured_y_
        (LRFisterDeconvolve.super (fst (LRFisterDeconvolve.fit X self)))
      = Some (mean_axis0 X))
  /\
  (forall self : LRL2Deconvolve.t A,
      LRDeconvolve.measured_y_ (LRL2Deconvolve.super (fst (LRL2Deconvolve.fit X self)))
      = LRDeconvolve.measured_y_ (LRL2Deconvolve.super self)).
Proof.
  split; [|split]; intros self.
  - pose proof (LRDeconvolve_fit_cases self X) as Hc. cbv zeta in Hc.
    destruct (LRDeconvolve._LR _ _) as [[d log]|e].
    + destruct Hc as (r & _ & ->). reflexivity.
    + rewrite Hc. reflexivity.
  - pose proof (LRFisterDeconvolve_fit_cases self X) as Hc. cbv zeta in Hc.
    destruct (LRFisterDeconvolve._LR_fister _ _) as [[d log]|e].
    + destruct Hc as (r & _ & ->). reflexivity.
    + rewrite Hc. reflexivity.
  - pose proof (LRL2Deconvolve_fit_cases self X) as Hc.
    destruct (LRL2Deconvolve._LRL2 _ _) as [d|e].
    + destruct Hc as (r & _ & ->). reflexivity.
    + rewrite Hc. reflexivity.
Qed.

Section Refit.

Context {A : Type} `{Numeric A}.

Lemma for_each_ext {S : Type} (b1 b2 : nat -> S -> result S) :
  (forall i s, b1 i s = b2 i s) ->
  forall (range : list nat) (s : S), for_each b1 range s = for_each b2 range s.
Proof.
  intros Hb. induction range as [|i range IH]; intros s; [reflexivity|].
  simpl. rewrite Hb. destruct (b2 i s); simpl; [apply IH | reflexivity].
Qed.

(** [_LR] reads the impulse response, the iteration count, the ground
    truth and the measured signal of the instance, and nothing else. *)
Lemma LR_reads_configuration (s1 s2 : LRDeconvolve.t A) (m : list A) :
  LRDeconvolve.impulse_response_y s1 = LRDeconvolve.impulse_response_y s2 ->
  LRDeconvolve.iterations s1 = LRDeconvolve.iterations s2 ->
  LRDeconvolve.ground_truth_y s1 = LRDeconvolve.ground_truth_y s2 ->
  LRDeconvolve.measured_y_ s1 = LRDeconvolve.measured_y_ s2 ->
  LRDeconvolve._LR s1 m = LRDeconvolve._LR s2 m.
Proof.
  intros Hh Hn Hg Hm. unfold LRDeconvolve._LR.
  change (LRDeconvolve._deconvolution_guess s1 m) with m.
  change (LRDeconvolve._deconvolution_guess s2 m) with m.
  rewrite Hn, Hh.
  rewrite (for_each_ext
             (LRDeconvolve._LR_body s1 m (np_flip (LRDeconvolve.impulse_response_y s2)))
             (LRDeconvolve._LR_body s2 m (np_flip (LRDeconvolve.impulse_response_y s2))));
    [reflexivity|].
  intros i v.
  unfold LRDeconvolve._LR_body, LRDeconvolve._save_iteration_stats.
  rewrite Hh, Hg, Hm. reflexivity.
Qed.

End Refit.

(** X12. A fit overwrites what an earlier fit left.  When
    [LRDeconvolve.fit] returns on a batch, it leaves the instance the
    same whether the instance was fresh or had gone through another
    call of [fit] before, successful or failed; and whether it returns,
    what it logs and what it raises do not depend on that earlier call
    either. *)
Theorem X12_fit_overwrites_earlier_fit
        {A : Type} `{Numeric A} (self : LRDeconvolve.t A) (X1 X2 : batch A) :
  let earlier := fst (LRDeconvolve.fit X1 self) in
  snd (LRDeconvolve.fit X2 earlier) = snd (LRDeconvolve.fit X2 self)
  /\ (is_ok (snd (LRDeconvolve.fit X2 self)) = true ->
      fst (LRDeconvolve.fit X2 earlier) = fst (LRDeconvolve.fit X2 self)).
Proof.
  intros earlier.
  assert (Hshape :
            exists fitted : option (list A * list A),
              earlier
              = match fitted with
                | Some (d, r) =>
                    LRDeconvolve.set_reconvolved_y_
                      r (LRDeconvolve.set_deconvolved_y_
                           d (LRDeconvolve.set_measured_y_ (mean_axis0 X1) self))
                | None => LRDeconvolve.set_measured_y_ (mean_axis0 X1) self
                end).
  { unfold earlier.
    pose proof (LRDeconvolve_fit_cases self X1) as Hc. cbv zeta in Hc.
    destruct (LRDeconvolve._LR _ _) as [[d log]|e].
    - destruct Hc as (r & _ & ->). exists (Some (d, r)). reflexivity.
    - rewrite Hc. exists None. reflexivity. }
  destruct Hshape as (fitted & Hearlier).
  pose proof (LRDeconvolve_fit_cases earlier X2) as Hc1.
  pose proof (LRDeconvolve_fit_cases self X2) as Hc2. cbv zeta in Hc1, Hc2.
  assert (HLR : LRDeconvolve._LR
                  (LRDeconvolve.set_measured_y_ (mean_axis0 X2) earlier) (mean_axis0 X2)
                = LRDeconvolve._LR
                    (LRDeconvolve.set_measured_y_ (mean_axis0 X2) self) (mean_axis0 X2)).
  { apply LR_reads_configuration; rewrite Hearlier;
      destruct fitted as [[d r]|]; reflexivity. }
  rewrite HLR in Hc1.
  destruct (LRDeconvolve._LR
              (LRDeconvolve.set_measured_y_ (mean_axis0 X2) self) (mean_axis0 X2))
    as [[d2 log2]|e2].
  - destruct Hc1 as (r1 & Er1 & ->). destruct Hc2 as (r2 & Er2 & ->).
    assert (Hh : LRDeconvolve.impulse_response_y earlier
                 = LRDeconvolve.impulse_response_y self)
      by (rewrite Hearlier; destruct fitted as [[d r]|]; reflexivity).
    rewrite Hh in Er1. assert (r1 = r2) as -> by congruence.
    split; [reflexivity|]. intros _. cbn [fst].
    rewrite Hearlier. destruct fitted as [[d r]|]; reflexivity.
  - rewrite Hc1, Hc2. split; [reflexivity | discriminate].
Qed.

(** A run of X12: a failed fit on four columns, then a fit on two. *)
Lemma X12_witness :
  is_ok (snd (LRDeconvolve.fit Samples.X2 Samples.plain)) = true
  /\ fst (LRDeconvolve.fit Samples.X2 (fst (LRDeconvolve.fit Samples.X4 Samples.plain)))
     = fst (LRDeconvolve.fit Samples.X2 Samples.plain).
Proof.
  assert (Hok : is_ok (snd (LRDeconvolve.fit Samples.X2 Samples.plain)) = true)
    by (vm_compute; reflexivity).
  split; [exact Hok|].
  destruct (@X12_fit_overwrites_earlier_fit float _ Samples.plain Samples.X4 Samples.X2)
    as (_ & Hstate).
  apply Hstate, Hok.
Defined.

Section RealSums.

Lemma real_sum_ge_start (l : list R) :
  forall acc : R,
    Forall (fun e => (0 < e)%R) l -> (acc <= fold_left Rplus l acc)%R.
Proof.
  induction l as [|e l IH]; intros acc Hpos; simpl; [lra|].
  inversion Hpos as [|e' l' He Hl]; subst.
  specialize (IH (acc + e)%R Hl). lra.
Qed.

Lemma real_sum_ge_element (l : list R) :
  forall (acc e : R),
    Forall (fun e => (0 < e)%R) l -> (0 <= acc)%R -> In e l ->
    (e <= fold_left Rplus l acc)%R.
Proof.
  induction l as [|a l IH]; intros acc e Hpos Hacc Hin; [destruct Hin|].
  inversion Hpos as [|a' l' Ha Hl]; subst. simpl.
  destruct Hin as [<-|Hin].
  - pose proof (real_sum_ge_start (acc + a)%R Hl). lra.
  - apply IH; [exact Hl | lra | exact Hin].
Qed.

End RealSums.

(** X13. Over the reals, where nothing is rounded,
    [_normalized_gaussian] returns weights: for every domain, every
    center and every width that is not zero, the result has one entry
    per sample of the domain, every entry is positive and at most 1, and
    on a non-empty domain the entries sum to 1.  (At width zero the code
    divides by zero and the entries are NaN.) *)
Theorem X13_normalized_gaussian_weights (x : list R) (mu sigma : R) :
  sigma <> 0%R ->
  let G := LRFisterDeconvolve._normalized_gaussian x mu sigma in
  length G = length x
  /\ Forall (fun g => (0 < g <= 1)%R) G
  /\ (x <> [] -> np_sum G = 1%R).
Proof.
  intros _ G.
  set (profile :=
         map (fun xi => nexp (nmul (ndiv (of_Z (-1)) (of_Z 2))
                                   (nsquare (ndiv (nsub xi mu) sigma)))) x).
  assert (HG : G = map (fun g => ndiv g (np_sum profile)) profile) by reflexivity.
  assert (Hpos : Forall (fun e => (0 < e)%R) profile).
  { apply Forall_forall. intros e He. apply in_map_iff in He.
    destruct He as (xi & <- & _). apply exp_pos. }
  assert (Hsum : x <> [] -> (0 < np_sum profile)%R).
  { intros Hx. unfold np_sum.
    change (nzero (A := R)) with 0%R. change (nadd (A := R)) with Rplus.
    apply real_sum_positive; [exact Hpos | lra|].
    unfold profile. destruct x; [congruence | discriminate]. }
  split; [rewrite HG; unfold profile; rewrite !length_map; reflexivity|].
  split.
  - destruct x as [|x0 x']; [rewrite HG; constructor|].
    specialize (Hsum ltac:(discriminate)).
    rewrite HG. apply Forall_forall. intros g Hg. apply in_map_iff in Hg.
    destruct Hg as (e & <- & He).
    assert (He0 : (0 < e)%R) by (rewrite Forall_forall in Hpos; apply Hpos, He).
    assert (Hle : (e <= np_sum profile)%R).
    { unfold np_sum.
      change (nzero (A := R)) with 0%R. change (nadd (A := R)) with Rplus.
      apply real_sum_ge_element; [exact Hpos | lra | exact He]. }
    change (ndiv (A := R)) with Rdiv. split.
    + apply Rdiv_lt_0_compat; assumption.
    + apply (Rmult_le_reg_r (np_sum profile)); [exact Hsum|].
      unfold Rdiv. rewrite Rmult_assoc, Rinv_l by lra. lra.
  - intros Hx. specialize (Hsum Hx). rewrite HG.
    rewrite (sum_scaled profile real_exact_division).
    + change (ndiv (A := R)) with Rdiv. field. lra.
    + change (nzero (A := R)) with 0%R. lra.
Qed.

(** A run of X13 on the three-sample domain. *)
Lemma X13_witness :
  np_sum (LRFisterDeconvolve._normalized_gaussian Samples.x_exact 0%R 1%R) = 1%R.
Proof.
  destruct (@X13_normalized_gaussian_weights Samples.x_exact 0%R 1%R)
    as (_ & _ & Hs); [lra|].
  apply Hs. discriminate.
Defined.

(** X14. [fit] does not touch the configuration.  Whether it returns or
    raises, [fit] leaves the impulse response, the domains, the
    iteration count, the ground truth and the regularisation strength of
    the instance as they were; this holds for the three estimators and
    for the selector with its grid of widths. *)
Theorem X14_fit_keeps_configuration {A : Type} `{Numeric A} (X : batch A) :
  (forall self : LRDeconvolve.t A,
      let after := fst (LRDeconvolve.fit X self) in
      LRDeconvolve.impulse_response_x after = LRDeconvolve.impulse_response_x self
      /\ LRDeconvolve.impulse_response_y after = LRDeconvolve.impulse_response_y self
      /\ LRDeconvolve.convolved_x after = LRDeconvolve.convolved_x self
      /\ LRDeconvolve.reconvolved_x after = LRDeconvolve.reconvolved_x self
      /\ LRDeconvolve.deconvolved_x after = LRDeconvolve.deconvolved_x self
      /\ LRDeconvolve.iterations after = LRDeconvolve.iterations self
      /\ LRDeconvolve.ground_truth_y after = LRDeconvolve.ground_truth_y self)
  /\
  (forall self : LRFisterDeconvolve.t A,
      let before := LRFisterDeconvolve.super self in
      let after := LRFisterDeconvolve.super (fst (LRFisterDeconvolve.fit X self)) in
      LRDeconvolve.impulse_response_x after = LRDeconvolve.impulse_response_x before
      /\ LRDeconvolve.impulse_response_y after = LRDeconvolve.impulse_response_y before
      /\ LRDeconvolve.convolved_x after = LRDeconvolve.convolved_x before
      /\ LRDeconvolve.reconvolved_x after = LRDeconvolve.reconvolved_x before
      /\ LRDeconvolve.deconvolved_x after = LRDeconvolve.deconvolved_x before
      /\ LRDeconvolve.iterations after = LRDeconvolve.iterations before
      /\ LRDeconvolve.ground_truth_y after = LRDeconvolve.ground_truth_y before
      /\ LRFisterDeconvolve.regularizer_width (fst (LRFisterDeconvolve.fit X self))
         = LRFisterDeconvolve.regularizer_width self
      /\ LRFisterDeconvolve.logging (fst (LRFisterDeconvolve.fit X self))
         = LRFisterDeconvolve.logging self)
  /\
  (forall self : LRL2Deconvolve.t A,
      let before := LRL2Deconvolve.super self in
      let after := LRL2Deconvolve.super (fst (LRL2Deconvolve.fit X self)) in
      LRDeconvolve.impulse_response_x after = LRDeconvolve.impulse_response_x before
      /\ LRDeconvolve.impulse_response_y after = LRDeconvolve.impulse_response_y before
      /\ LRDeconvolve.convolved_x after = LRDeconvolve.convolved_x before
      /\ LRDeconvolve.reconvolved_x after = LRDeconvolve.reconvolved_x before
      /\ LRDeconvolve.deconvolved_x after = LRDeconvolve.deconvolved_x before
      /\ LRDeconvolve.iterations after = LRDeconvolve.iterations before
      /\ LRDeconvolve.ground_truth_y after = LRDeconvolve.ground_truth_y before
      /\ LRL2Deconvolve.alpha (fst (LRL2Deconvolve.fit X self))
         = LRL2Deconvolve.alpha self)
  /\
  (forall (metrics : deconvolution_metrics A) (self : LRFisterGrid.t A),
      let after := fst (LRFisterGrid.fit metrics X self) in
      LRFisterGrid.impulse_response_x after = LRFisterGrid.impulse_response_x self
      /\ LRFisterGrid.impulse_response_y after = LRFisterGrid.impulse_response_y self
      /\ LRFisterGrid.convolved_x after = LRFisterGrid.convolved_x self
      /\ LRFisterGrid.reconvolved_x after = LRFisterGrid.reconvolved_x self
      /\ LRFisterGrid.deconvolved_x after = LRFisterGrid.deconvolved_x self
      /\ LRFisterGrid.regularizer_widths after = LRFisterGrid.regularizer_widths self
      /\ LRFisterGrid.iterations after = LRFisterGrid.iterations self
      /\ LRFisterGrid.ground_truth_y after = LRFisterGrid.ground_truth_y self).
Proof.
  split; [|split; [|split]].
  - intros self after. unfold after.
    pose proof (LRDeconvolve_fit_cases self X) as Hc. cbv zeta in Hc.
    destruct (LRDeconvolve._LR _ _) as [[d log]|e].
    + destruct Hc as (r & _ & ->). repeat split.
    + rewrite Hc. repeat split.
  - intros self before after. unfold after, before.
    pose proof (LRFisterDeconvolve_fit_cases self X) as Hc. cbv zeta in Hc.
    destruct (LRFisterDeconvolve._LR_fister _ _) as [[d log]|e].
    + destruct Hc as (r & _ & ->). repeat split.
    + rewrite Hc. repeat split.
  - intros self before after. unfold after, before.
    pose proof (LRL2Deconvolve_fit_cases self X) as Hc.
    destruct (LRL2Deconvolve._LRL2 _ _) as [d|e].
    + destruct Hc as (r & _ & ->). repeat split.
    + rewrite Hc. repeat split.
  - intros metrics self after. unfold after.
    unfold LRFisterGrid.fit, mbind, eval, assign, mret.
    destruct (GridSearchCV.fit _ _ _ _ _ _) as [gs|e]; [|repeat split].
    destruct (getattr (LRDeconvolve.deconvolved_y_ _)) as [d|e]; [|repeat split].
    destruct (bind _ _) as [r|e]; [|repeat split].
    repeat (destruct (GridSearchCV.lookup _ _) as [?c|?e]; [|repeat split]).
    repeat split.
Qed.

(** X15. The telemetry a Fister fit writes.  When
    [LRFisterDeconvolve.fit] returns, it has written nothing if logging
    is off, and if logging is on exactly one "reconstruction_mse" scalar
    for each iteration, at the steps [0, 1, ...] in order. *)
Theorem X15_fister_fit_telemetry
        {A : Type} `{Numeric A}
        (self self' : LRFisterDeconvolve.t A) (X : batch A) (log : list (event A)) :
  LRFisterDeconvolve.fit X self = (self', Ok log) ->
  (LRFisterDeconvolve.logging self = false -> log = [])
  /\ (LRFisterDeconvolve.logging self = true ->
      steps_of "reconstruction_mse" log
      = seq 0 (Z.to_nat (LRDeconvolve.iterations (LRFisterDeconvolve.super self)))).
Proof.
  intros Efit.
  pose proof (LRFisterDeconvolve_fit_cases self X) as Hc. cbv zeta in Hc.
  set (fitting := LRFisterDeconvolve.with_super
                    (LRDeconvolve.set_measured_y_ (mean_axis0 X)) self) in *.
  destruct (LRFisterDeconvolve._LR_fister fitting (mean_axis0 X))
    as [[d log']|e] eqn:ELR.
  2:{ rewrite Hc in Efit. discriminate. }
  destruct Hc as (r & _ & Efit'). rewrite Efit' in Efit. injection Efit as _ <-.
  split; intros Hlog.
  - rewrite LR_fister_as_iteration in ELR by exact Hlog.
    destruct (Z.to_nat _); [discriminate|].
    destruct (iterate _ _ _); [|discriminate].
    injection ELR as _ <-. reflexivity.
  - unfold LRFisterDeconvolve._LR_fister, py_range in ELR.
    change (LRFisterDeconvolve.logging fitting) with (LRFisterDeconvolve.logging self)
      in ELR.
    rewrite Hlog in ELR. inv_bind ELR as v Eloop.
    change (LRDeconvolve.iterations (LRFisterDeconvolve.super fitting))
      with (LRDeconvolve.iterations (LRFisterDeconvolve.super self)) in Eloop.
    pose proof (loop_log (LR_fister_body_logging_unfold fitting (mean_axis0 X))
                         "reconstruction_mse"%string
                         (@save_iteration_stats_steps
                            A _ (LRFisterDeconvolve.super fitting))
                         _ _ _ _ Eloop) as Hsteps.
    unfold return_current_O in ELR.
    destruct (var_current_O v); [|discriminate]. injection ELR as _ <-.
    exact Hsteps.
Qed.

(** A run of X15: three logged iterations write the steps 0, 1, 2. *)
Lemma X15_witness :
  steps_of "reconstruction_mse"
           (match snd (LRFisterDeconvolve.fit Samples.X2 MoreSamples.fister_logged) with
            | Ok log => log
            | Raise _ => []
            end)
  = [0; 1; 2]%nat.
Proof.
  destruct (@X15_fister_fit_telemetry
              float _ MoreSamples.fister_logged
              (fst (LRFisterDeconvolve.fit Samples.X2 MoreSamples.fister_logged))
              Samples.X2
              (match snd (LRFisterDeconvolve.fit Samples.X2
                                                 MoreSamples.fister_logged) with
               | Ok log => log
               | Raise _ => []
               end))
    as (_ & Hon); [vm_compute; reflexivity|].
  exact (Hon eq_refl).
Defined.

Section RealL2.




End RealL2.



(** ** Binary64: NaN is absorbing *)

Section NaN.

Lemma is_nan_spec_inv (x : float) :
  PrimFloat.is_nan x = true -> Prim2SF x = S754_nan.
Proof.
  unfold PrimFloat.is_nan. rewrite eqb_spec. unfold SFeqb.
  destruct (Prim2SF x) as [s|s| |s m e]; simpl; try reflexivity;
    try (destruct s; discriminate).
  rewrite Z.compare_refl, Pos.compare_cont_refl.
  destruct s; discriminate.
Qed.

Lemma nan_mul_l (a b : float) :
  PrimFloat.is_nan a = true -> PrimFloat.is_nan (PrimFloat.mul a b) = true.
Proof.
  intros Ha. apply is_nan_of_spec. rewrite mul_spec, (is_nan_spec_inv _ Ha).
  reflexivity.
Qed.

Lemma nan_mul_r (a b : float) :
  PrimFloat.is_nan b = true -> PrimFloat.is_nan (PrimFloat.mul a b) = true.
Proof.
  intros Hb. apply is_nan_of_spec. rewrite mul_spec, (is_nan_spec_inv _ Hb).
  destruct (Prim2SF a); reflexivity.
Qed.

Lemma nan_add_l (a b : float) :
  PrimFloat.is_nan a = true -> PrimFloat.is_nan (PrimFloat.add a b) = true.
Proof.
  intros Ha. apply is_nan_of_spec. rewrite add_spec, (is_nan_spec_inv _ Ha).
  reflexivity.
Qed.

Lemma nan_add_r (a b : float) :
  PrimFloat.is_nan b = true -> PrimFloat.is_nan (PrimFloat.add a b) = true.
Proof.
  intros Hb. apply is_nan_of_spec. rewrite add_spec, (is_nan_spec_inv _ Hb).
  destruct (Prim2SF a); reflexivity.
Qed.

Lemma nan_div_l (a b : float) :
  PrimFloat.is_nan a = true -> PrimFloat.is_nan (PrimFloat.div a b) = true.
Proof.
  intros Ha. apply is_nan_of_spec. rewrite div_spec, (is_nan_spec_inv _ Ha).
  reflexivity.
Qed.

Lemma nan_sqrt (a : float) :
  PrimFloat.is_nan a = true -> PrimFloat.is_nan (PrimFloat.sqrt a) = true.
Proof.
  intros Ha. apply is_nan_of_spec. rewrite sqrt_spec, (is_nan_spec_inv _ Ha).
  reflexivity.
Qed.

(** The L2 correction of NaN is NaN. *)
Lemma l2_correction_nan (alpha o : float) :
  PrimFloat.is_nan o = true -> PrimFloat.is_nan (l2_correction alpha o) = true.
Proof.
  intros Ho. unfold l2_correction.
  cbn [nadd ndiv nmul nsqrt of_Z F64.float_numeric].
  apply nan_div_l, nan_add_r, nan_sqrt, nan_add_r, nan_mul_r, Ho.
Qed.

Lemma has_nan_nth (a : list float) :
  has_nan a = true <-> exists j, j < length a /\ PrimFloat.is_nan (nth j a 0%float) = true.
Proof.
  unfold has_nan. rewrite existsb_exists. split.
  - intros (x & Hin & Hx). destruct (In_nth _ _ 0%float Hin) as (j & Hj & <-). eauto.
  - intros (j & Hj & Hx). exists (nth j a 0%float). split; [apply nth_In, Hj | exact Hx].
Qed.

Lemma has_nan_map (f : float -> float) (a : list float) :
  (forall x, PrimFloat.is_nan x = true -> PrimFloat.is_nan (f x) = true) ->
  has_nan a = true -> has_nan (map f a) = true.
Proof.
  intros Hf. unfold has_nan. rewrite !existsb_exists.
  intros (x & Hin & Hx). exists (f x). split; [apply in_map, Hin | apply Hf, Hx].
Qed.

Lemma sum_nan_acc (l : list float) :
  forall acc, PrimFloat.is_nan acc = true ->
              PrimFloat.is_nan (fold_left PrimFloat.add l acc) = true.
Proof.
  induction l as [|x l IH]; intros acc Hacc; [exact Hacc|].
  simpl. apply IH, nan_add_l, Hacc.
Qed.

Lemma sum_nan (l : list float) :
  forall acc, has_nan l = true ->
              PrimFloat.is_nan (fold_left PrimFloat.add l acc) = true.
Proof.
  unfold has_nan.
  induction l as [|x l IH]; intros acc Hl; [discriminate|].
  simpl in *. destruct (PrimFloat.is_nan x) eqn:Hx.
  - apply sum_nan_acc, nan_add_r, Hx.
  - apply IH, Hl.
Qed.

Lemma dot_nan_l (a b : list float) :
  forall j, j < length a -> j < length b ->
            PrimFloat.is_nan (nth j a 0%float) = true ->
            PrimFloat.is_nan (dot a b) = true.
Proof.
  intros j Ha Hb Hj. unfold dot, np_sum. apply sum_nan. unfold has_nan.
  revert b j Ha Hb Hj.
  induction a as [|x a IH]; intros b j Ha Hb Hj; [simpl in Ha; lia|].
  destruct b as [|y b]; [simpl in Hb; lia|].
  destruct j as [|j]; simpl in *.
  - rewrite (@nan_mul_l _ _ Hj). reflexivity.
  - rewrite (IH b j); [apply orb_true_r | lia | lia | exact Hj].
Qed.

Lemma dot_nan_r (a b : list float) :
  forall j, j < length a -> j < length b ->
            PrimFloat.is_nan (nth j b 0%float) = true ->
            PrimFloat.is_nan (dot a b) = true.
Proof.
  intros j Ha Hb Hj. unfold dot, np_sum. apply sum_nan. unfold has_nan.
  revert b j Ha Hb Hj.
  induction a as [|x a IH]; intros b j Ha Hb Hj; [simpl in Ha; lia|].
  destruct b as [|y b]; [simpl in Hb; lia|].
  destruct j as [|j]; simpl in *.
  - rewrite (@nan_mul_r _ _ Hj). reflexivity.
  - rewrite (IH b j); [apply orb_true_r | lia | lia | exact Hj].
Qed.

(** A NaN in the first operand of a valid-mode convolution shows in the
    result. *)
Lemma convolve_nan (a b r : list float) :
  has_nan a = true -> convolve a b = Ok r -> has_nan r = true.
Proof.
  intros Ha E. apply has_nan_nth in Ha. destruct Ha as (j & Hj & Hnan).
  unfold convolve in E.
  destruct a as [|x a]; [discriminate|]. destruct b as [|y b]; [discriminate|].
  destruct (Nat.ltb_spec (length (x :: a)) (length (y :: b))) as [Hlt|Hge];
    injection E as <-; unfold has_nan; apply existsb_exists.
  - exists (dot (y :: b) (rev (x :: a))). split.
    + apply in_map_iff. exists 0. split; [reflexivity|].
      apply in_seq. lia.
    + apply (@dot_nan_r (y :: b) (rev (x :: a)) (length (x :: a) - 1 - j));
        rewrite ?length_rev; try lia.
      rewrite rev_nth by lia.
      replace (length (x :: a) - S (length (x :: a) - 1 - j)) with j by lia.
      exact Hnan.
  - set (k := Nat.min j (length (x :: a) - length (y :: b))).
    exists (dot (skipn k (x :: a)) (rev (y :: b))). split.
    + apply in_map_iff. exists k. split; [reflexivity|].
      apply in_seq. unfold k. cbn [length] in *. lia.
    + apply (@dot_nan_l (skipn k (x :: a)) (rev (y :: b)) (j - k));
        rewrite ?length_rev, ?length_skipn; unfold k; cbn [length] in *; try lia.
      rewrite nth_skipn.
      replace (Nat.min j (S (length a) - S (length b))
               + (j - Nat.min j (S (length a) - S (length b)))) with j by lia.
      exact Hnan.
Qed.

(** A NaN in the first operand of an elementwise product shows in the
    result. *)
Lemma multiply_nan (a b r : list float) :
  has_nan a = true -> b <> [] -> np_multiply a b = Ok r -> has_nan r = true.
Proof.
  intros Ha Hb E. unfold np_multiply, broadcast in E.
  destruct (Nat.eqb_spec (length a) (length b)) as [Hl|Hl].
  - injection E as <-. apply has_nan_nth in Ha. destruct Ha as (j & Hj & Hnan).
    unfold has_nan. clear Hb. revert b j Hl Hj Hnan.
    induction a as [|x a IH]; intros b j Hl Hj Hnan; [simpl in Hj; lia|].
    destruct b as [|y b]; [discriminate|].
    destruct j as [|j]; simpl in *.
    + cbn [nmul F64.float_numeric]. rewrite (@nan_mul_l _ _ Hnan). reflexivity.
    + rewrite (IH b j); [apply orb_true_r | lia | lia | exact Hnan].
  - destruct a as [|x [|x' a]].
    + discriminate Ha.
    + injection E as <-. unfold has_nan in Ha. simpl in Ha.
      rewrite orb_false_r in Ha.
      destruct b as [|y b]; [congruence|].
      unfold has_nan. simpl. cbn [nmul F64.float_numeric].
      rewrite (@nan_mul_l _ _ Ha). reflexivity.
    + destruct b as [|y [|y' b]]; try discriminate.
      injection E as <-.
      apply (@has_nan_map (fun z => PrimFloat.mul z y) (x :: x' :: a)); [|exact Ha].
      intros z Hz. apply nan_mul_l, Hz.
Qed.

(** A NaN in the estimate stays through a plain update and through an
    L2 step. *)
Lemma LR_update_nan (h m O O' : list float) :
  has_nan O = true -> LR_update h m O = Ok O' -> has_nan O' = true.
Proof.
  intros HO E. unfold LR_update in E.
  inv_bind E as I EI. inv_bind E as blur Eblur. inv_bind E as corr Ecorr.
  apply (@multiply_nan O corr O' HO); [|exact E].
  eapply convolve_nonempty; exact Ecorr.
Qed.

Lemma l2_step_nan (h : list float) (alpha : float) (m O O' : list float) :
  has_nan O = true -> l2_step h alpha m O = Ok O' -> has_nan O' = true.
Proof.
  intros HO E. unfold l2_step in E. inv_bind E as U EU. injection E as <-.
  apply has_nan_map; [apply l2_correction_nan|].
  exact (@LR_update_nan h m O U HO EU).
Qed.

Lemma l2_iterate_nan (h : list float) (alpha : float) (m : list float) (k : nat) :
  forall O O_k,
    has_nan O = true -> iterate (l2_step h alpha m) k O = Ok O_k -> has_nan O_k = true.
Proof.
  induction k as [|k IH]; intros O O_k HO E.
  - injection E as <-. exact HO.
  - simpl in E. inv_bind E as O1 E1.
    exact (IH O1 O_k (@l2_step_nan h alpha m O O1 HO E1) E).
Qed.

Lemma iterate_add {A : Type} (step : list A -> result (list A)) (j k : nat) (O : list A) :
  iterate step (j + k) O = (O_j <- iterate step j O ;; iterate step k O_j).
Proof.
  revert O. induction j as [|j IH]; intros O; [reflexivity|].
  simpl. destruct (step O) as [O1|e]; simpl; [apply IH | reflexivity].
Qed.

End NaN.

(** * The L2 correction on a negative radicand *)

Section L2Returns.

Context {A : Type} `{Numeric A}.

(** What a returning [LRL2Deconvolve.fit] has stored. *)
Lemma LRL2_fit_stores (self self' : LRL2Deconvolve.t A) (X : batch A) (N : nat) :
  let h := LRDeconvolve.impulse_response_y (LRL2Deconvolve.super self) in
  LRDeconvolve.iterations (LRL2Deconvolve.super self) = Z.of_nat N ->
  LRL2Deconvolve.fit X self = (self', Ok tt) ->
  exists d r,
    1 <= N
    /\ l2_recurrence h (LRL2Deconvolve.alpha self) (mean_axis0 X) N = Ok d
    /\ convolve d h = Ok r
    /\ LRDeconvolve.deconvolved_y_ (LRL2Deconvolve.super self') = Some d
    /\ LRDeconvolve.reconvolved_y_ (LRL2Deconvolve.super self') = Some r.
Proof.
  intros h Hits E.
  pose proof (LRL2Deconvolve_fit_cases self X) as Hc.
  rewrite LRL2_as_iteration, Hits, Nat2Z.id in Hc.
  destruct N as [|N'].
  - rewrite Hc in E. discriminate.
  - destruct (iterate _ (S N') (mean_axis0 X)) as [d|e] eqn:Eit.
    + destruct Hc as (r & Er & Efit). rewrite Efit in E. injection E as <-.
      exists d, r. split; [lia|]. split.
      * unfold l2_recurrence. rewrite recurrence_iterate. exact Eit.
      * split; [exact Er|]. split; reflexivity.
    + rewrite Hc in E. discriminate.
Qed.

(** It returns as soon as the recurrence is defined up to the last
    pass. *)
Lemma LRL2_fit_returns (self : LRL2Deconvolve.t A) (X : batch A) (N : nat) (O_N : list A) :
  LRDeconvolve.iterations (LRL2Deconvolve.super self) = Z.of_nat N ->
  1 <= N ->
  l2_recurrence (LRDeconvolve.impulse_response_y (LRL2Deconvolve.super self))
                (LRL2Deconvolve.alpha self) (mean_axis0 X) N = Ok O_N ->
  exists self', LRL2Deconvolve.fit X self = (self', Ok tt).
Proof.
  intros Hits HN Erec.
  pose proof (LRL2Deconvolve_fit_cases self X) as Hc.
  rewrite LRL2_as_iteration, Hits, Nat2Z.id in Hc.
  unfold l2_recurrence in Erec. rewrite recurrence_iterate in Erec.
  destruct N as [|N']; [lia|].
  rewrite Erec in Hc. destruct Hc as (r & _ & Efit). eauto.
Qed.

(** The errors [LRL2Deconvolve.fit] raises. *)
Lemma LRL2_fit_errors (self self' : LRL2Deconvolve.t A) (X : batch A) (e : exn) :
  LRL2Deconvolve.fit X self = (self', Raise e) ->
  e = ValueError \/ e = UnboundLocalError.
Proof.
  intros E.
  pose proof (LRL2Deconvolve_fit_cases self X) as Hc.
  destruct (LRL2Deconvolve._LRL2 self (mean_axis0 X)) as [d|e'] eqn:EL.
  - destruct Hc as (r & _ & Efit). rewrite Efit in E. discriminate.
  - rewrite Hc in E. injection E as _ ->.
    unfold LRL2Deconvolve._LRL2 in EL.
    apply bind_raise_inv in EL. destruct EL as [EL|(v & _ & EL)].
    + apply (loop_raise_inv (LRL2_body_unfold self (mean_axis0 X))) in EL.
      destruct EL as [(O & Es)|(O & i & Et)]; [|discriminate].
      left. unfold l2_step in Es.
      apply bind_raise_inv in Es. destruct Es as [Es|(O' & _ & Es)];
        [|discriminate].
      apply (LR_update_raise_inv _ _ _ Es).
    + right. unfold return_current_O in EL.
      destruct (var_current_O v); simpl in EL; [discriminate|].
      injection EL as <-. reflexivity.
Qed.

(** Whether the iteration returns, and what it raises, is a matter of
    the lengths and of the number of passes only. *)
Lemma LRL2_same_shape (self1 self2 : LRL2Deconvolve.t A) (m1 m2 : list A) :
  length (LRDeconvolve.impulse_response_y (LRL2Deconvolve.super self1))
  = length (LRDeconvolve.impulse_response_y (LRL2Deconvolve.super self2)) ->
  Z.to_nat (LRDeconvolve.iterations (LRL2Deconvolve.super self1))
  = Z.to_nat (LRDeconvolve.iterations (LRL2Deconvolve.super self2)) ->
  length m1 = length m2 ->
  same_shape (LRL2Deconvolve._LRL2 self1 m1) (LRL2Deconvolve._LRL2 self2 m2).
Proof.
  intros Hh HN Hm. rewrite !LRL2_as_iteration, HN.
  destruct (Z.to_nat (LRDeconvolve.iterations (LRL2Deconvolve.super self2))) as [|k];
    [reflexivity|].
  apply iterate_same_shape; [|exact Hm].
  intros a b Hab. apply l2_step_same_shape; assumption.
Qed.

End L2Returns.

(** C4, as the code has it.  In binary64, let some element [o] of the
    plain update of pass [k] have a negative radicand
    [1 + 2*alpha*o].  The pass does not fail: the correction cannot
    raise, the next estimate is the corrected update, and the corrected
    element is NaN.  Every later estimate holds a NaN.  Whether [fit]
    returns has nothing to do with the radicand: it returns exactly when
    the recurrence is defined up to the last pass, and with any other
    [alpha] and any other batch of as many columns it returns or raises
    the same exception.  When it returns, the deconvolved and the
    reconvolved signal it stores hold a NaN, and [predict] hands the
    deconvolved one out.  The only errors it raises are ValueError
    (shapes, empty operands) and UnboundLocalError (no pass through the
    loop). *)
Theorem C4_negative_radicand_gives_nan
        (self : LRL2Deconvolve.t float) (X : batch float)
        (N k : nat) (O_k O' : list float) (o : float) :
  let h := LRDeconvolve.impulse_response_y (LRL2Deconvolve.super self) in
  let alpha := LRL2Deconvolve.alpha self in
  let m := mean_axis0 X in
  LRDeconvolve.iterations (LRL2Deconvolve.super self) = Z.of_nat N ->
  k < N ->
  l2_recurrence h alpha m k = Ok O_k ->
  LR_update h m O_k = Ok O' ->
  In o O' ->
  PrimFloat.ltb (nadd (of_Z 1) (nmul (nmul (of_Z 2) alpha) o)) 0%float = true ->
  l2_recurrence h alpha m (S k) = Ok (map (l2_correction alpha) O')
  /\ In (l2_correction alpha o) (map (l2_correction alpha) O')
  /\ PrimFloat.is_nan (l2_correction alpha o) = true
  /\ (forall j O_j,
        k < j -> l2_recurrence h alpha m j = Ok O_j -> has_nan O_j = true)
  /\ ((exists self', LRL2Deconvolve.fit X self = (self', Ok tt))
      <-> (exists O_N, l2_recurrence h alpha m N = Ok O_N))
  /\ (forall (alpha' : float) (X' : batch float),
        ncols X' = ncols X ->
        snd (LRL2Deconvolve.fit
               X' {| LRL2Deconvolve.super := LRL2Deconvolve.super self;
                     LRL2Deconvolve.alpha := alpha' |})
        = snd (LRL2Deconvolve.fit X self))
  /\ (forall self',
        LRL2Deconvolve.fit X self = (self', Ok tt) ->
        exists d r,
          LRDeconvolve.deconvolved_y_ (LRL2Deconvolve.super self') = Some d
          /\ LRDeconvolve.reconvolved_y_ (LRL2Deconvolve.super self') = Some r
          /\ has_nan d = true
          /\ has_nan r = true
          /\ (forall X', LRL2Deconvolve.predict self' X' = Ok d))
  /\ (forall self' e,
        LRL2Deconvolve.fit X self = (self', Raise e) ->
        e = ValueError \/ e = UnboundLocalError).
Proof.
  intros h alpha m Hits Hk Ek EU Hin Hneg.
  assert (Enext : l2_recurrence h alpha m (S k) = Ok (map (l2_correction alpha) O')).
  { unfold l2_recurrence in *. simpl. rewrite Ek. simpl.
    unfold l2_step. rewrite EU. reflexivity. }
  assert (Hnan : PrimFloat.is_nan (l2_correction alpha o) = true)
    by (apply l2_correction_negative_radicand; exact Hneg).
  assert (Hin' : In (l2_correction alpha o) (map (l2_correction alpha) O'))
    by (apply in_map; exact Hin).
  assert (Hlater : forall j O_j,
             k < j -> l2_recurrence h alpha m j = Ok O_j -> has_nan O_j = true).
  { intros j O_j Hj Ej. unfold l2_recurrence in *.
    rewrite recurrence_iterate in Ej, Enext.
    replace j with (S k + (j - S k)) in Ej by lia.
    rewrite iterate_add, Enext in Ej. cbn [bind] in Ej.
    apply (@l2_iterate_nan h alpha m (j - S k) (map (l2_correction alpha) O') O_j);
      [|exact Ej].
    unfold has_nan. apply existsb_exists. eauto. }
  split; [exact Enext|]. split; [exact Hin'|]. split; [exact Hnan|].
  split; [exact Hlater|]. split; [|split; [|split]].
  - split.
    + intros (self' & Efit).
      destruct (LRL2_fit_stores self X N Hits Efit) as (d & r & _ & Ed & _). eauto.
    + intros (O_N & EN). apply (LRL2_fit_returns self X Hits ltac:(lia) EN).
  - intros alpha' X' Hc. rewrite !LRL2_fit_outcome.
    pose proof (@LRL2_same_shape
                  float _
                  {| LRL2Deconvolve.super := LRL2Deconvolve.super self;
                     LRL2Deconvolve.alpha := alpha' |}
                  self (mean_axis0 X') (mean_axis0 X) eq_refl eq_refl) as Hs.
    rewrite !mean_axis0_length in Hs. specialize (Hs Hc).
    destruct (LRL2Deconvolve._LRL2 _ (mean_axis0 X')),
      (LRL2Deconvolve._LRL2 self (mean_axis0 X));
      simpl in Hs; try contradiction; congruence.
  - intros self' Efit.
    destruct (LRL2_fit_stores self X N Hits Efit) as (d & r & HN & Ed & Er & Hd & Hr).
    exists d, r. split; [exact Hd|]. split; [exact Hr|].
    assert (Hdn : has_nan d = true) by (apply (Hlater N d Hk Ed)).
    split; [exact Hdn|]. split; [exact (convolve_nan d h Hdn Er)|].
    intros X'. unfold LRL2Deconvolve.predict, LRDeconvolve.predict.
    rewrite Hd. reflexivity.
  - intros self' e. apply LRL2_fit_errors.
Qed.

(** C4 fails on the code: with [alpha = -1] and a unit signal the
    radicand is [-1]; [fit] returns, and the deconvolved and reconvolved
    signals it stores, and [predict] hands out, are NaN. *)
Lemma C4_counterexample :
  let after := fst (LRL2Deconvolve.fit Samples.X1 Samples.l2_negative) in
  LR_update [1]%float [1]%float [1]%float = Ok [1]%float
  /\ nadd (of_Z 1) (nmul (nmul (of_Z 2) (-1)%float) 1%float) = (-1)%float
  /\ snd (LRL2Deconvolve.fit Samples.X1 Samples.l2_negative) = Ok tt
  /\ LRL2Deconvolve.predict after Samples.X1 = Ok [nan]
  /\ LRDeconvolve.reconvolved_y_ (LRL2Deconvolve.super after) = Some [nan].
Proof.
  vm_compute. repeat split; reflexivity.
Qed.

(** A run of C4 on three passes over a two-column batch with
    [alpha = -1]: the first pass already meets a negative radicand, the
    fit returns, and the signals it stores hold a NaN. *)
Lemma C4_witness :
  exists d r,
    snd (LRL2Deconvolve.fit Samples.X2 MoreSamples.l2_negative3) = Ok tt
    /\ LRDeconvolve.deconvolved_y_
         (LRL2Deconvolve.super
            (fst (LRL2Deconvolve.fit Samples.X2 MoreSamples.l2_negative3))) = Some d
    /\ LRDeconvolve.reconvolved_y_
         (LRL2Deconvolve.super
            (fst (LRL2Deconvolve.fit Samples.X2 MoreSamples.l2_negative3))) = Some r
    /\ has_nan d = true
    /\ has_nan r = true.
Proof.
  pose (after := fst (LRL2Deconvolve.fit Samples.X2 MoreSamples.l2_negative3)).
  pose (m := mean_axis0 Samples.X2).
  pose (O' := match LR_update Samples.h m m with Ok v => v | Raise _ => [] end).
  assert (Efit : LRL2Deconvolve.fit Samples.X2 MoreSamples.l2_negative3 = (after, Ok tt))
    by (vm_compute; reflexivity).
  destruct (@C4_negative_radicand_gives_nan
              MoreSamples.l2_negative3 Samples.X2 3 0 m O' (nth 0 O' 0%float))
    as (_ & _ & _ & _ & _ & _ & Hstored & _).
  - reflexivity.
  - lia.
  - reflexivity.
  - vm_compute. reflexivity.
  - vm_compute. left. reflexivity.
  - vm_compute. reflexivity.
  - destruct (Hstored after Efit) as (d & r & Hd & Hr & Hdn & Hrn & _).
    exists d, r. fold after. rewrite Efit.
    split; [reflexivity|]. split; [exact Hd|]. split; [exact Hr|].
    split; [exact Hdn | exact Hrn].
Defined.
